(** * Appointment lifecycle engine of the CampusConnect backend

    A shallow embedding of the appointment controller
    ([bookAppointment], [updateAppointmentStatus], [cancelAppointment],
    [completeAppointment]) together with the Mongoose schemas it writes
    through, and the properties of the booking state machine.

    Collections are finite maps from [_id] to document.  A handler is a
    computation over the database, the mail outbox and the error console;
    [return res.status(..).json(..)] ends it early, and an exception ends it
    in the handler's [catch], which answers 500.  A handler runs from its
    first line to its last without another request in between, except in
    the section on racing bookings, where two requests are suspended at an
    [await] and resumed in turn. *)

From stdpp Require Import gmap strings list fin_maps sorting.
From Stdlib Require Import ZArith Ascii String.

Open Scope string_scope.

(** ** Identifiers and enumerations *)

(** A Mongo [ObjectId], identified with its [toString()] rendering. *)
Abbreviation ObjectId := string (only parsing).

(** [status] enum of the Appointment schema. *)
Inductive Status : Set :=
  | pending
  | accepted
  | rejected
  | cancelled
  | completed.

(** [cancelledBy] enum of the Appointment schema ([None] is [null]). *)
Inductive Role : Set :=
  | RStudent
  | RFaculty.

#[global] Instance Status_eq_dec : EqDecision Status.
Proof. solve_decision. Defined.

#[global] Instance Role_eq_dec : EqDecision Role.
Proof. solve_decision. Defined.

(** The string a status is stored and printed as. *)
Definition status_name (s : Status) : string :=
  match s with
  | pending => "pending"
  | accepted => "accepted"
  | rejected => "rejected"
  | cancelled => "cancelled"
  | completed => "completed"
  end.

(** [rejected], [cancelled] and [completed] are the terminal states. *)
Definition terminal (s : Status) : bool :=
  match s with
  | pending | accepted => false
  | rejected | cancelled | completed => true
  end.

(** The filter [status: { $in: ["pending", "accepted"] }]. *)
Definition active_status (s : Status) : bool :=
  match s with
  | pending | accepted => true
  | _ => false
  end.

(** ** Documents *)

Module Appointment.
(** [appointmentSchema] of models/Appointment.js. *)
Record t : Type := mk {
  student : ObjectId;
  faculty : ObjectId;
  availability : ObjectId;
  date : Z;
  startTime : string;
  endTime : string;
  purpose : string;
  status : Status;
  cancelledBy : option Role;
  cancelReason : option string
}.

Definition set_status (s : Status) (a : t) : t :=
  mk (student a) (faculty a) (availability a) (date a) (startTime a)
     (endTime a) (purpose a) s (cancelledBy a) (cancelReason a).

Definition set_cancelledBy (r : option Role) (a : t) : t :=
  mk (student a) (faculty a) (availability a) (date a) (startTime a)
     (endTime a) (purpose a) (status a) r (cancelReason a).

Definition set_cancelReason (r : option string) (a : t) : t :=
  mk (student a) (faculty a) (availability a) (date a) (startTime a)
     (endTime a) (purpose a) (status a) (cancelledBy a) r.
End Appointment.

Module Faculty.
(** [facultySchema].  The path [department] is [None] in a stored
    document that lacks it; [user], the path the controller finds a
    faculty by, is there by typing. *)
Record t : Type := mk {
  user : ObjectId;
  name : string;
  phoneNumber : string;
  department : option ObjectId;
  availabilities : list ObjectId;
  appointments : list ObjectId
}.

(** [faculty.appointments.push(id)]. *)
Definition push_appointment (id : ObjectId) (f : t) : t :=
  mk (user f) (name f) (phoneNumber f) (department f) (availabilities f)
     (appointments f ++ [id]).
End Faculty.

Module Student.
(** Modelled from the spec: models/Student.js is not among the sources.
    A student wraps one user and holds the list of its appointments; the
    controller reads [user], [name] and [appointments]. *)
Record t : Type := mk {
  user : ObjectId;
  name : string;
  appointments : list ObjectId
}.

(** [student.appointments.push(id)]. *)
Definition push_appointment (id : ObjectId) (s : t) : t :=
  mk (user s) (name s) (appointments s ++ [id]).
End Student.

Module Availability.
(** Modelled from the spec: models/Availability.js is not among the
    sources.  A slot is owned by one faculty and has a day, a start and an
    end time, an active flag and a booked flag. *)
Record t : Type := mk {
  faculty : ObjectId;
  day : string;
  startTime : string;
  endTime : string;
  isActive : bool;
  isBooked : bool
}.

Definition set_isBooked (b : bool) (a : t) : t :=
  mk (faculty a) (day a) (startTime a) (endTime a) (isActive a) b.
End Availability.

Module User.
(** Modelled from the spec: models/User.js is not among the sources.  The
    controller reads only the [email] of a user. *)
Record t : Type := mk { email : string }.
End User.

(** ** Schema validators of the Appointment and Faculty models *)

Definition char_between (lo hi c : ascii) : bool :=
  (nat_of_ascii lo <=? nat_of_ascii c)%nat
  && (nat_of_ascii c <=? nat_of_ascii hi)%nat.

(** The [match] validator of [startTime] and [endTime]:
    [/^([01]\d|2[0-3]):([0-5]\d)$/]. *)
Definition match_HHMM (s : string) : bool :=
  match s with
  | String h1 (String h2 (String c (String m1 (String m2 EmptyString)))) =>
      ((char_between "0" "1" h1 && char_between "0" "9" h2)
       || (char_between "2" "2" h1 && char_between "0" "3" h2))
      && char_between ":" ":" c
      && char_between "0" "5" m1
      && char_between "0" "9" m2
  | _ => false
  end.

(** [maxlength: 200] on [purpose] and on [cancelReason]. *)
Definition maxlength_200 (s : string) : bool := (String.length s <=? 200)%nat.

(** [required] on a string path: the value is present and not empty. *)
Definition required_string (o : option string) : bool :=
  match o with
  | Some s => negb (String.eqb s "")
  | None => false
  end.

(** JavaScript truthiness of an optional string ([if (reason)]). *)
Definition truthy (o : option string) : bool :=
  match o with
  | Some s => negb (String.eqb s "")
  | None => false
  end.

(** What [Appointment.create] is handed by [bookAppointment]. *)
Record AppointmentInput : Type := {
  in_student : ObjectId;
  in_faculty : ObjectId;
  in_availability : ObjectId;
  in_date : Z;
  in_startTime : string;
  in_endTime : string;
  in_purpose : option string
}.

(** Validation run by [Appointment.create]. *)
Definition validate_new (i : AppointmentInput) : bool :=
  required_string (Some (in_startTime i)) && match_HHMM (in_startTime i)
  && required_string (Some (in_endTime i)) && match_HHMM (in_endTime i)
  && required_string (in_purpose i)
  && maxlength_200 (default "" (in_purpose i)).

(** [maxlength: 200] on the optional [cancelReason]. *)
Definition validate_cancelReason (a : Appointment.t) : bool :=
  match Appointment.cancelReason a with
  | Some r => maxlength_200 r
  | None => true
  end.

(** Validation run by [appointment.save()]: every path of the loaded
    document is validated, modified or not.  [startTime] and [endTime] are
    required and match HH:MM, [purpose] is required and at most 200
    characters long, [cancelReason] is at most 200 characters long; the
    references and the date are present and [status] and [cancelledBy] are
    inside their enums by typing. *)
Definition validate_saved (a : Appointment.t) : bool :=
  required_string (Some (Appointment.startTime a))
  && match_HHMM (Appointment.startTime a)
  && required_string (Some (Appointment.endTime a))
  && match_HHMM (Appointment.endTime a)
  && required_string (Some (Appointment.purpose a))
  && maxlength_200 (Appointment.purpose a)
  && validate_cancelReason a.

(** The [match] validator of [phoneNumber]: [/^\d{10}$/]. *)
Definition match_10_digits (s : string) : bool :=
  (String.length s =? 10)%nat
  && forallb (char_between "0" "9") (list_ascii_of_string s).

(** Validation run by [faculty.save()]: [name], [phoneNumber] and
    [department] are required, and [phoneNumber] is ten digits; [user] is
    present by typing. *)
Definition validate_faculty (f : Faculty.t) : bool :=
  required_string (Some (Faculty.name f))
  && required_string (Some (Faculty.phoneNumber f))
  && match_10_digits (Faculty.phoneNumber f)
  && bool_decide (is_Some (Faculty.department f)).

(** ** The database, the mail outbox and the console *)

Record Store : Type := mkStore {
  students : gmap string Student.t;
  faculties : gmap string Faculty.t;
  availabilities : gmap string Availability.t;
  appointments : gmap string Appointment.t;
  users : gmap string User.t
}.

Record Email : Type := mkEmail {
  mail_to : string;
  mail_subject : string;
  mail_body : string
}.

Record World : Type := mkWorld {
  db : Store;
  outbox : list Email;
  console : list string
}.

Definition set_db (f : Store → Store) (w : World) : World :=
  mkWorld (f (db w)) (outbox w) (console w).

Definition set_students (f : gmap string Student.t → gmap string Student.t)
    (s : Store) : Store :=
  mkStore (f (students s)) (faculties s) (availabilities s) (appointments s)
    (users s).

Definition set_faculties (f : gmap string Faculty.t → gmap string Faculty.t)
    (s : Store) : Store :=
  mkStore (students s) (f (faculties s)) (availabilities s) (appointments s)
    (users s).

Definition set_availabilities
    (f : gmap string Availability.t → gmap string Availability.t)
    (s : Store) : Store :=
  mkStore (students s) (faculties s) (f (availabilities s)) (appointments s)
    (users s).

Definition set_appointments
    (f : gmap string Appointment.t → gmap string Appointment.t)
    (s : Store) : Store :=
  mkStore (students s) (faculties s) (availabilities s) (f (appointments s))
    (users s).

(** ** Responses and the handler monad *)

(** What a handler can throw. *)
Inductive Exn : Set :=
  | CastError
  | ValidationError
  | TypeError
  | MailError.

(** The JSON body and status code of a response. *)
Record Response : Type := mkResponse {
  code : nat;
  success : bool;
  message : string;
  data : option (ObjectId * Appointment.t);
  error : option Exn
}.

Definition failure (c : nat) (msg : string) : Response :=
  mkResponse c false msg None None.

Definition ok_response (c : nat) (msg : string) (d : ObjectId * Appointment.t)
    : Response :=
  mkResponse c true msg (Some d) None.

Inductive Outcome (A : Type) : Type :=
  | Ok (a : A)
  | Reply (r : Response)
  | Throw (e : Exn).

Arguments Ok {A} a.
Arguments Reply {A} r.
Arguments Throw {A} e.

Definition M (A : Type) : Type := World → World * Outcome A.

#[global] Instance M_ret : MRet M := fun A (a : A) w => (w, Ok a).

#[global] Instance M_bind : MBind M := fun A B (k : A → M B) (m : M A) w =>
  match m w with
  | (w', Ok a) => k a w'
  | (w', Reply r) => (w', Reply r)
  | (w', Throw e) => (w', Throw e)
  end.

(** [return res.status(c).json(..)]. *)
Definition reply {A} (r : Response) : M A := fun w => (w, Reply r).

Definition throw {A} (e : Exn) : M A := fun w => (w, Throw e).

(** [if (!x) return res...]: continue with the document found. *)
Definition found {A} (o : option A) (r : Response) : M A :=
  match o with
  | Some a => mret a
  | None => reply r
  end.

(** [if (cond) return res...]. *)
Definition reject_if (cond : bool) (r : Response) : M unit :=
  if cond then reply r else mret tt.

(** Reading a field of a possibly null document ([studentUser.email]). *)
Definition deref {A} (o : option A) : M A :=
  match o with
  | Some a => mret a
  | None => throw TypeError
  end.

Definition modify_db (f : Store → Store) : M unit := fun w => (set_db f w, Ok tt).

(** [try { .. } catch (error) { console.error(label, error);
    res.status(500).json(..) }]. *)
Definition handler (label : string) (m : M Response) (w : World)
    : World * Response :=
  match m w with
  | (w', Ok r) => (w', r)
  | (w', Reply r) => (w', r)
  | (w', Throw e) =>
      (mkWorld (db w') (outbox w') (console w' ++ [label]),
       mkResponse 500 false "Server error" None (Some e))
  end.

(** ** Mongoose queries and writes *)

(** [Model.findOne(filter)]: a document passing the filter, if there is
    one.  Which one is returned when several pass is fixed here by the
    enumeration of the map; the controller filters on fields that identify
    one profile per user, and for appointments only asks whether there is
    a match. *)
Definition findOne {T} (P : T → bool) (c : gmap string T)
    : option (ObjectId * T) :=
  List.find (λ kv, P kv.2) (map_to_list c).

(** [Student.findOne({ user: id })]. *)
Definition Student_findOne (uid : ObjectId)
    : M (option (ObjectId * Student.t)) :=
  fun w =>
    (w, Ok (findOne (λ s, bool_decide (Student.user s = uid))
              (students (db w)))).

(** [Faculty.findOne({ user: id })]. *)
Definition Faculty_findOne (uid : ObjectId)
    : M (option (ObjectId * Faculty.t)) :=
  fun w =>
    (w, Ok (findOne (λ f, bool_decide (Faculty.user f = uid))
              (faculties (db w)))).

(** [Model.findById(id)] on a string of the request.  Mongoose casts the
    string to an ObjectId before it queries, and throws a CastError when
    the string is malformed; [castable] tells whether the cast goes
    through.  An ObjectId being identified with its string, the keys of a
    collection are castable, and a request names a document by the string
    of its [_id]: a string that is a key finds its document, any other
    castable string finds nothing (another spelling of a stored id, in
    upper case say, is not told apart from an id that is not stored). *)
Definition findById {T} (castable : string → bool) (c : gmap string T)
    (id : string) : Outcome (option T) :=
  match c !! id with
  | Some d => Ok (Some d)
  | None => if castable id then Ok None else Throw CastError
  end.

(** [Faculty.findById(facultyId)], [facultyId] from the request body. *)
Definition Faculty_findById (castable : string → bool) (id : string)
    : M (option Faculty.t) :=
  fun w => (w, findById castable (faculties (db w)) id).

(** [Availability.findById(availabilityId)], [availabilityId] from the
    request body. *)
Definition Availability_findById (castable : string → bool) (id : string)
    : M (option Availability.t) :=
  fun w => (w, findById castable (availabilities (db w)) id).

(** [Appointment.findById(appointmentId)], [appointmentId] from the request
    parameters. *)
Definition Appointment_findById (castable : string → bool) (id : string)
    : M (option Appointment.t) :=
  fun w => (w, findById castable (appointments (db w)) id).

(** [Model.findById(ref)] on a reference read from a document: an ObjectId,
    which needs no cast. *)
Definition Student_findById (id : ObjectId) : M (option Student.t) :=
  fun w => (w, Ok (students (db w) !! id)).

Definition Faculty_findById_ref (id : ObjectId) : M (option Faculty.t) :=
  fun w => (w, Ok (faculties (db w) !! id)).

Definition Availability_findById_ref (id : ObjectId)
    : M (option Availability.t) :=
  fun w => (w, Ok (availabilities (db w) !! id)).

Definition User_findById (id : ObjectId) : M (option User.t) :=
  fun w => (w, Ok (users (db w) !! id)).

(** The filter [{ student, date, status: { $in: ["pending", "accepted"] } }]. *)
Definition same_day_active (sid : ObjectId) (d : Z) (a : Appointment.t) : bool :=
  bool_decide (Appointment.student a = sid)
  && bool_decide (Appointment.date a = d)
  && active_status (Appointment.status a).

(** [new Date(date)] as it is cast into a query filter: [None] is an
    Invalid Date, which Mongoose refuses to cast. *)
Definition castDate (d : option Z) : M Z :=
  match d with
  | Some z => mret z
  | None => throw CastError
  end.

(** [Appointment.findOne({ student, date, status: { $in: [..] } })]. *)
Definition Appointment_findOne (sid : ObjectId) (d : Z)
    : M (option (ObjectId * Appointment.t)) :=
  fun w => (w, Ok (findOne (same_day_active sid d) (appointments (db w)))).

(** The document [Appointment.create] builds: [status] as given, the other
    paths at their defaults. *)
Definition new_appointment (i : AppointmentInput) : Appointment.t :=
  Appointment.mk (in_student i) (in_faculty i) (in_availability i) (in_date i)
    (in_startTime i) (in_endTime i) (default "" (in_purpose i)) pending None None.

(** [Appointment.create(..)]: validate, then insert under a new [_id], an
    id no stored appointment has. *)
Definition Appointment_create (i : AppointmentInput)
    : M (ObjectId * Appointment.t) :=
  fun w =>
    if validate_new i then
      let id := fresh (dom (appointments (db w))) in
      (set_db (set_appointments (insert id (new_appointment i))) w,
       Ok (id, new_appointment i))
    else (w, Throw ValidationError).

(** [appointment.save()] after the assignments [modified]: validate the
    document in memory, every path of it, then write the modified paths to
    the stored document; the document in memory is what the response
    carries. *)
Definition Appointment_save (id : ObjectId)
    (modified : Appointment.t → Appointment.t) (doc : Appointment.t)
    : M Appointment.t :=
  if validate_saved (modified doc) then
    modify_db (set_appointments (alter modified id));; mret (modified doc)
  else throw ValidationError.

(** [availability.isBooked = b; await availability.save()].  The
    validators of the Availability schema, which is not among the sources,
    are taken to pass. *)
Definition Availability_save_isBooked (id : ObjectId) (b : bool) : M unit :=
  modify_db (set_availabilities (alter (Availability.set_isBooked b) id)).

(** [student.appointments.push(id); await student.save()].  The validators
    of the Student schema, which is not among the sources, are taken to
    pass. *)
Definition Student_push_appointment (sid id : ObjectId) : M unit :=
  modify_db (set_students (alter (Student.push_appointment id) sid)).

(** [faculty.appointments.push(id); await faculty.save()] on the faculty
    document [faculty] in memory: the document is validated against
    [facultySchema], every path of it, and then the modified path is
    written. *)
Definition Faculty_push_appointment (fid : ObjectId) (faculty : Faculty.t)
    (id : ObjectId) : M unit :=
  if validate_faculty (Faculty.push_appointment id faculty)
  then modify_db (set_faculties (alter (Faculty.push_appointment id) fid))
  else throw ValidationError.

(** [s.charAt(0).toUpperCase() + s.slice(1)]. *)
Definition capitalize (s : string) : string :=
  match s with
  | EmptyString => EmptyString
  | String c r =>
      String (if char_between "a" "z" c
              then ascii_of_nat (nat_of_ascii c - 32) else c) r
  end.

(** [reason ? ` Reason: ${reason}` : ""]. *)
Definition reasonText (reason : option string) : string :=
  if truthy reason then " Reason: " ++ default "" reason else "".

(** What [bookAppointment] holds once its checks have passed. *)
Record Booking : Type := mkBooking {
  bk_student : ObjectId * Student.t;
  bk_faculty : ObjectId * Faculty.t;
  bk_availability : ObjectId * Availability.t;
  bk_date : Z
}.

(** ** The appointment controller *)

(** Modelled from the spec: utils/sendEmail.js is not among the sources.
    The notification sink is [send(toEmail, subject, body) -> void],
    best-effort, errors swallowed: a failure of the transport is logged and
    never reaches the caller.  [transport] tells whether a message is
    delivered ([true]) or sending it fails ([false]). *)
Definition sendAppointmentEmail (transport : Email → bool)
    (to subject body : string) : M unit :=
  fun w =>
    let m := mkEmail to subject body in
    if transport m
    then (mkWorld (db w) (outbox w ++ [m]) (console w), Ok tt)
    else (mkWorld (db w) (outbox w) (console w ++ ["Email sending failed"]),
          Ok tt).

(** For comparison, a helper that lets the failure of the transport
    through to its caller. *)
Definition sendAppointmentEmail_throwing (transport : Email → bool)
    (to subject body : string) : M unit :=
  fun w =>
    let m := mkEmail to subject body in
    if transport m
    then (mkWorld (db w) (outbox w ++ [m]) (console w), Ok tt)
    else (w, Throw MailError).

Section Engine.

(** Whether Mongoose casts a string of the request to an ObjectId; where
    it does not, the query throws a CastError.  Which strings are cast
    depends on the installed driver. *)
Variable castable : string → bool.

(** The imported [sendAppointmentEmail]. *)
Variable send : string → string → string → M unit.

(** [Date.prototype.toDateString], which depends on the host's time zone. *)
Variable toDateString : Z → string.

(** [bookAppointment], from its first line to the double-booking guard:
    only reads. *)
Definition bookAppointment_checks (uid : ObjectId)
    (facultyId availabilityId : string) (date : option Z) : M Booking :=
  student ← Student_findOne uid;
  student ← found student (failure 404 "Student not found");
  faculty ← Faculty_findById castable facultyId;
  faculty ← found faculty (failure 404 "Faculty not found");
  availability ← Availability_findById castable availabilityId;
  availability ← found availability (failure 404 "Availability slot not found");
  reject_if (negb (bool_decide (Availability.faculty availability = facultyId)))
    (failure 400 "Availability slot does not belong to this faculty");;
  reject_if (negb (Availability.isActive availability))
    (failure 400 "Availability slot is not active");;
  reject_if (Availability.isBooked availability)
    (failure 400 "Availability slot is already booked");;
  appointmentDate ← castDate date;
  existingAppointment ← Appointment_findOne student.1 appointmentDate;
  reject_if (bool_decide (is_Some existingAppointment))
    (failure 400 "You already have an appointment at this time");;
  mret (mkBooking student (facultyId, faculty) (availabilityId, availability)
          appointmentDate).

(** [bookAppointment], from [Appointment.create] to the response: the
    writes and the two notifications. *)
Definition bookAppointment_writes (purpose : option string) (b : Booking)
    : M Response :=
  let '(sid, student) := bk_student b in
  let '(fid, faculty) := bk_faculty b in
  let '(aid, availability) := bk_availability b in
  let appointmentDate := bk_date b in
  appointment ← Appointment_create
    {| in_student := sid;
       in_faculty := fid;
       in_availability := aid;
       in_date := appointmentDate;
       in_startTime := Availability.startTime availability;
       in_endTime := Availability.endTime availability;
       in_purpose := purpose |};
  Availability_save_isBooked aid true;;
  Student_push_appointment sid appointment.1;;
  Faculty_push_appointment fid faculty appointment.1;;
  studentUser ← User_findById (Student.user student);
  facultyUser ← User_findById (Faculty.user faculty);
  studentUser ← deref studentUser;
  send (User.email studentUser)
    "Appointment Request Submitted"
    ("Your appointment request with " ++ Faculty.name faculty ++ " on "
     ++ toDateString appointmentDate ++ " at "
     ++ Availability.startTime availability
     ++ " has been submitted and is pending approval.");;
  facultyUser ← deref facultyUser;
  send (User.email facultyUser)
    "New Appointment Request"
    ("You have a new appointment request from " ++ Student.name student
     ++ " on " ++ toDateString appointmentDate ++ " at "
     ++ Availability.startTime availability ++ ".");;
  mret (ok_response 201 "Appointment booked successfully" appointment).

Definition bookAppointment (uid : ObjectId) (facultyId availabilityId : string)
    (date : option Z) (purpose : option string) : World → World * Response :=
  handler "Book appointment error:"
    (b ← bookAppointment_checks uid facultyId availabilityId date;
     bookAppointment_writes purpose b).

(** The slot release shared by reject, cancel and complete:
    [if (availability) { availability.isBooked = false; save }]. *)
Definition release_slot (aid : ObjectId) : M unit :=
  availability ← Availability_findById_ref aid;
  match availability with
  | Some _ => Availability_save_isBooked aid false
  | None => mret tt
  end.

Definition updateAppointmentStatus (uid : ObjectId) (appointmentId : string)
    (status : string) (reason : option string) : World → World * Response :=
  handler "Update appointment status error:"
    (reject_if
       (negb (bool_decide (status = "accepted")
              || bool_decide (status = "rejected")))
       (failure 400 "Invalid status. Status must be accepted or rejected");;
     faculty ← Faculty_findOne uid;
     faculty ← found faculty (failure 404 "Faculty not found");
     appointment ← Appointment_findById castable appointmentId;
     appointment ← found appointment (failure 404 "Appointment not found");
     reject_if (negb (bool_decide (Appointment.faculty appointment = faculty.1)))
       (failure 403 "Not authorized to update this appointment");;
     reject_if (negb (bool_decide (Appointment.status appointment = pending)))
       (failure 400 ("Appointment is already "
                     ++ status_name (Appointment.status appointment)));;
     let is_rejected := bool_decide (status = "rejected") in
     appointment ← Appointment_save appointmentId
       (λ a, let a := Appointment.set_status
                        (if is_rejected then rejected else accepted) a in
             if is_rejected && truthy reason
             then Appointment.set_cancelReason reason a else a)
       appointment;
     (if is_rejected
      then release_slot (Appointment.availability appointment)
      else mret tt);;
     student ← Student_findById (Appointment.student appointment);
     student ← deref student;
     studentUser ← User_findById (Student.user student);
     facultyUser ← User_findById (Faculty.user faculty.2);
     let statusText := if bool_decide (status = "accepted")
                       then "accepted" else "rejected" in
     studentUser ← deref studentUser;
     send (User.email studentUser)
       ("Appointment " ++ capitalize statusText)
       ("Your appointment with " ++ Faculty.name faculty.2 ++ " on "
        ++ toDateString (Appointment.date appointment) ++ " at "
        ++ Appointment.startTime appointment ++ " has been " ++ statusText
        ++ "." ++ reasonText reason);;
     mret (ok_response 200 ("Appointment " ++ statusText ++ " successfully")
             (appointmentId, appointment))).

(** The role resolution of [cancelAppointment]: the caller's student
    profile is looked up first, its faculty profile only when it has no
    student profile. *)
Definition resolve_role (uid : ObjectId) (appointment : Appointment.t) : M Role :=
  student ← Student_findOne uid;
  match student with
  | Some student =>
      reject_if (negb (bool_decide (Appointment.student appointment = student.1)))
        (failure 403 "Not authorized to cancel this appointment");;
      mret RStudent
  | None =>
      faculty ← Faculty_findOne uid;
      faculty ← found faculty (failure 404 "User not found");
      reject_if (negb (bool_decide (Appointment.faculty appointment = faculty.1)))
        (failure 403 "Not authorized to cancel this appointment");;
      mret RFaculty
  end.

Definition cancelAppointment (uid : ObjectId) (appointmentId : string)
    (reason : option string) : World → World * Response :=
  handler "Cancel appointment error:"
    (appointment ← Appointment_findById castable appointmentId;
     appointment ← found appointment (failure 404 "Appointment not found");
     reject_if (bool_decide (Appointment.status appointment = cancelled))
       (failure 400 "Appointment is already cancelled");;
     reject_if (bool_decide (Appointment.status appointment = rejected))
       (failure 400 "Cannot cancel a rejected appointment");;
     role ← resolve_role uid appointment;
     appointment ← Appointment_save appointmentId
       (λ a, let a := Appointment.set_cancelledBy (Some role)
                        (Appointment.set_status cancelled a) in
             if truthy reason then Appointment.set_cancelReason reason a else a)
       appointment;
     release_slot (Appointment.availability appointment);;
     studentObj ← Student_findById (Appointment.student appointment);
     facultyObj ← Faculty_findById_ref (Appointment.faculty appointment);
     studentObj ← deref studentObj;
     studentUser ← User_findById (Student.user studentObj);
     facultyObj ← deref facultyObj;
     facultyUser ← User_findById (Faculty.user facultyObj);
     let cancelledBy := match role with
                        | RStudent => Student.name studentObj
                        | RFaculty => Faculty.name facultyObj
                        end in
     studentUser ← deref studentUser;
     send (User.email studentUser)
       "Appointment Cancelled"
       ("Your appointment with " ++ Faculty.name facultyObj ++ " on "
        ++ toDateString (Appointment.date appointment) ++ " at "
        ++ Appointment.startTime appointment ++ " has been cancelled by "
        ++ cancelledBy ++ "." ++ reasonText reason);;
     facultyUser ← deref facultyUser;
     send (User.email facultyUser)
       "Appointment Cancelled"
       ("Your appointment with " ++ Student.name studentObj ++ " on "
        ++ toDateString (Appointment.date appointment) ++ " at "
        ++ Appointment.startTime appointment ++ " has been cancelled by "
        ++ cancelledBy ++ "." ++ reasonText reason);;
     mret (ok_response 200 "Appointment cancelled successfully"
             (appointmentId, appointment))).

Definition completeAppointment (uid : ObjectId) (appointmentId : string)
    : World → World * Response :=
  handler "Complete appointment error:"
    (faculty ← Faculty_findOne uid;
     faculty ← found faculty (failure 404 "Faculty not found");
     appointment ← Appointment_findById castable appointmentId;
     appointment ← found appointment (failure 404 "Appointment not found");
     reject_if (negb (bool_decide (Appointment.faculty appointment = faculty.1)))
       (failure 403 "Not authorized to complete this appointment");;
     reject_if (negb (bool_decide (Appointment.status appointment = accepted)))
       (failure 400
          ("Appointment must be accepted before it can be completed. Current status: "
           ++ status_name (Appointment.status appointment)));;
     appointment ← Appointment_save appointmentId
       (Appointment.set_status completed) appointment;
     release_slot (Appointment.availability appointment);;
     student ← Student_findById (Appointment.student appointment);
     student ← deref student;
     studentUser ← User_findById (Student.user student);
     studentUser ← deref studentUser;
     send (User.email studentUser)
       "Appointment Completed"
       ("Your appointment with " ++ Faculty.name faculty.2 ++ " on "
        ++ toDateString (Appointment.date appointment) ++ " at "
        ++ Appointment.startTime appointment
        ++ " has been marked as completed.");;
     mret (ok_response 200 "Appointment marked as completed"
             (appointmentId, appointment))).

End Engine.

(** ** The slot-consistency invariant, as a decidable check *)

(** Some appointment referencing slot [slot] is pending or accepted. *)
Definition slot_in_use (st : Store) (slot : ObjectId) : bool :=
  bool_decide
    (is_Some
       (findOne
          (λ a, bool_decide (Appointment.availability a = slot)
                && active_status (Appointment.status a))
          (appointments st))).

(** Every slot is flagged booked exactly when it is in use. *)
Definition slots_consistent (st : Store) : bool :=
  forallb (λ kv, Bool.eqb (Availability.isBooked kv.2) (slot_in_use st kv.1))
    (map_to_list (availabilities st)).

(** The pending and accepted appointments that reference a slot. *)
Definition holders (st : Store) (slot : ObjectId)
    : list (ObjectId * Appointment.t) :=
  List.filter
    (λ kv, bool_decide (Appointment.availability kv.2 = slot)
           && active_status (Appointment.status kv.2))
    (map_to_list (appointments st)).

(** ** The slot-consistency invariant, as a proposition *)

(** The appointment stored under [id] is pending or accepted and references
    [slot]. *)
Definition holds_slot (st : Store) (slot id : ObjectId) : Prop :=
  ∃ a, appointments st !! id = Some a
       ∧ Appointment.availability a = slot
       ∧ active_status (Appointment.status a) = true.

(** The slot-consistency invariant: a slot is flagged booked exactly when
    an appointment holds it, and no slot is held twice. *)
Definition consistent (st : Store) : Prop :=
  (∀ slot av, availabilities st !! slot = Some av →
     (Availability.isBooked av = true ↔ ∃ id, holds_slot st slot id))
  ∧ (∀ slot id1 id2,
       holds_slot st slot id1 → holds_slot st slot id2 → id1 = id2).

(** ** Who may cancel, and whom a notification reaches *)

(** The role under which [cancelAppointment] lets the caller through: the
    student profile of the caller is looked at first, its faculty profile
    only when it has none. *)
Definition owner_role (st : Store) (uid : ObjectId) (a : Appointment.t)
    : option Role :=
  match findOne (λ s, bool_decide (Student.user s = uid)) (students st) with
  | Some student =>
      if bool_decide (Appointment.student a = student.1)
      then Some RStudent else None
  | None =>
      match findOne (λ f, bool_decide (Faculty.user f = uid))
              (faculties st) with
      | Some faculty =>
          if bool_decide (Appointment.faculty a = faculty.1)
          then Some RFaculty else None
      | None => None
      end
  end.

(** The user record behind the student of an appointment. *)
Definition student_contact (st : Store) (a : Appointment.t) : option User.t :=
  s ← students st !! Appointment.student a; users st !! Student.user s.

(** The user record behind the faculty of an appointment. *)
Definition faculty_contact (st : Store) (a : Appointment.t) : option User.t :=
  f ← faculties st !! Appointment.faculty a; users st !! Faculty.user f.

(** A reason the schema accepts as [cancelReason]. *)
Definition reason_fits (reason : option string) : bool :=
  match reason with
  | Some r => maxlength_200 r
  | None => true
  end.

(** The document [updateAppointmentStatus] saves. *)
Definition decided (status : string) (reason : option string) (a : Appointment.t)
    : Appointment.t :=
  let is_rejected := bool_decide (status = "rejected") in
  let a := Appointment.set_status (if is_rejected then rejected else accepted) a in
  if is_rejected && truthy reason then Appointment.set_cancelReason reason a else a.

(** The fields [bookAppointment] hands to [Appointment.create]. *)
Definition booking_input (sid facultyId availabilityId : ObjectId) (d : Z)
    (av : Availability.t) (purpose : option string) : AppointmentInput :=
  {| in_student := sid;
     in_faculty := facultyId;
     in_availability := availabilityId;
     in_date := d;
     in_startTime := Availability.startTime av;
     in_endTime := Availability.endTime av;
     in_purpose := purpose |}.

(** The student already holds a pending or accepted appointment dated [d]:
    only the student, the date and the status are compared, not the start
    and end times. *)
Definition double_booked (st : Store) (sid : ObjectId) (d : Z) : Prop :=
  ∃ id a,
    appointments st !! id = Some a
    ∧ Appointment.student a = sid
    ∧ Appointment.date a = d
    ∧ (Appointment.status a = pending ∨ Appointment.status a = accepted).

(** The document [cancelAppointment] saves. *)
Definition cancelled_by (role : Role) (reason : option string) (a : Appointment.t)
    : Appointment.t :=
  let a := Appointment.set_cancelledBy (Some role)
             (Appointment.set_status cancelled a) in
  if truthy reason then Appointment.set_cancelReason reason a else a.

(** ** Worlds that differ only in what was mailed and logged *)

(** Two computations agree when, started on worlds with the same database,
    they end with the same database and the same outcome. *)
Definition agree {A} (m1 m2 : M A) : Prop :=
  ∀ w1 w2, db w1 = db w2 →
    db (m1 w1).1 = db (m2 w2).1 ∧ (m1 w1).2 = (m2 w2).2.

(** A mail helper that returns: whatever it does with the message, it does
    not throw, and it leaves the database alone. *)
Definition send_returns (send : string → string → string → M unit) : Prop :=
  ∀ to subject body w,
    db (send to subject body w).1 = db w
    ∧ (send to subject body w).2 = Ok tt.

(** ** Sequences of requests *)

(** The four lifecycle requests, with what the route hands the handler. *)
Inductive Request : Type :=
  | Book (uid facultyId availabilityId : ObjectId) (date : option Z)
      (purpose : option string)
  | UpdateStatus (uid appointmentId : ObjectId) (status : string)
      (reason : option string)
  | Cancel (uid appointmentId : ObjectId) (reason : option string)
  | Complete (uid appointmentId : ObjectId).

Section Serve.

Variable castable : string → bool.
Variable send : string → string → string → M unit.
Variable toDateString : Z → string.

(** Route a request to its handler. *)
Definition serve (rq : Request) : World → World * Response :=
  match rq with
  | Book uid facultyId availabilityId date purpose =>
      bookAppointment castable send toDateString uid facultyId availabilityId
        date purpose
  | UpdateStatus uid appointmentId status reason =>
      updateAppointmentStatus castable send toDateString uid appointmentId
        status reason
  | Cancel uid appointmentId reason =>
      cancelAppointment castable send toDateString uid appointmentId reason
  | Complete uid appointmentId =>
      completeAppointment castable send toDateString uid appointmentId
  end.

(** Serve the requests one after the other. *)
Fixpoint serve_all (rqs : list Request) (w : World) : World :=
  match rqs with
  | [] => w
  | rq :: rest => serve_all rest (serve rq w).1
  end.

(** The request asks to cancel an appointment that is completed. *)
Definition cancels_completed (rq : Request) (w : World) : Prop :=
  match rq with
  | Cancel _ appointmentId _ =>
      ∃ a, appointments (db w) !! appointmentId = Some a
           ∧ Appointment.status a = completed
  | _ => False
  end.

(** No request of the sequence, when its turn comes, cancels a completed
    appointment. *)
Fixpoint spares_completed (rqs : list Request) (w : World) : Prop :=
  match rqs with
  | [] => True
  | rq :: rest =>
      ¬ cancels_completed rq w ∧ spares_completed rest (serve rq w).1
  end.

End Serve.

(** ** Two bookings racing for one slot

    Every [await] of a handler is a point where the event loop may run
    another request.  The schedule below suspends both requests after their
    last read ([await Appointment.findOne]) and resumes them in turn. *)

Record BookRequest : Type := mkBookRequest {
  rq_user : ObjectId;
  rq_facultyId : ObjectId;
  rq_availabilityId : ObjectId;
  rq_date : option Z;
  rq_purpose : option string
}.

Section Race.

Variable castable : string → bool.
Variable send : string → string → string → M unit.
Variable toDateString : Z → string.

(** A request run up to its suspension: it has answered, or it holds the
    documents it read. *)
Definition book_until_guard (rq : BookRequest) (w : World)
    : World * (Response + Booking) :=
  match bookAppointment_checks castable (rq_user rq) (rq_facultyId rq)
          (rq_availabilityId rq) (rq_date rq) w with
  | (w', Ok b) => (w', inr b)
  | (w', Reply r) => (w', inl r)
  | (w', Throw e) =>
      (mkWorld (db w') (outbox w') (console w' ++ ["Book appointment error:"]),
       inl (mkResponse 500 false "Server error" None (Some e)))
  end.

(** The rest of a suspended request. *)
Definition book_resume (rq : BookRequest) (s : Response + Booking) (w : World)
    : World * Response :=
  match s with
  | inl r => (w, r)
  | inr b =>
      handler "Book appointment error:"
        (bookAppointment_writes send toDateString (rq_purpose rq) b) w
  end.

(** One request served alone. *)
Definition book_alone (rq : BookRequest) (w : World) : World * Response :=
  let '(w1, s) := book_until_guard rq w in
  book_resume rq s w1.

(** Two requests, both suspended after their reads, then resumed. *)
Definition book_interleaved (rq1 rq2 : BookRequest) (w : World)
    : World * (Response * Response) :=
  let '(w1, s1) := book_until_guard rq1 w in
  let '(w2, s2) := book_until_guard rq2 w1 in
  let '(w3, r1) := book_resume rq1 s1 w2 in
  let '(w4, r2) := book_resume rq2 s2 w3 in
  (w4, (r1, r2)).

End Race.

(** What a suspended request will hand to [Appointment.create]. *)
Definition pending_input (rq : BookRequest) (b : Booking) : AppointmentInput :=
  booking_input (bk_student b).1 (bk_faculty b).1 (bk_availability b).1
    (bk_date b) (bk_availability b).2 (rq_purpose rq).

(** ** Listing the appointments of a student or of a faculty *)

Module Department.
(** [departmentSchema]. *)
Record t : Type := mk {
  name : string;
  description : option string;
  faculty : list ObjectId
}.
End Department.

(** A department as [populate({ path: "department", select: "name" })]
    leaves it. *)
Record DepartmentSummary : Type := mkDepartmentSummary {
  ds_id : ObjectId;
  ds_name : string
}.

(** A faculty as [populate({ path: "faculty", select: "name phoneNumber",
    populate: .. })] leaves it; the nested [department] is [None] when the
    department is not on file. *)
Record FacultySummary : Type := mkFacultySummary {
  fs_id : ObjectId;
  fs_name : string;
  fs_phoneNumber : string;
  fs_department : option DepartmentSummary
}.

(** A slot as [populate("availability", "day startTime endTime")] leaves it. *)
Record AvailabilitySummary : Type := mkAvailabilitySummary {
  as_id : ObjectId;
  as_day : string;
  as_startTime : string;
  as_endTime : string
}.

(** A student as [populate({ path: "student", select: ".." })] leaves it.
    Of the selected paths only [name] is a path of the student record
    modelled here. *)
Record StudentSummary : Type := mkStudentSummary {
  ss_id : ObjectId;
  ss_name : string
}.

(** A row of a listing: the appointment, with the populated path in
    [row_party] and the populated slot; a reference whose document is
    missing is populated with [None] ([null]). *)
Record Row (Party : Type) : Type := mkRow {
  row_id : ObjectId;
  row_doc : Appointment.t;
  row_party : option Party;
  row_availability : option AvailabilitySummary
}.

Arguments mkRow {Party} _ _ _ _.
Arguments row_id {Party} _.
Arguments row_doc {Party} _.
Arguments row_party {Party} _.
Arguments row_availability {Party} _.

(** The body [{ success: true, count, data }] of a listing. *)
Record Listing (Party : Type) : Type := mkListing {
  l_code : nat;
  l_success : bool;
  l_count : nat;
  l_data : list (Row Party)
}.

Arguments mkListing {Party} _ _ _ _.
Arguments l_code {Party} _.
Arguments l_success {Party} _.
Arguments l_count {Party} _.
Arguments l_data {Party} _.

(** The order of [.sort({ date: 1 })]. *)
Definition by_date (x y : ObjectId * Appointment.t) : Prop :=
  (Appointment.date x.2 ≤ Appointment.date y.2)%Z.

#[global] Instance by_date_dec x y : Decision (by_date x y).
Proof. unfold by_date. apply _. Defined.

(** [Appointment.find(filter).sort({ date: 1 })]. *)
Definition Appointment_find_sorted (P : Appointment.t → Prop)
    `{∀ a, Decision (P a)} : M (list (ObjectId * Appointment.t)) :=
  fun w =>
    (w, Ok (merge_sort by_date
              (filter (λ kv, P kv.2) (map_to_list (appointments (db w)))))).

Definition populate_availability (st : Store) (id : ObjectId)
    : option AvailabilitySummary :=
  av ← availabilities st !! id;
  Some (mkAvailabilitySummary id (Availability.day av)
          (Availability.startTime av) (Availability.endTime av)).

Definition populate_student (st : Store) (id : ObjectId) : option StudentSummary :=
  s ← students st !! id;
  Some (mkStudentSummary id (Student.name s)).

(** [.populate(..).populate("availability", "day startTime endTime")] on
    the documents found: [party] populates the first path. *)
Definition populate_rows {Party} (party : Store → Appointment.t → option Party)
    (docs : list (ObjectId * Appointment.t)) : M (list (Row Party)) :=
  fun w =>
    (w, Ok ((λ kv : ObjectId * Appointment.t,
               mkRow kv.1 kv.2 (party (db w) kv.2)
                 (populate_availability (db w) (Appointment.availability kv.2)))
            <$> docs)).

(** [try { .. } catch] of a listing handler. *)
Definition listing_handler {Party} (label : string) (m : M (Listing Party))
    (w : World) : World * (Response + Listing Party) :=
  match m w with
  | (w', Ok l) => (w', inr l)
  | (w', Reply r) => (w', inl r)
  | (w', Throw e) =>
      (mkWorld (db w') (outbox w') (console w' ++ [label]),
       inl (mkResponse 500 false "Server error" None (Some e)))
  end.

Section Listings.

(** The departments collection, which the listings read through
    [populate]. *)
Variable departments : gmap string Department.t.

Definition populate_department (id : ObjectId) : option DepartmentSummary :=
  d ← departments !! id;
  Some (mkDepartmentSummary id (Department.name d)).

Definition populate_faculty (st : Store) (id : ObjectId) : option FacultySummary :=
  f ← faculties st !! id;
  Some (mkFacultySummary id (Faculty.name f) (Faculty.phoneNumber f)
          (Faculty.department f ≫= populate_department)).

Definition getStudentAppointments (uid : ObjectId)
    : World → World * (Response + Listing FacultySummary) :=
  listing_handler "Get student appointments error:"
    (student ← Student_findOne uid;
     student ← found student (failure 404 "Student not found");
     appointments ← Appointment_find_sorted
                      (λ a, Appointment.student a = student.1);
     appointments ← populate_rows
                      (λ st a, populate_faculty st (Appointment.faculty a))
                      appointments;
     mret (mkListing 200 true (List.length appointments) appointments)).

Definition getFacultyAppointments (uid : ObjectId)
    : World → World * (Response + Listing StudentSummary) :=
  listing_handler "Get faculty appointments error:"
    (faculty ← Faculty_findOne uid;
     faculty ← found faculty (failure 404 "Faculty not found");
     appointments ← Appointment_find_sorted
                      (λ a, Appointment.faculty a = faculty.1);
     appointments ← populate_rows
                      (λ st a, populate_student st (Appointment.student a))
                      appointments;
     mret (mkListing 200 true (List.length appointments) appointments)).

End Listings.

(** ** What a request may do to a stored appointment *)

(** The paths an appointment is created with and keeps. *)
Definition same_snapshot (a a' : Appointment.t) : Prop :=
  Appointment.student a' = Appointment.student a
  ∧ Appointment.faculty a' = Appointment.faculty a
  ∧ Appointment.availability a' = Appointment.availability a
  ∧ Appointment.date a' = Appointment.date a
  ∧ Appointment.startTime a' = Appointment.startTime a
  ∧ Appointment.endTime a' = Appointment.endTime a
  ∧ Appointment.purpose a' = Appointment.purpose a.

(** The status changes the handlers make: by [updateAppointmentStatus]
    from pending, by [completeAppointment] from accepted, and by
    [cancelAppointment] from every status its two guards let through. *)
Definition moves (s s' : Status) : bool :=
  match s, s' with
  | pending, (accepted | rejected | cancelled) => true
  | accepted, (completed | cancelled) => true
  | completed, cancelled => true
  | _, _ => false
  end.

(** The stored appointment passes every validator of its schema. *)
Definition stored_ok (a : Appointment.t) : bool :=
  match_HHMM (Appointment.startTime a)
  && match_HHMM (Appointment.endTime a)
  && required_string (Some (Appointment.purpose a))
  && maxlength_200 (Appointment.purpose a)
  && validate_saved a.

(** No two student profiles wrap the same user. *)
Definition one_student_per_user (st : Store) : Prop :=
  ∀ sid1 sid2 s1 s2,
    students st !! sid1 = Some s1 →
    students st !! sid2 = Some s2 →
    Student.user s1 = Student.user s2 →
    sid1 = sid2.

(** ** Times of day *)

(** The decimal digit [n]. *)
Definition digit (n : nat) : ascii := ascii_of_nat (48 + n).

(** The time [h]:[m] written with two digits each. *)
Definition clock (h m : nat) : string :=
  String (digit (h / 10))
    (String (digit (h mod 10))
       (String ":"
          (String (digit (m / 10)) (String (digit (m mod 10)) EmptyString)))).

(** ** What the sequences of requests keep *)

(** The user a request is made by ([req.user.id]). *)
Definition caller (rq : Request) : ObjectId :=
  match rq with
  | Book uid _ _ _ _ => uid
  | UpdateStatus uid _ _ _ => uid
  | Cancel uid _ _ => uid
  | Complete uid _ => uid
  end.

(** The documents a request reads to address its notifications are on
    file: for a booking the user records of the caller's student profile
    and of the faculty, for the other operations the profile of the
    appointment's student and its user record, and for a cancellation
    those of its faculty as well. *)
Definition contacts_on_file (rq : Request) (st : Store) : Prop :=
  match rq with
  | Book uid facultyId _ _ _ =>
      ∀ sid s f,
        findOne (λ s, bool_decide (Student.user s = uid)) (students st)
        = Some (sid, s) →
        faculties st !! facultyId = Some f →
        is_Some (users st !! Student.user s)
        ∧ is_Some (users st !! Faculty.user f)
  | UpdateStatus _ appointmentId _ _ | Complete _ appointmentId =>
      ∀ a, appointments st !! appointmentId = Some a →
           is_Some (student_contact st a)
  | Cancel _ appointmentId _ =>
      ∀ a, appointments st !! appointmentId = Some a →
           is_Some (student_contact st a) ∧ is_Some (faculty_contact st a)
  end.

(** The writes of a request are done.  A booking writes the list of the
    faculty last, after the appointment, the slot and the list of the
    student; the other operations save the appointment and then release
    the slot, which does not fail. *)
Definition committed (rq : Request) (st st' : Store) : Prop :=
  match rq with
  | Book _ _ _ _ _ => faculties st' ≠ faculties st
  | _ => appointments st' ≠ appointments st
  end.

(** The back-reference lists hold exactly the stored appointments of their
    owner. *)
Definition backrefs_agree (st : Store) : Prop :=
  (∀ sid s id,
     students st !! sid = Some s →
     (id ∈ Student.appointments s
      ↔ ∃ a, appointments st !! id = Some a ∧ Appointment.student a = sid))
  ∧ (∀ fid f id,
       faculties st !! fid = Some f →
       (id ∈ Faculty.appointments f
        ↔ ∃ a, appointments st !! id = Some a ∧ Appointment.faculty a = fid)).

(** The users of [st'] are those of [st], and its profiles are those of
    [st] with appointments appended to their lists. *)
Definition profiles_grown (st st' : Store) : Prop :=
  users st' = users st
  ∧ (∀ sid,
       match students st !! sid with
       | Some s =>
           ∃ l, students st' !! sid
                = Some (Student.mk (Student.user s) (Student.name s)
                          (Student.appointments s ++ l)%list)
       | None => students st' !! sid = None
       end)
  ∧ (∀ fid,
       match faculties st !! fid with
       | Some f =>
           ∃ l, faculties st' !! fid
                = Some (Faculty.mk (Faculty.user f) (Faculty.name f)
                          (Faculty.phoneNumber f) (Faculty.department f)
                          (Faculty.availabilities f)
                          (Faculty.appointments f ++ l)%list)
       | None => faculties st' !! fid = None
       end).

(** No student has two pending or accepted appointments on one date. *)
Definition one_active_per_day (st : Store) : Prop :=
  ∀ id1 id2 a1 a2,
    appointments st !! id1 = Some a1 →
    appointments st !! id2 = Some a2 →
    Appointment.student a1 = Appointment.student a2 →
    Appointment.date a1 = Appointment.date a2 →
    active_status (Appointment.status a1) = true →
    active_status (Appointment.status a2) = true →
    id1 = id2.

(** ** Sample data *)

Module Sample.

Definition alice : Student.t := Student.mk "u-alice" "Alice" [].
Definition carol : Student.t := Student.mk "u-carol" "Carol" [].

Definition bob : Faculty.t :=
  Faculty.mk "u-bob" "Dr. Bob" "5550001111" (Some "d-math") ["av-mon9"] [].

Definition mon9 : Availability.t :=
  Availability.mk "f-bob" "Monday" "09:00" "10:00" true false.

Definition campus_db : Store :=
  mkStore
    {[ "s-alice" := alice; "s-carol" := carol ]}
    {[ "f-bob" := bob ]}
    {[ "av-mon9" := mon9 ]}
    ∅
    {[ "u-alice" := User.mk "alice@campus.test";
       "u-carol" := User.mk "carol@campus.test";
       "u-bob" := User.mk "bob@campus.test" ]}.

(** A campus with one free slot and no appointment yet. *)
Definition campus : World := mkWorld campus_db [] [].

(** A transport that delivers, and one that always fails. *)
Definition delivering : Email → bool := λ _, true.
Definition failing : Email → bool := λ _, false.

(** A fixed rendering standing for [toDateString]. *)
Definition dateString : Z → string := λ _, "Mon Jan 01 2024".

(** 2024-01-01T00:00:00Z and the day after, in milliseconds. *)
Definition jan1 : Z := 1704067200000.
Definition jan2 : Z := 1704153600000.

(** A string of 201 characters. *)
Definition too_long : string := string_of_list_ascii (repeat "x"%char 201).

(** The mail helper over the delivering transport. *)
Definition mail : string → string → string → M unit :=
  sendAppointmentEmail delivering.

(** A cast of strings to ObjectIds: twenty-four hexadecimal digits are
    cast, nothing else. *)
Definition hex_digit (c : ascii) : bool :=
  char_between "0" "9" c || char_between "a" "f" c || char_between "A" "F" c.

Definition hex24 (s : string) : bool :=
  (String.length s =? 24)%nat && forallb hex_digit (list_ascii_of_string s).

Definition book (uid : ObjectId) (d : Z) (w : World) : World :=
  (bookAppointment hex24 mail dateString uid "f-bob" "av-mon9" (Some d)
     (Some "Thesis review") w).1.

Definition decide_on (aid : ObjectId) (status : string) (w : World) : World :=
  (updateAppointmentStatus hex24 mail dateString "u-bob" aid status None w).1.

Definition complete (aid : ObjectId) (w : World) : World :=
  (completeAppointment hex24 mail dateString "u-bob" aid w).1.

Definition cancel (uid aid : ObjectId) (w : World) : World :=
  (cancelAppointment hex24 mail dateString uid aid None w).1.

(** Alice has booked the slot: appointment ["0"], pending. *)
Definition requested : World := book "u-alice" jan1 campus.

(** The appointment that booking creates. *)
Definition visit : Appointment.t :=
  Appointment.mk "s-alice" "f-bob" "av-mon9" jan1 "09:00" "10:00"
    "Thesis review" pending None None.

(** Bob's profile once the appointment is on his list. *)
Definition bob_booked : Faculty.t := Faculty.push_appointment "0" bob.

(** Bob has accepted it. *)
Definition confirmed : World := decide_on "0" "accepted" requested.

(** Bob has rejected it instead. *)
Definition declined : World := decide_on "0" "rejected" requested.

(** The accepted appointment has taken place. *)
Definition held : World := complete "0" confirmed.

(** After that Carol has booked the freed slot: appointment ["1"]. *)
Definition rebooked : World := book "u-carol" jan2 held.

(** The slot was deleted while Alice's request was pending. *)
Definition orphaned (w : World) : World :=
  set_db (set_availabilities (delete "av-mon9")) w.

End Sample.

(** ** Sample data off the beaten track *)

Module Edge.
Import Sample.

(** Noon of 2024-01-01 in UTC and one minute later: two instants of one
    calendar date in every time zone. *)
Definition noon : Z := jan1 + 43200000.
Definition past_noon : Z := noon + 60000.

(** A second slot of Bob's. *)
Definition mon10 : Availability.t :=
  Availability.mk "f-bob" "Monday" "10:00" "11:00" true false.

(** Dan, a faculty whose stored phone number has three digits, and his
    slot. *)
Definition dan : Faculty.t :=
  Faculty.mk "u-dan" "Dr. Dan" "123" (Some "d-math") ["av-tue9"] [].

Definition tue9 : Availability.t :=
  Availability.mk "f-dan" "Tuesday" "09:00" "10:00" true false.

(** The campus with Dan and the two further slots. *)
Definition wider_campus : World :=
  mkWorld
    (mkStore
       {[ "s-alice" := alice; "s-carol" := carol ]}
       {[ "f-bob" := bob; "f-dan" := dan ]}
       {[ "av-mon9" := mon9; "av-mon10" := mon10; "av-tue9" := tue9 ]}
       ∅
       {[ "u-alice" := User.mk "alice@campus.test";
          "u-carol" := User.mk "carol@campus.test";
          "u-bob" := User.mk "bob@campus.test";
          "u-dan" := User.mk "dan@campus.test" ]})
    [] [].

(** An id that is cast and under which nothing is stored, and a string
    that is not cast. *)
Definition unused_id : string := "0123456789abcdef01234567".
Definition malformed_id : string := "not-an-id".

(** Alice's appointment as a document stored with its start time written
    without the leading zero. *)
Definition early_visit : Appointment.t :=
  Appointment.mk "s-alice" "f-bob" "av-mon9" jan1 "9:00" "10:00"
    "Thesis review" pending None None.

(** The world where that document is the stored one. *)
Definition legacy : World :=
  set_db (set_appointments (insert "0" early_visit)) requested.

(** Bob has a student profile as well. *)
Definition enrolled : World :=
  set_db (set_students (insert "s-bob" (Student.mk "u-bob" "Bob" [])))
    requested.

(** The world [w] once the user record [uid] is gone. *)
Definition without_user (uid : ObjectId) (w : World) : World :=
  mkWorld
    (mkStore (students (db w)) (faculties (db w)) (availabilities (db w))
       (appointments (db w)) (delete uid (users (db w))))
    (outbox w) (console w).

(** The helper that lets the failure through, over the failing
    transport. *)
Definition throwing : string → string → string → M unit :=
  sendAppointmentEmail_throwing failing.

End Edge.

(** ** Sample departments *)

Module SampleListing.
Import Sample.

Definition departments : gmap string Department.t :=
  {[ "d-math" := Department.mk "Mathematics" None ["f-bob"] ]}.

(** The row of Alice's listing for [visit]. *)
Definition visit_row : Row FacultySummary :=
  mkRow "0" visit
    (Some (mkFacultySummary "f-bob" "Dr. Bob" "5550001111"
             (Some (mkDepartmentSummary "d-math" "Mathematics"))))
    (Some (mkAvailabilitySummary "av-mon9" "Monday" "09:00" "10:00")).

(** Alice's booking, as a request. *)
Definition alice_books : Request :=
  Book "u-alice" "f-bob" "av-mon9" (Some jan1) (Some "Thesis review").

(** Alice books, Bob accepts, Bob completes. *)
Definition lifecycle : list Request :=
  [alice_books; UpdateStatus "u-bob" "0" "accepted" None; Complete "u-bob" "0"].

(** Alice books and then cancels. *)
Definition second_thoughts : list Request :=
  [alice_books; Cancel "u-alice" "0" (Some "ill")].

(** The sample campus with its user records gone. *)
Definition strangers : World :=
  mkWorld
    (mkStore (students campus_db) (faculties campus_db)
       (availabilities campus_db) ∅ ∅)
    [] [].

(** The two requests that race for Bob's slot, and what each holds when it
    is suspended. *)
Definition alice_request : BookRequest :=
  mkBookRequest "u-alice" "f-bob" "av-mon9" (Some jan1) (Some "Thesis review").

Definition carol_request : BookRequest :=
  mkBookRequest "u-carol" "f-bob" "av-mon9" (Some jan1) (Some "Exam questions").

Definition alice_holds : Booking :=
  mkBooking ("s-alice", alice) ("f-bob", bob) ("av-mon9", mon9) jan1.

Definition carol_holds : Booking :=
  mkBooking ("s-carol", carol) ("f-bob", bob) ("av-mon9", mon9) jan1.

End SampleListing.

(** * Properties *)

(** ** Queries *)

Lemma findOne_Some {T} (P : T → bool) (c : gmap string T) k v :
  findOne P c = Some (k, v) → c !! k = Some v ∧ P v = true.
Proof.
  unfold findOne. intros H. apply find_some in H as [Hin HP].
  apply list_elem_of_In, elem_of_map_to_list in Hin. done.
Qed.

Lemma findOne_None {T} (P : T → bool) (c : gmap string T) k v :
  findOne P c = None → c !! k = Some v → P v = false.
Proof.
  unfold findOne. intros H Hk.
  apply (find_none _ _ H (k, v)).
  by apply list_elem_of_In, elem_of_map_to_list.
Qed.

Lemma findOne_is_Some {T} (P : T → bool) (c : gmap string T) :
  is_Some (findOne P c) ↔ ∃ k v, c !! k = Some v ∧ P v = true.
Proof.
  split.
  - intros [[k v] H]. exists k, v. by apply findOne_Some.
  - intros (k & v & Hk & HP).
    destruct (findOne P c) as [kv|] eqn:E; [by eexists|].
    rewrite (findOne_None _ _ _ _ E Hk) in HP. discriminate.
Qed.

(** ** Running a handler *)

(** Unfold the handler down to the lookups it performs. *)
Ltac run :=
  cbv beta iota zeta delta
    [handler mbind M_bind mret M_ret found reject_if deref reply throw
     modify_db castDate findById
     Student_findOne Faculty_findOne Student_findById Faculty_findById
     Availability_findById Appointment_findById User_findById
     Faculty_findById_ref Availability_findById_ref
     Appointment_findOne Appointment_create Appointment_save
     Availability_save_isBooked Student_push_appointment
     Faculty_push_appointment release_slot resolve_role
     sendAppointmentEmail sendAppointmentEmail_throwing
     bookAppointment_checks bookAppointment_writes
     bookAppointment updateAppointmentStatus cancelAppointment
     completeAppointment book_until_guard book_resume book_alone
     book_interleaved].

Ltac run_in H :=
  cbv beta iota zeta delta
    [handler mbind M_bind mret M_ret found reject_if deref reply throw
     modify_db castDate findById
     Student_findOne Faculty_findOne Student_findById Faculty_findById
     Availability_findById Appointment_findById User_findById
     Faculty_findById_ref Availability_findById_ref
     Appointment_findOne Appointment_create Appointment_save
     Availability_save_isBooked Student_push_appointment
     Faculty_push_appointment release_slot resolve_role
     sendAppointmentEmail sendAppointmentEmail_throwing
     bookAppointment_checks bookAppointment_writes
     bookAppointment updateAppointmentStatus cancelAppointment
     completeAppointment book_until_guard book_resume book_alone
     book_interleaved] in H.

(** Unfold [cancelAppointment] up to its role resolution. *)
Ltac cancel_prefix_in H :=
  cbv beta iota zeta delta
    [cancelAppointment handler mbind M_bind mret M_ret found reject_if reply
     Appointment_findById findById] in H.

(** Project the fields of an updated world. *)
Ltac fields :=
  cbn [db outbox console set_db students faculties availabilities
       appointments users set_students set_faculties set_availabilities
       set_appointments fst snd negb andb orb
       code success message data error failure ok_response
       Appointment.student Appointment.faculty Appointment.availability
       Appointment.date Appointment.startTime Appointment.endTime
       Appointment.purpose Appointment.status Appointment.cancelledBy
       Appointment.cancelReason Appointment.set_status
       Appointment.set_cancelledBy Appointment.set_cancelReason
       bk_student bk_faculty bk_availability bk_date] in *.

(** Turn boolean tests in the context into the facts they decide. *)
Ltac unbool :=
  repeat match goal with
    | H : negb _ = false |- _ => apply negb_false_iff in H
    | H : negb _ = true |- _ => apply negb_true_iff in H
    | H : bool_decide _ = true |- _ => apply bool_decide_eq_true_1 in H
    | H : bool_decide _ = false |- _ => apply bool_decide_eq_false_1 in H
    | H : _ && _ = true |- _ => apply andb_true_iff in H as [? ?]
    end.

(** Evaluate the comparisons between literals in [H]. *)
Ltac literals_in H :=
  repeat match type of H with
    | context [bool_decide (?x = ?y)] =>
        let b := eval vm_compute in (bool_decide (x = y)) in
        match b with
        | true => idtac
        | false => idtac
        end;
        change (bool_decide (x = y)) with b in H
    end.

(** Evaluate the comparisons between literals in the goal. *)
Ltac literals :=
  repeat match goal with
    | |- context [bool_decide (?x = ?y)] =>
        let b := eval vm_compute in (bool_decide (x = y)) in
        match b with
        | true => idtac
        | false => idtac
        end;
        change (bool_decide (x = y)) with b
    end.

(** The innermost term a [match] in [x] waits for. *)
Ltac innermost x k :=
  lazymatch x with
  | context [match ?y with _ => _ end] => innermost y k
  | _ => k x
  end.

(** Split a run on every lookup and test it meets, dropping dead branches. *)
Ltac explore :=
  repeat (match goal with
          | H : context [match ?x with _ => _ end] |- _ =>
              innermost x ltac:(fun y => destruct y eqn:?)
          | |- context [match ?x with _ => _ end] =>
              innermost x ltac:(fun y => destruct y eqn:?)
          end; fields; try discriminate);
  simplify_eq; fields.

Section Properties.

Context (castable : string → bool).
Context (transport : Email → bool) (toDateString : Z → string).

Local Abbreviation send := (sendAppointmentEmail transport).
Local Abbreviation updateAppointmentStatus :=
  (updateAppointmentStatus castable send toDateString).
Local Abbreviation cancelAppointment :=
  (cancelAppointment castable send toDateString).
Local Abbreviation completeAppointment :=
  (completeAppointment castable send toDateString).
Local Abbreviation bookAppointment :=
  (bookAppointment castable send toDateString).

(** The caller's faculty profile, as [Faculty.findOne({ user })] returns it. *)
Local Abbreviation faculty_of w uid :=
  (findOne (λ f, bool_decide (Faculty.user f = uid)) (faculties (db w))).

(** The caller's student profile, as [Student.findOne({ user })] returns it. *)
Local Abbreviation student_of w uid :=
  (findOne (λ s, bool_decide (Student.user s = uid)) (students (db w))).

(** C10. [cancelAppointment] looks at the status of the appointment before
    it resolves who is calling: on an appointment that is already
    cancelled or rejected every caller, whatever profile it has and
    whoever owns the appointment, gets the 400 answer about the status,
    not a 403 or a 404, and nothing is written. *)
Theorem cancel_checks_status_before_caller w uid aid reason a :
  appointments (db w) !! aid = Some a →
  Appointment.status a = cancelled ∨ Appointment.status a = rejected →
  ∃ msg,
    cancelAppointment uid aid reason w = (w, failure 400 msg)
    ∧ msg = match Appointment.status a with
            | cancelled => "Appointment is already cancelled"
            | _ => "Cannot cancel a rejected appointment"
            end.
Proof.
  intros Ha Hs. run. rewrite Ha.
  destruct Hs as [-> | ->]; eexists; split; reflexivity.
Qed.

(** C5. [updateAppointmentStatus] with status accepted or rejected, called
    by the faculty that owns the appointment, on an appointment that is
    not pending: the answer is 400 with the message "Appointment is
    already <status>", and the world (appointments and slots included)
    is left as it was. *)
Theorem updateStatus_not_pending w uid aid status reason fid f a :
  status = "accepted" ∨ status = "rejected" →
  faculty_of w uid = Some (fid, f) →
  appointments (db w) !! aid = Some a →
  Appointment.faculty a = fid →
  Appointment.status a ≠ pending →
  updateAppointmentStatus uid aid status reason w
  = (w, failure 400 ("Appointment is already "
                     ++ status_name (Appointment.status a))).
Proof.
  intros Hst Hf Ha Hown Hs. run.
  assert (bool_decide (status = "accepted") || bool_decide (status = "rejected")
          = true) as ->.
  { destruct Hst as [-> | ->]; reflexivity. }
  fields. rewrite Hf, Ha. fields.
  rewrite (bool_decide_eq_true_2 _ Hown), (bool_decide_eq_false_2 _ Hs).
  reflexivity.
Qed.

(** [resolve_role] lets a caller through exactly under its [owner_role]. *)
Lemma resolve_role_owner w uid a role :
  owner_role (db w) uid a = Some role ↔ resolve_role uid a w = (w, Ok role).
Proof.
  unfold owner_role. run. split; intros H; explore; unbool; done.
Qed.

(** Altering a key that is not in the map changes nothing. *)
Lemma alter_absent {T} (f : T → T) (k : string) (m : gmap string T) :
  m !! k = None → alter f k m = m.
Proof.
  intros H. apply map_eq. intros j. rewrite lookup_alter.
  case_decide; [subst; by rewrite H | done].
Qed.

(** [slots_consistent] decides the slot-consistency invariant. *)
Lemma slots_consistent_spec st :
  slots_consistent st = true
  ↔ ∀ slot av,
      availabilities st !! slot = Some av →
      (Availability.isBooked av = true
       ↔ ∃ id a,
           appointments st !! id = Some a
           ∧ Appointment.availability a = slot
           ∧ (Appointment.status a = pending ∨ Appointment.status a = accepted)).
Proof.
  assert (Huse : ∀ slot,
    slot_in_use st slot = true
    ↔ ∃ id a,
        appointments st !! id = Some a
        ∧ Appointment.availability a = slot
        ∧ (Appointment.status a = pending ∨ Appointment.status a = accepted)).
  { intros slot. unfold slot_in_use.
    rewrite bool_decide_eq_true, findOne_is_Some.
    split; intros (id & a & Hid & H); exists id, a; (split; [done|]).
    - unbool. split; [done|].
      destruct (Appointment.status a); auto; discriminate.
    - destruct H as (-> & Hst).
      rewrite bool_decide_eq_true_2 by done. by destruct Hst as [-> | ->]. }
  unfold slots_consistent. rewrite forallb_forall. split.
  - intros H slot av Hslot. rewrite <- Huse.
    specialize (H (slot, av)). cbn in H.
    rewrite eqb_true_iff in H. rewrite H; [done|].
    by apply list_elem_of_In, elem_of_map_to_list.
  - intros H [slot av] Hin%list_elem_of_In%elem_of_map_to_list. cbn.
    apply eqb_true_iff. specialize (H slot av Hin). rewrite <- Huse in H.
    destruct (Availability.isBooked av), (slot_in_use st slot); try done.
    + symmetry. by apply H.
    + by apply H.
Qed.

(** ** What a successful answer tells *)

Lemma book_success w uid facultyId availabilityId date purpose w' r :
  bookAppointment uid facultyId availabilityId date purpose w = (w', r) →
  success r = true →
  ∃ id doc,
    data r = Some (id, doc)
    ∧ appointments (db w') !! id = Some doc
    ∧ Appointment.availability doc = availabilityId
    ∧ Appointment.status doc = pending.
Proof.
  intros Hrun Hok. run_in Hrun. explore.
  all: eexists _, _; repeat split; try done.
  all: apply lookup_insert_eq.
Qed.

Lemma accept_success w uid aid reason w' r :
  updateAppointmentStatus uid aid "accepted" reason w = (w', r) →
  success r = true →
  ∃ a,
    appointments (db w) !! aid = Some a
    ∧ Appointment.status a = pending
    ∧ appointments (db w') !! aid = Some (Appointment.set_status accepted a)
    ∧ availabilities (db w') = availabilities (db w).
Proof.
  intros Hrun Hok. run_in Hrun. literals_in Hrun. fields. explore.
  all: unbool; eexists; repeat split; try eassumption; try done.
  all: rewrite lookup_alter_eq;
    match goal with H : appointments _ !! _ = _ |- _ => by rewrite H end.
Qed.

Lemma complete_success w uid aid w' r :
  completeAppointment uid aid w = (w', r) →
  success r = true →
  ∃ fid f a,
    faculty_of w uid = Some (fid, f)
    ∧ appointments (db w) !! aid = Some a
    ∧ Appointment.faculty a = fid
    ∧ Appointment.status a = accepted
    ∧ code r = 200
    ∧ appointments (db w') !! aid = Some (Appointment.set_status completed a)
    ∧ availabilities (db w') !! Appointment.availability a
      = Availability.set_isBooked false
          <$> availabilities (db w) !! Appointment.availability a.
Proof.
  intros Hrun Hok. run_in Hrun. explore; unbool.
  all: match goal with H : findOne _ (faculties _) = Some ?p |- _ =>
         destruct p as [fid f] end.
  all: eexists fid, f, _; repeat split; try eassumption; try reflexivity.
  all: try (rewrite lookup_alter_eq;
            match goal with H : appointments _ !! _ = _ |- _ => by rewrite H end).
  all: try by rewrite lookup_alter_eq.
  all: match goal with H : availabilities _ !! _ = None |- _ =>
         fields; by rewrite H end.
Qed.

(** X21. The round trip: a booking that is accepted and then completed
    leaves its slot free. *)
Lemma round_trip_frees_slot w0 student_user facultyId slot date purpose
    faculty_user reason w1 r1 w2 r2 w3 r3 id doc :
  bookAppointment student_user facultyId slot date purpose w0 = (w1, r1) →
  success r1 = true →
  data r1 = Some (id, doc) →
  updateAppointmentStatus faculty_user id "accepted" reason w1 = (w2, r2) →
  success r2 = true →
  completeAppointment faculty_user id w2 = (w3, r3) →
  success r3 = true →
  ∀ av, availabilities (db w3) !! slot = Some av →
        Availability.isBooked av = false.
Proof.
  intros Hbook Hok1 Hdata Haccept Hok2 Hcomplete Hok3 av Hav.
  destruct (book_success _ _ _ _ _ _ _ _ Hbook Hok1)
    as (id' & doc' & Hdata' & Hdoc & Hslot & _).
  rewrite Hdata in Hdata'. injection Hdata' as <- <-.
  destruct (accept_success _ _ _ _ _ _ Haccept Hok2)
    as (a & Ha & _ & Ha2 & _).
  rewrite Hdoc in Ha. injection Ha as <-.
  destruct (complete_success _ _ _ _ _ Hcomplete Hok3)
    as (fid & f & a3 & _ & Ha3 & _ & _ & _ & _ & Hfree).
  rewrite Ha2 in Ha3. injection Ha3 as <-. fields.
  rewrite Hslot, Hav in Hfree.
  destruct (availabilities (db w2) !! slot); [|done].
  by injection Hfree as ->.
Qed.

(** Nothing moves an appointment out of rejected or cancelled, and neither
    [updateAppointmentStatus] nor [completeAppointment] moves one out of
    completed. *)
Lemma terminal_kept w aid a :
  appointments (db w) !! aid = Some a →
  terminal (Appointment.status a) = true →
  (∀ uid status reason, (updateAppointmentStatus uid aid status reason w).1 = w)
  ∧ (∀ uid, (completeAppointment uid aid w).1 = w)
  ∧ (Appointment.status a ≠ completed →
     ∀ uid reason, (cancelAppointment uid aid reason w).1 = w).
Proof.
  intros Ha Hterm. split; [|split].
  - intros uid status reason. run. explore; try done.
    all: unbool;
      match goal with H : Appointment.status _ = _ |- _ => rewrite H in Hterm end;
      discriminate.
  - intros uid. run. explore; try done.
    all: unbool;
      match goal with H : Appointment.status _ = _ |- _ => rewrite H in Hterm end;
      discriminate.
  - intros Hnc uid reason. run. rewrite Ha.
    destruct (Appointment.status a); try discriminate; done.
Qed.

(** C7. [completeAppointment] answers with success only when the caller's
    faculty profile owns the appointment and the appointment is accepted;
    it then stores status completed and, on the slot the appointment
    references, isBooked = false.  Called by the owning faculty on an
    appointment in any other status it answers 400 with a message that
    ends in the current status, and writes nothing. *)
Theorem complete_only_from_accepted w uid aid w' r :
  completeAppointment uid aid w = (w', r) →
  (success r = true →
     ∃ fid f a,
       faculty_of w uid = Some (fid, f)
       ∧ appointments (db w) !! aid = Some a
       ∧ Appointment.faculty a = fid
       ∧ Appointment.status a = accepted
       ∧ code r = 200
       ∧ appointments (db w') !! aid = Some (Appointment.set_status completed a)
       ∧ availabilities (db w') !! Appointment.availability a
         = Availability.set_isBooked false
             <$> availabilities (db w) !! Appointment.availability a)
  ∧ (∀ fid f a,
       faculty_of w uid = Some (fid, f) →
       appointments (db w) !! aid = Some a →
       Appointment.faculty a = fid →
       Appointment.status a ≠ accepted →
       w' = w
       ∧ r = failure 400
               ("Appointment must be accepted before it can be completed. Current status: "
                ++ status_name (Appointment.status a))).
Proof.
  intros Hrun. split.
  - intros Hok. by eapply complete_success.
  - intros fid f a Hf Ha Hown Hs. run_in Hrun.
    rewrite Hf, Ha in Hrun. fields.
    rewrite (bool_decide_eq_true_2 _ Hown), (bool_decide_eq_false_2 _ Hs) in Hrun.
    fields. by simplify_eq.
Qed.

(** ** What each operation writes once its checks have passed *)

(** Pushing an appointment onto a faculty's list changes no validated
    path. *)
Lemma validate_faculty_push id f :
  validate_faculty (Faculty.push_appointment id f) = validate_faculty f.
Proof. reflexivity. Qed.

(** Neither the status nor who cancelled is looked at by a validator. *)
Lemma validate_saved_set_status s a :
  validate_saved (Appointment.set_status s a) = validate_saved a.
Proof. reflexivity. Qed.

Lemma validate_saved_set_cancelledBy role a :
  validate_saved (Appointment.set_cancelledBy role a) = validate_saved a.
Proof. reflexivity. Qed.

Lemma book_commits w uid facultyId availabilityId d purpose sid student
    faculty av w' r :
  student_of w uid = Some (sid, student) →
  faculties (db w) !! facultyId = Some faculty →
  availabilities (db w) !! availabilityId = Some av →
  Availability.faculty av = facultyId →
  Availability.isActive av = true →
  Availability.isBooked av = false →
  findOne (same_day_active sid d) (appointments (db w)) = None →
  validate_new (booking_input sid facultyId availabilityId d av purpose) = true →
  bookAppointment uid facultyId availabilityId (Some d) purpose w = (w', r) →
  let id := fresh (dom (appointments (db w))) in
  let doc := new_appointment
               (booking_input sid facultyId availabilityId d av purpose) in
  appointments (db w') = <[id := doc]> (appointments (db w))
  ∧ availabilities (db w')
    = alter (Availability.set_isBooked true) availabilityId
        (availabilities (db w))
  ∧ students (db w')
    = alter (Student.push_appointment id) sid (students (db w))
  ∧ users (db w') = users (db w)
  ∧ (validate_faculty faculty = false →
     faculties (db w') = faculties (db w)
     ∧ r = mkResponse 500 false "Server error" None (Some ValidationError))
  ∧ (validate_faculty faculty = true →
     faculties (db w')
     = alter (Faculty.push_appointment id) facultyId (faculties (db w))
     ∧ (is_Some (users (db w) !! Student.user student) →
        is_Some (users (db w) !! Faculty.user faculty) →
        r = ok_response 201 "Appointment booked successfully" (id, doc))).
Proof.
  intros Hs Hf Hav Hown Hact Hfree Hnone Hv Hrun id doc.
  run_in Hrun. rewrite Hs, Hf, Hav in Hrun. fields.
  rewrite (bool_decide_eq_true_2 _ Hown), Hact, Hfree in Hrun. fields.
  rewrite Hnone in Hrun.
  assert (bool_decide (is_Some (@None (string * Appointment.t))) = false) as Hn.
  { apply bool_decide_eq_false_2. by intros [? ?]. }
  rewrite Hn in Hrun. fields.
  fold (booking_input sid facultyId availabilityId d av purpose) in Hrun.
  rewrite Hv in Hrun. fields. fold id doc in Hrun.
  rewrite validate_faculty_push in Hrun.
  destruct (validate_faculty faculty) eqn:Hfv; fields.
  all: explore.
  all: repeat split; try done.
  all: intros [? ?] [? ?]; simplify_option_eq; congruence.
Qed.

Lemma updateStatus_commits w uid aid status reason fid f a w' r :
  status = "accepted" ∨ status = "rejected" →
  faculty_of w uid = Some (fid, f) →
  appointments (db w) !! aid = Some a →
  Appointment.faculty a = fid →
  Appointment.status a = pending →
  validate_saved (decided status reason a) = true →
  updateAppointmentStatus uid aid status reason w = (w', r) →
  appointments (db w') = alter (decided status reason) aid (appointments (db w))
  ∧ availabilities (db w')
    = (if bool_decide (status = "rejected")
       then alter (Availability.set_isBooked false) (Appointment.availability a)
       else id) (availabilities (db w))
  ∧ students (db w') = students (db w)
  ∧ faculties (db w') = faculties (db w)
  ∧ users (db w') = users (db w)
  ∧ (is_Some (student_contact (db w) a) →
     r = ok_response 200
           ("Appointment " ++ (if bool_decide (status = "accepted")
                               then "accepted" else "rejected")
            ++ " successfully")
           (aid, decided status reason a)).
Proof.
  intros Hst Hf Ha Hown Hpend Hv Hrun.
  run_in Hrun. unfold student_contact, decided in *.
  destruct Hst as [-> | ->]; literals_in Hrun; literals_in Hv; literals.
  all: fields; rewrite Hf, Ha in Hrun; fields.
  all: rewrite (bool_decide_eq_true_2 _ Hown), Hpend in Hrun.
  all: literals_in Hrun; fields.
  all: try (destruct (truthy reason) eqn:Htr; fields).
  all: rewrite Hv in Hrun; clear Hv.
  all: explore.
  all: repeat split; try done; try (by rewrite alter_absent).
  all: intros [? ?]; simplify_option_eq; congruence.
Qed.

Lemma complete_commits w uid aid fid f a w' r :
  faculty_of w uid = Some (fid, f) →
  appointments (db w) !! aid = Some a →
  Appointment.faculty a = fid →
  Appointment.status a = accepted →
  validate_saved a = true →
  completeAppointment uid aid w = (w', r) →
  appointments (db w')
  = alter (Appointment.set_status completed) aid (appointments (db w))
  ∧ availabilities (db w')
    = alter (Availability.set_isBooked false) (Appointment.availability a)
        (availabilities (db w))
  ∧ students (db w') = students (db w)
  ∧ faculties (db w') = faculties (db w)
  ∧ users (db w') = users (db w)
  ∧ (is_Some (student_contact (db w) a) →
     r = ok_response 200 "Appointment marked as completed"
           (aid, Appointment.set_status completed a)).
Proof.
  intros Hf Ha Hown Hst Hv Hrun.
  run_in Hrun. unfold student_contact in *.
  rewrite Hf, Ha in Hrun; fields.
  rewrite (bool_decide_eq_true_2 _ Hown), Hst in Hrun.
  literals_in Hrun; fields.
  rewrite validate_saved_set_status, Hv in Hrun; clear Hv.
  explore.
  all: repeat split; try done; try (by rewrite alter_absent).
  all: intros [? ?]; simplify_option_eq; congruence.
Qed.

Lemma cancel_commits w uid aid reason a role w' r :
  appointments (db w) !! aid = Some a →
  Appointment.status a ≠ cancelled →
  Appointment.status a ≠ rejected →
  owner_role (db w) uid a = Some role →
  validate_saved (cancelled_by role reason a) = true →
  cancelAppointment uid aid reason w = (w', r) →
  appointments (db w')
  = alter (cancelled_by role reason) aid (appointments (db w))
  ∧ availabilities (db w')
    = alter (Availability.set_isBooked false) (Appointment.availability a)
        (availabilities (db w))
  ∧ students (db w') = students (db w)
  ∧ faculties (db w') = faculties (db w)
  ∧ users (db w') = users (db w)
  ∧ (is_Some (student_contact (db w) a) →
     is_Some (faculty_contact (db w) a) →
     r = ok_response 200 "Appointment cancelled successfully"
           (aid, cancelled_by role reason a)).
Proof.
  intros Ha Hnc Hnr Hrole Hv Hrun.
  apply resolve_role_owner in Hrole.
  cancel_prefix_in Hrun.
  rewrite Ha, (bool_decide_eq_false_2 _ Hnc), (bool_decide_eq_false_2 _ Hnr),
    Hrole in Hrun.
  run_in Hrun. fold (cancelled_by role reason a) in Hrun.
  rewrite Hv in Hrun. clear Hv Hnc Hnr Hrole.
  unfold student_contact, faculty_contact, cancelled_by in *.
  destruct (truthy reason) eqn:Htr; fields.
  all: explore.
  all: repeat split; try done; try (by rewrite alter_absent).
  all: intros [? ?] [? ?]; simplify_option_eq; congruence.
Qed.

(** The schema accepts what [cancelAppointment] and
    [updateAppointmentStatus] save when it accepts the stored document
    and the reason. *)
Lemma cancelled_by_valid role reason a :
  validate_saved a = true → reason_fits reason = true →
  validate_saved (cancelled_by role reason a) = true.
Proof.
  unfold cancelled_by, validate_saved, validate_cancelReason, reason_fits.
  destruct reason, (truthy _); fields; try done.
  all: rewrite !andb_true_iff; tauto.
Qed.

Lemma decided_valid status reason a :
  validate_saved a = true → reason_fits reason = true →
  validate_saved (decided status reason a) = true.
Proof.
  unfold decided, validate_saved, validate_cancelReason, reason_fits.
  destruct reason, (truthy _), (bool_decide _); fields; try done.
  all: rewrite !andb_true_iff; tauto.
Qed.

(** A completed appointment is not out of reach of its owner's cancel,
    which goes through and stores status cancelled. *)
Lemma cancel_reopens_completed w uid aid reason a role w' r :
  appointments (db w) !! aid = Some a →
  Appointment.status a = completed →
  owner_role (db w) uid a = Some role →
  validate_saved a = true →
  reason_fits reason = true →
  cancelAppointment uid aid reason w = (w', r) →
  Appointment.status <$> appointments (db w') !! aid = Some cancelled
  ∧ (is_Some (student_contact (db w) a) →
     is_Some (faculty_contact (db w) a) →
     code r = 200 ∧ success r = true).
Proof.
  intros Ha Hst Hrole Hv Hfit Hrun.
  eapply cancel_commits in Hrun as (Hap & _ & _ & _ & _ & Hr);
    eauto using cancelled_by_valid; try congruence.
  rewrite Hap, lookup_alter_eq, Ha. split.
  - unfold cancelled_by. by destruct (truthy reason).
  - intros Hs Hf. by rewrite (Hr Hs Hf).
Qed.

(** The double-booking guard of [bookAppointment] fires exactly when the
    student is [double_booked] on that date. *)
Lemma double_booked_findOne st sid d :
  double_booked st sid d
  ↔ is_Some (findOne (same_day_active sid d) (appointments st)).
Proof.
  rewrite findOne_is_Some. unfold double_booked, same_day_active.
  split; intros (id & a & Hid & H); exists id, a; (split; [done|]).
  - destruct H as (-> & -> & Hst).
    rewrite !bool_decide_eq_true_2 by done.
    by destruct Hst as [-> | ->].
  - unbool. repeat split; try done.
    destruct (Appointment.status a); auto; discriminate.
Qed.


End Properties.

(** ** The invariant along the lifecycle

    Booking, accepting, rejecting and completing keep the slot-consistency
    invariant, whatever they answer; so does cancelling, as long as the
    appointment cancelled is not a completed one. *)

Section Invariant.

Lemma consistent_book st st' slot av id doc :
  availabilities st'
  = alter (Availability.set_isBooked true) slot (availabilities st) →
  appointments st' = <[id := doc]> (appointments st) →
  consistent st →
  availabilities st !! slot = Some av →
  Availability.isBooked av = false →
  appointments st !! id = None →
  Appointment.availability doc = slot →
  active_status (Appointment.status doc) = true →
  consistent st'.
Proof.
  intros Eav Eap [Hflag Hone] Hav Hfree Hid Hslot Hact.
  assert (Hnone : ∀ id', ¬ holds_slot st slot id').
  { intros id' Hh. apply Hflag in Hav. destruct Hav as [_ Hav].
    rewrite Hav in Hfree by eauto. discriminate. }
  assert (Hnew : ∀ s i,
    holds_slot st' s i ↔ (s = slot ∧ i = id) ∨ holds_slot st s i).
  { intros s i. unfold holds_slot. rewrite Eap. split.
    - intros (a & Ha & Hs & Hst).
      apply lookup_insert_Some in Ha as [[<- <-] | [Hne Ha]]; [left; by subst|].
      right. eauto.
    - intros [[-> ->] | (a & Ha & Hs & Hst)].
      + exists doc. by rewrite lookup_insert_eq.
      + exists a. rewrite lookup_insert_ne; [done|]. intros <-. congruence. }
  split.
  - intros s av'. rewrite Eav, lookup_alter.
    case_decide as Hs; [subst s|].
    + rewrite Hav. cbn. intros [= <-]. cbn. split; [|done].
      intros _. exists id. apply Hnew. by left.
    + intros Hav'. rewrite (Hflag _ _ Hav'). split.
      * intros [i Hi]. exists i. apply Hnew. by right.
      * intros [i [[? ?] | Hi]%Hnew]; [congruence | eauto].
  - intros s i1 i2 [[-> ->] | H1]%Hnew [[? ?] | H2]%Hnew; subst.
    + done.
    + by destruct (Hnone i2).
    + by destruct (Hnone i1).
    + eauto.
Qed.

Lemma consistent_keep st st' aid a f :
  availabilities st' = availabilities st →
  appointments st' = alter f aid (appointments st) →
  consistent st →
  appointments st !! aid = Some a →
  Appointment.availability (f a) = Appointment.availability a →
  active_status (Appointment.status (f a)) = active_status (Appointment.status a) →
  consistent st'.
Proof.
  intros Eav Eap [Hflag Hone] Ha Hslot Hact.
  assert (Hsame : ∀ s i, holds_slot st' s i ↔ holds_slot st s i).
  { intros s i. unfold holds_slot. rewrite Eap, lookup_alter.
    case_decide as Hi; [subst i|done]. rewrite Ha. cbn. split.
    - intros (a' & [= <-] & Hs & Hst). exists a. by rewrite <- Hslot, <- Hact.
    - intros (a' & [= <-] & Hs & Hst). exists (f a). by rewrite Hslot, Hact. }
  split.
  - intros s av Hav. rewrite Eav in Hav. rewrite (Hflag _ _ Hav).
    by setoid_rewrite Hsame.
  - intros s i1 i2 H1%Hsame H2%Hsame. eauto.
Qed.

Lemma consistent_release st st' aid a f :
  availabilities st'
  = alter (Availability.set_isBooked false) (Appointment.availability a)
      (availabilities st) →
  appointments st' = alter f aid (appointments st) →
  consistent st →
  appointments st !! aid = Some a →
  active_status (Appointment.status a) = true →
  Appointment.availability (f a) = Appointment.availability a →
  active_status (Appointment.status (f a)) = false →
  consistent st'.
Proof.
  intros Eav Eap [Hflag Hone] Ha Hact Hslot Hoff.
  assert (Hheld : holds_slot st (Appointment.availability a) aid)
    by (exists a; done).
  assert (Hnew : ∀ s i, holds_slot st' s i ↔ holds_slot st s i ∧ i ≠ aid).
  { intros s i. unfold holds_slot. rewrite Eap, lookup_alter.
    case_decide as Hi; [subst i|].
    - rewrite Ha. cbn. split.
      + intros (a' & [= <-] & _ & Hst). congruence.
      + by intros [_ ?].
    - split; [intros H; by split | by intros [H _]]. }
  split.
  - intros s av. rewrite Eav, lookup_alter.
    case_decide as Hs; [subst s|].
    + destruct (availabilities st !! Appointment.availability a); [|done].
      cbn. intros [= <-]. cbn. split; [done|].
      intros [i [Hi Hne]%Hnew]. destruct Hne. eauto.
    + intros Hav. rewrite (Hflag _ _ Hav). split.
      * intros [i Hi]. exists i. apply Hnew. split; [done|].
        intros ->. destruct Hs. destruct Hi as (a' & Ha' & <- & _). congruence.
      * intros [i [Hi _]%Hnew]. eauto.
  - intros s i1 i2 [H1 _]%Hnew [H2 _]%Hnew. eauto.
Qed.

Lemma consistent_ext st st' :
  availabilities st' = availabilities st →
  appointments st' = appointments st →
  consistent st → consistent st'.
Proof.
  intros Hav Hap. unfold consistent, holds_slot. by rewrite Hav, Hap.
Qed.

Context (castable : string → bool).
Context (transport : Email → bool) (toDateString : Z → string).

Local Abbreviation send := (sendAppointmentEmail transport).
Local Abbreviation updateAppointmentStatus :=
  (updateAppointmentStatus castable send toDateString).
Local Abbreviation cancelAppointment :=
  (cancelAppointment castable send toDateString).
Local Abbreviation completeAppointment :=
  (completeAppointment castable send toDateString).
Local Abbreviation bookAppointment :=
  (bookAppointment castable send toDateString).
Local Abbreviation serve := (serve castable).
Local Abbreviation serve_all := (serve_all castable).
Local Abbreviation spares_completed := (spares_completed castable).

Lemma book_keeps_consistent w uid facultyId availabilityId date purpose w' r :
  bookAppointment uid facultyId availabilityId date purpose w = (w', r) →
  consistent (db w) → consistent (db w').
Proof.
  intros Hrun Hc. run_in Hrun. explore; try done.
  all: unbool.
  all: match goal with Hc : consistent (db ?w) |- _ =>
         eapply (consistent_book (db w));
         [fields; reflexivity | fields; reflexivity | exact Hc | ..]
       end; eauto.
  all: apply not_elem_of_dom, is_fresh.
Qed.

(** Apply [consistent_release] to the run at hand. *)
Ltac released aid :=
  match goal with
  | Hc : consistent (db ?w) |- _ =>
      eapply (consistent_release (db w) _ aid);
      [ first [ fields; reflexivity
              | fields; symmetry; by apply alter_absent ]
      | fields; reflexivity
      | exact Hc
      | eassumption
      | first
          [ eassumption
          | fields;
            match goal with
            | H : Appointment.status _ = _ |- _ => by rewrite H
            end ]
      | fields; try done
      | fields; try done ]
  end.

Lemma complete_keeps_consistent w uid aid w' r :
  completeAppointment uid aid w = (w', r) →
  consistent (db w) → consistent (db w').
Proof.
  intros Hrun Hc. run_in Hrun. explore; try done.
  all: unbool; released aid.
Qed.

Lemma updateStatus_keeps_consistent w uid aid status reason w' r :
  updateAppointmentStatus uid aid status reason w = (w', r) →
  consistent (db w) → consistent (db w').
Proof.
  intros Hrun Hc.
  destruct (decide (status = "rejected")) as [-> | Hnr].
  - run_in Hrun. literals_in Hrun. fields. explore; try done.
    all: unbool; released aid.
  - run_in Hrun. rewrite (bool_decide_eq_false_2 _ Hnr) in Hrun. fields.
    explore; try done.
    all: unbool.
    all: match goal with
         | Hc : consistent (db ?w) |- _ =>
             eapply (consistent_keep (db w) _ aid);
             [ fields; reflexivity | fields; reflexivity | exact Hc
             | eassumption | fields; done
             | fields;
               match goal with
               | H : Appointment.status _ = _ |- _ => by rewrite H
               end ]
         end.
Qed.

(** [resolve_role] only reads. *)
Lemma resolve_role_reads uid a w :
  ∃ o, resolve_role uid a w = (w, o).
Proof. run. explore; eauto. Qed.

Lemma cancel_keeps_consistent w uid aid reason w' r :
  (∀ a, appointments (db w) !! aid = Some a →
        Appointment.status a ≠ completed) →
  cancelAppointment uid aid reason w = (w', r) →
  consistent (db w) → consistent (db w').
Proof.
  intros Hnot Hrun Hc. cancel_prefix_in Hrun.
  destruct (appointments (db w) !! aid) as [a|] eqn:Ha;
    [|destruct (castable aid); simplify_eq; fields; done].
  specialize (Hnot a eq_refl).
  destruct (bool_decide (Appointment.status a = cancelled)) eqn:Hnc;
    [by simplify_eq|].
  destruct (bool_decide (Appointment.status a = rejected)) eqn:Hnr;
    [by simplify_eq|].
  destruct (resolve_role_reads uid a w) as [o Ho]. rewrite Ho in Hrun.
  destruct o as [role|r'|e]; [|by simplify_eq|by simplify_eq].
  unbool.
  assert (active_status (Appointment.status a) = true)
    by (destruct (Appointment.status a); done || congruence).
  run_in Hrun. explore; try done.
  all: released aid.
Qed.


(** The decidable check and the proposition agree on the flags. *)
Lemma consistent_slots_consistent st :
  consistent st → slots_consistent st = true.
Proof.
  intros [Hflag _]. apply slots_consistent_spec. intros slot av Hav.
  rewrite (Hflag _ _ Hav). unfold holds_slot. split.
  - intros (id & a & Ha & Hs & Hst). exists id, a. repeat split; try done.
    destruct (Appointment.status a); auto; discriminate.
  - intros (id & a & Ha & Hs & Hst). exists id, a. repeat split; try done.
    by destruct Hst as [-> | ->].
Qed.

End Invariant.

(** ** The notification sink does not decide the outcome *)

Section Agree.

Lemma agree_bind {A B} (m1 m2 : M A) (k1 k2 : A → M B) :
  agree m1 m2 → (∀ a, agree (k1 a) (k2 a)) → agree (m1 ≫= k1) (m2 ≫= k2).
Proof.
  intros Hm Hk w1 w2 Hw. unfold mbind, M_bind.
  destruct (Hm w1 w2 Hw) as [Hdb Hout].
  destruct (m1 w1) as [w1' o1], (m2 w2) as [w2' o2]. cbn in *. subst o2.
  destruct o1; [by apply Hk | done | done].
Qed.

Lemma agree_ret {A} (a : A) : agree (mret a) (mret a).
Proof. by intros w1 w2 Hw. Qed.

Lemma agree_reply {A} r : agree (@reply A r) (reply r).
Proof. by intros w1 w2 Hw. Qed.

Lemma agree_throw {A} e : agree (@throw A e) (throw e).
Proof. by intros w1 w2 Hw. Qed.

Lemma agree_found {A} (o : option A) r : agree (found o r) (found o r).
Proof. destruct o; [apply agree_ret | apply agree_reply]. Qed.

Lemma agree_reject_if b r : agree (reject_if b r) (reject_if b r).
Proof. destruct b; [apply agree_reply | apply agree_ret]. Qed.

Lemma agree_deref {A} (o : option A) : agree (deref o) (deref o).
Proof. destruct o; [apply agree_ret | apply agree_throw]. Qed.

Lemma agree_castDate d : agree (castDate d) (castDate d).
Proof. destruct d; [apply agree_ret | apply agree_throw]. Qed.

Lemma agree_modify_db f : agree (modify_db f) (modify_db f).
Proof. intros w1 w2 Hw. cbn. by rewrite Hw. Qed.

Ltac reads := intros w1 w2 Hw; cbn; by rewrite Hw.

Lemma agree_Student_findOne uid : agree (Student_findOne uid) (Student_findOne uid).
Proof. reads. Qed.
Lemma agree_Faculty_findOne uid : agree (Faculty_findOne uid) (Faculty_findOne uid).
Proof. reads. Qed.
Lemma agree_Student_findById id : agree (Student_findById id) (Student_findById id).
Proof. reads. Qed.
Lemma agree_Faculty_findById c id :
  agree (Faculty_findById c id) (Faculty_findById c id).
Proof. reads. Qed.
Lemma agree_Availability_findById c id :
  agree (Availability_findById c id) (Availability_findById c id).
Proof. reads. Qed.
Lemma agree_Appointment_findById c id :
  agree (Appointment_findById c id) (Appointment_findById c id).
Proof. reads. Qed.
Lemma agree_Faculty_findById_ref id :
  agree (Faculty_findById_ref id) (Faculty_findById_ref id).
Proof. reads. Qed.
Lemma agree_Availability_findById_ref id :
  agree (Availability_findById_ref id) (Availability_findById_ref id).
Proof. reads. Qed.
Lemma agree_User_findById id : agree (User_findById id) (User_findById id).
Proof. reads. Qed.
Lemma agree_Appointment_findOne sid d :
  agree (Appointment_findOne sid d) (Appointment_findOne sid d).
Proof. reads. Qed.

Lemma agree_Appointment_create i :
  agree (Appointment_create i) (Appointment_create i).
Proof.
  intros w1 w2 Hw. unfold Appointment_create.
  destruct (validate_new i); cbn; by rewrite Hw.
Qed.

(** Two helpers that return agree on every message. *)
Lemma agree_send send1 send2 to subject body :
  send_returns send1 → send_returns send2 →
  agree (send1 to subject body) (send2 to subject body).
Proof.
  intros H1 H2 w1 w2 Hw.
  destruct (H1 to subject body w1) as [-> ->].
  destruct (H2 to subject body w2) as [-> ->]. done.
Qed.

(** The helper modelled from the spec returns, whatever the transport
    does. *)
Lemma sendAppointmentEmail_returns transport :
  send_returns (sendAppointmentEmail transport).
Proof.
  intros to subject body w. unfold sendAppointmentEmail.
  by destruct (transport _).
Qed.

Lemma agree_handler label (m1 m2 : M Response) w :
  agree m1 m2 →
  db (handler label m1 w).1 = db (handler label m2 w).1
  ∧ (handler label m1 w).2 = (handler label m2 w).2.
Proof.
  intros H. unfold handler. destruct (H w w eq_refl) as [Hdb Hout].
  destruct (m1 w) as [w1 o1], (m2 w) as [w2 o2]. cbn in *. subst o2.
  by destruct o1.
Qed.

End Agree.

(** Walk through a handler, one bind at a time. *)
Ltac agree :=
  repeat first
    [ apply agree_ret | apply agree_reply | apply agree_throw
    | apply agree_found | apply agree_reject_if | apply agree_deref
    | apply agree_castDate | apply agree_modify_db
    | apply agree_Student_findOne | apply agree_Faculty_findOne
    | apply agree_Student_findById | apply agree_Faculty_findById
    | apply agree_Availability_findById | apply agree_Appointment_findById
    | apply agree_Faculty_findById_ref | apply agree_Availability_findById_ref
    | apply agree_User_findById
    | apply agree_Appointment_findOne
    | apply agree_Appointment_create | by apply agree_send
    | apply agree_bind; [|intros ?]
    | match goal with
      | |- agree (match ?x with _ => _ end) _ => destruct x
      end ].

Section Notifications.

Context (castable : string → bool).
Context (send1 send2 : string → string → string → M unit).
Context (toDateString : Z → string).
Hypothesis (Hsend1 : send_returns send1) (Hsend2 : send_returns send2).

Lemma agree_release_slot aid : agree (release_slot aid) (release_slot aid).
Proof. unfold release_slot, Availability_save_isBooked. agree. Qed.

Lemma agree_Appointment_save id f a :
  agree (Appointment_save id f a) (Appointment_save id f a).
Proof. unfold Appointment_save. agree. Qed.

Lemma agree_resolve_role uid a : agree (resolve_role uid a) (resolve_role uid a).
Proof. unfold resolve_role. agree. Qed.

(** For each of the four operations, what is stored and what is answered
    do not depend on which helper sends the notifications, as long as the
    helper returns. *)
Lemma returning_sends_agree w :
  (∀ uid facultyId availabilityId date purpose,
     let run send := bookAppointment castable send toDateString
                       uid facultyId availabilityId date purpose w in
     db (run send1).1 = db (run send2).1 ∧ (run send1).2 = (run send2).2)
  ∧ (∀ uid aid status reason,
       let run send := updateAppointmentStatus castable send toDateString
                         uid aid status reason w in
       db (run send1).1 = db (run send2).1 ∧ (run send1).2 = (run send2).2)
  ∧ (∀ uid aid reason,
       let run send := cancelAppointment castable send toDateString
                         uid aid reason w in
       db (run send1).1 = db (run send2).1 ∧ (run send1).2 = (run send2).2)
  ∧ (∀ uid aid,
       let run send := completeAppointment castable send toDateString
                         uid aid w in
       db (run send1).1 = db (run send2).1 ∧ (run send1).2 = (run send2).2).
Proof.
  split; [|split; [|split]]; intros; subst run; cbv beta.
  - apply agree_handler. unfold bookAppointment_checks, bookAppointment_writes.
    agree.
    all: unfold Availability_save_isBooked, Student_push_appointment,
           Faculty_push_appointment; agree.
  - apply agree_handler. cbv zeta. agree.
    all: try apply agree_Appointment_save; try apply agree_release_slot; agree.
  - apply agree_handler. cbv zeta. agree.
    all: try apply agree_Appointment_save; try apply agree_release_slot;
      try apply agree_resolve_role; agree.
  - apply agree_handler. agree.
    all: try apply agree_Appointment_save; try apply agree_release_slot; agree.
Qed.

End Notifications.

(** ** The handlers over any mail helper that returns *)

Section Transfer.

Context (castable : string → bool).
Context (send : string → string → string → M unit).
Context (toDateString : Z → string).
Hypothesis (Hsend : send_returns send).

Local Abbreviation faculty_of w uid :=
  (findOne (λ f, bool_decide (Faculty.user f = uid)) (faculties (db w))).
Local Abbreviation student_of w uid :=
  (findOne (λ s, bool_decide (Student.user s = uid)) (students (db w))).

(** The helper modelled from the spec, over a transport that delivers. *)
Local Abbreviation reference := (sendAppointmentEmail (λ _, true)).

Lemma book_commits_any w uid facultyId availabilityId d purpose sid student
    faculty av w' r :
  student_of w uid = Some (sid, student) →
  faculties (db w) !! facultyId = Some faculty →
  availabilities (db w) !! availabilityId = Some av →
  Availability.faculty av = facultyId →
  Availability.isActive av = true →
  Availability.isBooked av = false →
  findOne (same_day_active sid d) (appointments (db w)) = None →
  validate_new (booking_input sid facultyId availabilityId d av purpose) = true →
  bookAppointment castable send toDateString uid facultyId availabilityId
    (Some d) purpose w = (w', r) →
  let id := fresh (dom (appointments (db w))) in
  let doc := new_appointment
               (booking_input sid facultyId availabilityId d av purpose) in
  appointments (db w') = <[id := doc]> (appointments (db w))
  ∧ availabilities (db w')
    = alter (Availability.set_isBooked true) availabilityId
        (availabilities (db w))
  ∧ students (db w')
    = alter (Student.push_appointment id) sid (students (db w))
  ∧ users (db w') = users (db w)
  ∧ (validate_faculty faculty = false →
     faculties (db w') = faculties (db w)
     ∧ r = mkResponse 500 false "Server error" None (Some ValidationError))
  ∧ (validate_faculty faculty = true →
     faculties (db w')
     = alter (Faculty.push_appointment id) facultyId (faculties (db w))
     ∧ (is_Some (users (db w) !! Student.user student) →
        is_Some (users (db w) !! Faculty.user faculty) →
        r = ok_response 201 "Appointment booked successfully" (id, doc))).
Proof.
  intros Hs Hf Hav Hown Hact Hfree Hnone Hv Hrun.
  destruct (returning_sends_agree castable send reference toDateString
              Hsend (sendAppointmentEmail_returns _) w) as (Hagree & _).
  specialize (Hagree uid facultyId availabilityId (Some d) purpose).
  cbv beta zeta in Hagree. rewrite Hrun in Hagree. destruct Hagree as [Hdb Hr].
  cbn [fst snd] in Hdb, Hr.
  destruct (bookAppointment castable reference toDateString
               uid facultyId availabilityId (Some d) purpose w)
    as [w2 r2] eqn:Hrun2.
  cbn [fst snd] in Hdb, Hr. rewrite Hdb, Hr.
  by eapply (book_commits castable (λ _, true) toDateString w).
Qed.

Lemma updateStatus_commits_any w uid aid status reason fid f a w' r :
  status = "accepted" ∨ status = "rejected" →
  faculty_of w uid = Some (fid, f) →
  appointments (db w) !! aid = Some a →
  Appointment.faculty a = fid →
  Appointment.status a = pending →
  validate_saved (decided status reason a) = true →
  updateAppointmentStatus castable send toDateString uid aid status reason w = (w', r) →
  appointments (db w') = alter (decided status reason) aid (appointments (db w))
  ∧ availabilities (db w')
    = (if bool_decide (status = "rejected")
       then alter (Availability.set_isBooked false) (Appointment.availability a)
       else id) (availabilities (db w))
  ∧ students (db w') = students (db w)
  ∧ faculties (db w') = faculties (db w)
  ∧ users (db w') = users (db w)
  ∧ (is_Some (student_contact (db w) a) →
     r = ok_response 200
           ("Appointment " ++ (if bool_decide (status = "accepted")
                               then "accepted" else "rejected")
            ++ " successfully")
           (aid, decided status reason a)).
Proof.
  intros Hst Hf Ha Hown Hpend Hv Hrun.
  destruct (returning_sends_agree castable send reference toDateString
              Hsend (sendAppointmentEmail_returns _) w) as (_ & Hagree & _).
  specialize (Hagree uid aid status reason).
  cbv beta zeta in Hagree. rewrite Hrun in Hagree. destruct Hagree as [Hdb Hr].
  cbn [fst snd] in Hdb, Hr.
  destruct (updateAppointmentStatus castable reference toDateString
               uid aid status reason w)
    as [w2 r2] eqn:Hrun2.
  cbn [fst snd] in Hdb, Hr. rewrite Hdb, Hr.
  by eapply (updateStatus_commits castable (λ _, true) toDateString w).
Qed.

Lemma complete_commits_any w uid aid fid f a w' r :
  faculty_of w uid = Some (fid, f) →
  appointments (db w) !! aid = Some a →
  Appointment.faculty a = fid →
  Appointment.status a = accepted →
  validate_saved a = true →
  completeAppointment castable send toDateString uid aid w = (w', r) →
  appointments (db w')
  = alter (Appointment.set_status completed) aid (appointments (db w))
  ∧ availabilities (db w')
    = alter (Availability.set_isBooked false) (Appointment.availability a)
        (availabilities (db w))
  ∧ students (db w') = students (db w)
  ∧ faculties (db w') = faculties (db w)
  ∧ users (db w') = users (db w)
  ∧ (is_Some (student_contact (db w) a) →
     r = ok_response 200 "Appointment marked as completed"
           (aid, Appointment.set_status completed a)).
Proof.
  intros Hf Ha Hown Hst Hv Hrun.
  destruct (returning_sends_agree castable send reference toDateString
              Hsend (sendAppointmentEmail_returns _) w) as (_ & _ & _ & Hagree).
  specialize (Hagree uid aid).
  cbv beta zeta in Hagree. rewrite Hrun in Hagree. destruct Hagree as [Hdb Hr].
  cbn [fst snd] in Hdb, Hr.
  destruct (completeAppointment castable reference toDateString
               uid aid w)
    as [w2 r2] eqn:Hrun2.
  cbn [fst snd] in Hdb, Hr. rewrite Hdb, Hr.
  by eapply (complete_commits castable (λ _, true) toDateString w).
Qed.

Lemma cancel_commits_any w uid aid reason a role w' r :
  appointments (db w) !! aid = Some a →
  Appointment.status a ≠ cancelled →
  Appointment.status a ≠ rejected →
  owner_role (db w) uid a = Some role →
  validate_saved (cancelled_by role reason a) = true →
  cancelAppointment castable send toDateString uid aid reason w = (w', r) →
  appointments (db w')
  = alter (cancelled_by role reason) aid (appointments (db w))
  ∧ availabilities (db w')
    = alter (Availability.set_isBooked false) (Appointment.availability a)
        (availabilities (db w))
  ∧ students (db w') = students (db w)
  ∧ faculties (db w') = faculties (db w)
  ∧ users (db w') = users (db w)
  ∧ (is_Some (student_contact (db w) a) →
     is_Some (faculty_contact (db w) a) →
     r = ok_response 200 "Appointment cancelled successfully"
           (aid, cancelled_by role reason a)).
Proof.
  intros Ha Hnc Hnr Hrole Hv Hrun.
  destruct (returning_sends_agree castable send reference toDateString
              Hsend (sendAppointmentEmail_returns _) w) as (_ & _ & Hagree & _).
  specialize (Hagree uid aid reason).
  cbv beta zeta in Hagree. rewrite Hrun in Hagree. destruct Hagree as [Hdb Hr].
  cbn [fst snd] in Hdb, Hr.
  destruct (cancelAppointment castable reference toDateString
               uid aid reason w)
    as [w2 r2] eqn:Hrun2.
  cbn [fst snd] in Hdb, Hr. rewrite Hdb, Hr.
  by eapply (cancel_commits castable (λ _, true) toDateString w).
Qed.

End Transfer.

Section Returning.

Context (castable : string → bool).
Context (send : string → string → string → M unit).
Context (toDateString : Z → string).
Hypothesis (Hsend : send_returns send).

Local Abbreviation updateAppointmentStatus :=
  (updateAppointmentStatus castable send toDateString).
Local Abbreviation cancelAppointment :=
  (cancelAppointment castable send toDateString).
Local Abbreviation completeAppointment :=
  (completeAppointment castable send toDateString).
Local Abbreviation faculty_of w uid :=
  (findOne (λ f, bool_decide (Faculty.user f = uid)) (faculties (db w))).

(** C9. When the slot an appointment references is no longer in the
    store, rejecting, cancelling and completing the appointment still
    answer 200: the new status is stored, and the release of the slot is
    skipped without any error, the slots being left as they were.  The
    operations are taken where they succeed when the slot is there: right
    caller, right status, a stored document every validator of the schema
    accepts and a reason it accepts, the user records the notifications
    read, and a mail helper that returns. *)
Theorem release_skipped_when_slot_gone w aid a :
  appointments (db w) !! aid = Some a →
  availabilities (db w) !! Appointment.availability a = None →
  validate_saved a = true →
  is_Some (student_contact (db w) a) →
  (∀ uid reason fid f w' r,
     faculty_of w uid = Some (fid, f) →
     Appointment.faculty a = fid →
     Appointment.status a = pending →
     reason_fits reason = true →
     updateAppointmentStatus uid aid "rejected" reason w = (w', r) →
     code r = 200 ∧ success r = true
     ∧ Appointment.status <$> appointments (db w') !! aid = Some rejected
     ∧ availabilities (db w') = availabilities (db w))
  ∧ (∀ uid reason role w' r,
       owner_role (db w) uid a = Some role →
       Appointment.status a = pending ∨ Appointment.status a = accepted →
       reason_fits reason = true →
       is_Some (faculty_contact (db w) a) →
       cancelAppointment uid aid reason w = (w', r) →
       code r = 200 ∧ success r = true
       ∧ Appointment.status <$> appointments (db w') !! aid = Some cancelled
       ∧ availabilities (db w') = availabilities (db w))
  ∧ (∀ uid fid f w' r,
       faculty_of w uid = Some (fid, f) →
       Appointment.faculty a = fid →
       Appointment.status a = accepted →
       completeAppointment uid aid w = (w', r) →
       code r = 200 ∧ success r = true
       ∧ Appointment.status <$> appointments (db w') !! aid = Some completed
       ∧ availabilities (db w') = availabilities (db w)).
Proof.
  intros Ha Hslot Hv Hsc. split; [|split].
  - intros uid reason fid f w' r Hf Hown Hst Hfit Hrun.
    eapply updateStatus_commits_any in Hrun as (Hap & Hav & _ & _ & _ & Hr);
      eauto using decided_valid.
    rewrite (Hr Hsc), Hap, Hav, lookup_alter_eq, Ha. literals. cbv beta iota.
    rewrite alter_absent by done. repeat split.
    unfold decided. literals. by destruct (truthy reason).
  - intros uid reason role w' r Hrole Hst Hfit Hfc Hrun.
    eapply cancel_commits_any in Hrun as (Hap & Hav & _ & _ & _ & Hr);
      eauto using cancelled_by_valid; try (destruct Hst; congruence).
    rewrite (Hr Hsc Hfc), Hap, Hav, lookup_alter_eq, Ha.
    rewrite alter_absent by done. repeat split.
    unfold cancelled_by. by destruct (truthy reason).
  - intros uid fid f w' r Hf Hown Hst Hrun.
    eapply complete_commits_any in Hrun as (Hap & Hav & _ & _ & _ & Hr); eauto.
    rewrite (Hr Hsc), Hap, Hav, lookup_alter_eq, Ha.
    rewrite alter_absent by done. by repeat split.
Qed.

(** C6, amended.  [cancelAppointment] on a rejected appointment fails
    with 400 and writes nothing.  On a pending or accepted appointment,
    called by a user resolved as its owning student or, having no student
    profile, as its owning faculty, with a stored document every validator
    of the schema accepts and a reason that is absent or of at most 200
    characters, it stores status cancelled, cancelledBy the resolved role
    and the reason when it is not empty, and sets isBooked = false on the
    slot the appointment references; it answers 200 when the user records
    of the appointment's student and faculty are on file and the mail
    helper returns. *)
Theorem cancel_by_owner w uid aid reason a w' r :
  appointments (db w) !! aid = Some a →
  cancelAppointment uid aid reason w = (w', r) →
  (Appointment.status a = rejected →
     w' = w ∧ r = failure 400 "Cannot cancel a rejected appointment")
  ∧ (∀ role,
       Appointment.status a = pending ∨ Appointment.status a = accepted →
       owner_role (db w) uid a = Some role →
       validate_saved a = true →
       reason_fits reason = true →
       let a' := cancelled_by role reason a in
       appointments (db w') !! aid = Some a'
       ∧ Appointment.status a' = cancelled
       ∧ Appointment.cancelledBy a' = Some role
       ∧ Appointment.cancelReason a'
         = (if truthy reason then reason else Appointment.cancelReason a)
       ∧ availabilities (db w') !! Appointment.availability a
         = Availability.set_isBooked false
             <$> availabilities (db w) !! Appointment.availability a
       ∧ (is_Some (student_contact (db w) a) →
          is_Some (faculty_contact (db w) a) →
          r = ok_response 200 "Appointment cancelled successfully" (aid, a'))).
Proof.
  intros Ha Hrun. split.
  - intros Hst. run_in Hrun. rewrite Ha, Hst in Hrun. literals_in Hrun.
    fields. by simplify_eq.
  - intros role Hst Hrole Hv Hfit a'.
    eapply cancel_commits_any in Hrun as (Hap & Hav & _ & _ & _ & Hr);
      eauto using cancelled_by_valid; try (destruct Hst; congruence).
    rewrite Hap, Hav, !lookup_alter_eq, Ha. subst a'.
    repeat split; try done; unfold cancelled_by; by destruct (truthy reason).
Qed.

End Returning.

(** ** Racing bookings *)

Section RaceFacts.
Context (castable : string → bool).
Context (send : string → string → string → M unit).
Context (toDateString : Z → string).

(** Served alone, a request runs exactly [bookAppointment]. *)
Lemma book_alone_bookAppointment rq w :
  book_alone castable send toDateString rq w
  = bookAppointment castable send toDateString (rq_user rq) (rq_facultyId rq)
      (rq_availabilityId rq) (rq_date rq) (rq_purpose rq) w.
Proof.
  unfold book_alone, book_until_guard, book_resume, bookAppointment, handler.
  unfold mbind at 1, M_bind.
  destruct (bookAppointment_checks _ _ _ _ _ w) as [w1 [b|r|e]]; done.
Qed.

Context (transport : Email → bool).

Local Abbreviation book_until_guard := (book_until_guard castable).
Local Abbreviation book_interleaved := (book_interleaved castable).

(** The checks of a request only read, and the booking they return is for
    the slot requested. *)
Lemma book_until_guard_reads rq w w' b :
  book_until_guard rq w = (w', inr b) →
  w' = w ∧ (bk_availability b).1 = rq_availabilityId rq.
Proof.
  intros Hrun. run_in Hrun. explore. done.
Qed.

(** A resumed request creates its appointment whatever happened to the
    slot since it was read. *)
Lemma book_resume_creates rq b w w' r :
  validate_new (pending_input rq b) = true →
  book_resume (sendAppointmentEmail transport) toDateString rq (inr b) w = (w', r) →
  appointments (db w')
  = <[fresh (dom (appointments (db w))) := new_appointment (pending_input rq b)]>
      (appointments (db w)).
Proof.
  intros Hv Hrun. destruct b as [[sid s] [fid f] [aid av] d].
  unfold pending_input in Hv. run_in Hrun. fields.
  unfold booking_input in Hv. fields. rewrite Hv in Hrun. fields.
  explore; done.
Qed.

(** Two requests for one slot that both pass their checks before either
    writes end as two holders of that slot. *)
Lemma interleaved_bookings_two_holders rq1 rq2 w b1 b2 w1 w2 w' r1 r2 :
  rq_availabilityId rq1 = rq_availabilityId rq2 →
  book_until_guard rq1 w = (w1, inr b1) →
  book_until_guard rq2 w1 = (w2, inr b2) →
  validate_new (pending_input rq1 b1) = true →
  validate_new (pending_input rq2 b2) = true →
  book_interleaved (sendAppointmentEmail transport) toDateString rq1 rq2 w = (w', (r1, r2)) →
  ∃ id1 id2,
    id1 ≠ id2
    ∧ holds_slot (db w') (rq_availabilityId rq1) id1
    ∧ holds_slot (db w') (rq_availabilityId rq1) id2.
Proof.
  intros Hslot Hg1 Hg2 Hv1 Hv2 Hrun.
  unfold book_interleaved in Hrun. rewrite Hg1, Hg2 in Hrun.
  destruct (book_until_guard_reads _ _ _ _ Hg1) as [-> Hs1].
  destruct (book_until_guard_reads _ _ _ _ Hg2) as [-> Hs2].
  destruct (book_resume _ _ rq1 _ w) as [w3 r1'] eqn:Hr1.
  destruct (book_resume _ _ rq2 _ w3) as [w4 r2'] eqn:Hr2.
  injection Hrun as <- <- <-.
  apply book_resume_creates in Hr1; [|done].
  apply book_resume_creates in Hr2; [|done].
  set (id1 := fresh (dom (appointments (db w)))) in *.
  set (id2 := fresh (dom (appointments (db w3)))) in *.
  assert (Hne : id1 ≠ id2).
  { intros Heq. pose proof (is_fresh (dom (appointments (db w3)))) as Hfresh.
    fold id2 in Hfresh. rewrite <- Heq, Hr1 in Hfresh.
    apply Hfresh, elem_of_dom. rewrite lookup_insert_eq. by eexists. }
  exists id1, id2. split; [done|]. split.
  - exists (new_appointment (pending_input rq1 b1)).
    rewrite Hr2, lookup_insert_ne, Hr1, lookup_insert_eq by done.
    by rewrite <- Hs1.
  - exists (new_appointment (pending_input rq2 b2)).
    rewrite Hr2, lookup_insert_eq. by rewrite Hslot, <- Hs2.
Qed.

(** X22. Whatever the database was, two bookings of one slot that both
    pass their checks before either writes, and whose documents the schema
    accepts, leave a database that breaks the slot-consistency invariant:
    the slot has two pending appointments. *)
Lemma interleaved_bookings_inconsistent rq1 rq2 w b1 b2 w1 w2 w' r1 r2 :
  rq_availabilityId rq1 = rq_availabilityId rq2 →
  book_until_guard rq1 w = (w1, inr b1) →
  book_until_guard rq2 w1 = (w2, inr b2) →
  validate_new (pending_input rq1 b1) = true →
  validate_new (pending_input rq2 b2) = true →
  book_interleaved (sendAppointmentEmail transport) toDateString rq1 rq2 w
  = (w', (r1, r2)) →
  ¬ consistent (db w').
Proof.
  intros Hslot Hg1 Hg2 Hv1 Hv2 Hrun [_ Hone].
  destruct (interleaved_bookings_two_holders _ _ _ _ _ _ _ _ _ _
              Hslot Hg1 Hg2 Hv1 Hv2 Hrun) as (id1 & id2 & Hne & H1 & H2).
  destruct Hne. eauto.
Qed.

End RaceFacts.

(** * Beyond the lifecycle operations one by one *)

(** Route a request, or a sequence of requests, to the handlers. *)
Ltac route := cbn [serve serve_all].
Ltac route_in H := cbn [serve serve_all] in H.

(** ** What one request does to the database *)

Section Steps.

Context (castable : string → bool).
Context (transport : Email → bool) (toDateString : Z → string).

Local Abbreviation serve :=
  (serve castable (sendAppointmentEmail transport) toDateString).
Local Abbreviation faculty_of w uid :=
  (findOne (λ f, bool_decide (Faculty.user f = uid)) (faculties (db w))).
Local Abbreviation student_of w uid :=
  (findOne (λ s, bool_decide (Student.user s = uid)) (students (db w))).

(** Altering a key that is in the map stores the altered value there. *)
Lemma alter_present {T} (f : T → T) (k : string) (m : gmap string T) x :
  m !! k = Some x → alter f k m = <[k := f x]> m.
Proof.
  intros H. apply map_eq. intros j. rewrite lookup_alter, lookup_insert.
  case_decide; [subst; by rewrite H | done].
Qed.

(** What [Appointment.create] stores passes the schema. *)
Lemma new_appointment_ok i :
  validate_new i = true → stored_ok (new_appointment i) = true.
Proof.
  unfold validate_new, stored_ok, new_appointment, validate_saved.
  destruct i as [s f a d st en [p|]]; cbn [in_startTime in_endTime in_purpose
    Appointment.startTime Appointment.endTime Appointment.purpose
    Appointment.cancelReason default required_string].
  - rewrite !andb_true_iff. tauto.
  - rewrite !andb_true_iff. intros [[_ H] _]. discriminate.
Qed.

(** The leaves of a run that saved an appointment. *)
Ltac saved :=
  unbool; right; right; eexists _, _, _; split; [eassumption|];
  split; [by apply alter_present|];
  split; [done|]; split; [|split; [done|]].

(** The faculty profile found for the caller is the appointment's. *)
Ltac by_faculty :=
  cbn [caller]; fields;
  repeat match goal with
    | H : findOne _ (faculties _) = Some ?p |- _ =>
        is_var p; destruct p as [? ?]; cbn [fst snd] in *
    end;
  subst; eauto.

(** A request leaves the appointments as they are, creates one, or saves
    one with a new status at the request of one of its owners. *)
Lemma appointments_step rq w w' r :
  serve rq w = (w', r) →
  appointments (db w') = appointments (db w)
  ∨ (∃ doc,
       appointments (db w')
       = <[fresh (dom (appointments (db w))) := doc]> (appointments (db w))
       ∧ Appointment.status doc = pending
       ∧ stored_ok doc = true
       ∧ findOne (same_day_active (Appointment.student doc)
                    (Appointment.date doc)) (appointments (db w)) = None)
  ∨ (∃ aid a a',
       appointments (db w) !! aid = Some a
       ∧ appointments (db w') = <[aid := a']> (appointments (db w))
       ∧ same_snapshot a a'
       ∧ moves (Appointment.status a) (Appointment.status a') = true
       ∧ validate_saved a' = true
       ∧ match Appointment.status a' with
         | cancelled => is_Some (owner_role (db w) (caller rq) a)
         | _ => ∃ f, faculty_of w (caller rq) = Some (Appointment.faculty a, f)
         end).
Proof.
  intros Hrun.
  destruct rq as [uid fid aid d p|uid aid status reason|uid aid reason|uid aid];
    route_in Hrun.
  - run_in Hrun. explore; auto.
    all: right; left; eexists; split; [reflexivity|]; split; [done|].
    all: split; [by apply new_appointment_ok|].
    all: fields; cbn [new_appointment in_student in_date Appointment.student
                        Appointment.date].
    all: match goal with
         | H : bool_decide (is_Some ?o) = false |- _ =>
             apply bool_decide_eq_false_1 in H; destruct o eqn:?;
             [destruct H; eauto | done]
         end.
  - destruct (decide (status = "rejected")) as [-> | Hnr].
    + run_in Hrun. literals_in Hrun. fields. explore; auto.
      all: saved.
      all: try match goal with H : Appointment.status _ = _ |- _ => by rewrite H end.
      all: by_faculty.
    + run_in Hrun. rewrite (bool_decide_eq_false_2 _ Hnr) in Hrun. fields.
      explore; auto.
      all: saved.
      all: try match goal with H : Appointment.status _ = _ |- _ => by rewrite H end.
      all: by_faculty.
  - cancel_prefix_in Hrun.
    destruct (appointments (db w) !! aid) as [a|] eqn:Ha;
      [|destruct (castable aid); simplify_eq; fields; auto].
    destruct (bool_decide (Appointment.status a = cancelled)) eqn:Hc;
      [by simplify_eq; auto|].
    destruct (bool_decide (Appointment.status a = rejected)) eqn:Hr;
      [by simplify_eq; auto|].
    destruct (resolve_role uid a w) as [w1 [role|r1|e]] eqn:Hrole.
    + assert (w1 = w) as ->.
      { revert Hrole. run. intros Hrole. explore; done. }
      apply resolve_role_owner in Hrole.
      run_in Hrun. explore; auto.
      all: saved.
      all: try (fields; destruct (Appointment.status a); done || congruence).
      all: cbn [caller]; fields; rewrite Hrole; eauto.
    + assert (w1 = w) as ->.
      { revert Hrole. run. intros Hrole. explore; done. }
      simplify_eq. auto.
    + revert Hrole. run. intros Hrole. explore; done.
  - run_in Hrun. explore; auto.
    all: saved.
    all: try match goal with H : Appointment.status _ = _ |- _ => by rewrite H end.
    all: by_faculty.
Qed.

End Steps.

Section Steps2.

Context (castable : string → bool).
Context (transport : Email → bool) (toDateString : Z → string).

Local Abbreviation serve :=
  (serve castable (sendAppointmentEmail transport) toDateString).
Local Abbreviation faculty_of w uid :=
  (findOne (λ f, bool_decide (Faculty.user f = uid)) (faculties (db w))).
Local Abbreviation student_of w uid :=
  (findOne (λ s, bool_decide (Student.user s = uid)) (students (db w))).

(** A request flips the flag of at most one slot and touches no slot
    otherwise. *)
Lemma availabilities_step rq w w' r :
  serve rq w = (w', r) →
  availabilities (db w') = availabilities (db w)
  ∨ ∃ slot av b,
      availabilities (db w) !! slot = Some av
      ∧ availabilities (db w')
        = <[slot := Availability.set_isBooked b av]> (availabilities (db w)).
Proof.
  intros Hrun.
  destruct rq as [uid fid aid d p|uid aid status reason|uid aid reason|uid aid];
    route_in Hrun.
  - run_in Hrun. explore; auto.
    all: right; eexists _, _, _; split; [eassumption|by apply alter_present].
  - destruct (decide (status = "rejected")) as [-> | Hnr].
    + run_in Hrun. literals_in Hrun. fields. explore; auto.
      all: right; eexists _, _, _; split; [eassumption|by apply alter_present].
    + run_in Hrun. rewrite (bool_decide_eq_false_2 _ Hnr) in Hrun. fields.
      explore; auto.
  - run_in Hrun. explore; auto.
    all: right; eexists _, _, _; split; [eassumption|by apply alter_present].
  - run_in Hrun. explore; auto.
    all: right; eexists _, _, _; split; [eassumption|by apply alter_present].
Qed.

(** A request writes no user; it leaves the profiles as they are, or, when
    it books, appends the new appointment to the list of one student and,
    unless the faculty document fails its validators, of one faculty. *)
Lemma profiles_step rq w w' r :
  serve rq w = (w', r) →
  users (db w') = users (db w)
  ∧ ((students (db w') = students (db w)
      ∧ faculties (db w') = faculties (db w)
      ∧ appointments (db w') !! fresh (dom (appointments (db w))) = None)
     ∨ ∃ sid s fid f doc,
         let id := fresh (dom (appointments (db w))) in
         students (db w) !! sid = Some s
         ∧ faculties (db w) !! fid = Some f
         ∧ students (db w')
           = <[sid := Student.push_appointment id s]> (students (db w))
         ∧ (faculties (db w')
            = <[fid := Faculty.push_appointment id f]> (faculties (db w))
            ∨ (validate_faculty f = false
               ∧ faculties (db w') = faculties (db w)))
         ∧ appointments (db w') = <[id := doc]> (appointments (db w))
         ∧ Appointment.student doc = sid
         ∧ Appointment.faculty doc = fid).
Proof.
  intros Hrun.
  assert (Hfresh : appointments (db w) !! fresh (dom (appointments (db w))) = None).
  { apply not_elem_of_dom, is_fresh. }
  assert (Hne : ∀ aid a, appointments (db w) !! aid = Some a →
                         aid ≠ fresh (dom (appointments (db w)))).
  { intros aid a Ha Heq. rewrite Heq in Ha. congruence. }
  destruct rq as [uid fid aid d p|uid aid status reason|uid aid reason|uid aid];
    route_in Hrun.
  - run_in Hrun. explore; (split; [done|]).
    all: try solve [left; repeat split; done].
    all: right;
      match goal with H : findOne _ (students _) = Some (?sid, ?s) |- _ =>
        apply findOne_Some in H as [H _]; eexists sid, s, _, _, _ end.
    all: cbn zeta; fields.
    all: split; [eassumption|]; split; [eassumption|].
    all: split; [by apply alter_present|].
    all: split; [first [ left; by apply alter_present
                       | right; split; [assumption|done] ]|].
    all: done.
  - destruct (decide (status = "rejected")) as [-> | Hnr].
    + run_in Hrun. literals_in Hrun. fields. explore; (split; [done|]).
      all: left; repeat split; try done.
      all: rewrite lookup_alter_ne; eauto.
    + run_in Hrun. rewrite (bool_decide_eq_false_2 _ Hnr) in Hrun. fields.
      explore; (split; [done|]).
      all: left; repeat split; try done.
      all: rewrite lookup_alter_ne; eauto.
  - run_in Hrun. explore; (split; [done|]).
    all: left; repeat split; try done.
    all: rewrite lookup_alter_ne; eauto.
  - run_in Hrun. explore; (split; [done|]).
    all: left; repeat split; try done.
    all: rewrite lookup_alter_ne; eauto.
Qed.

End Steps2.

(** ** What every sequence of requests keeps *)

Section Derived.

Context (castable : string → bool).
Context (transport : Email → bool) (toDateString : Z → string).

Local Abbreviation send := (sendAppointmentEmail transport).
Local Abbreviation serve := (serve castable send toDateString).
Local Abbreviation serve_all := (serve_all castable send toDateString).
Local Abbreviation faculty_of w uid :=
  (findOne (λ f, bool_decide (Faculty.user f = uid)) (faculties (db w))).
Local Abbreviation student_of w uid :=
  (findOne (λ s, bool_decide (Student.user s = uid)) (students (db w))).

(** What every request keeps is kept along a sequence of requests. *)
Lemma serve_all_keeps (P : World → Prop) :
  (∀ rq w, P w → P (serve rq w).1) →
  ∀ rqs w, P w → P (serve_all rqs w).
Proof.
  intros Hstep rqs. induction rqs as [|rq rest IH]; intros w Hw; [done|].
  route. apply IH, Hstep, Hw.
Qed.

(** What every request keeps between the world it starts from and the
    world it leaves is kept along a sequence of requests. *)
Lemma serve_all_relates (R : World → World → Prop) :
  (∀ w, R w w) →
  (∀ w1 w2 w3, R w1 w2 → R w2 w3 → R w1 w3) →
  (∀ rq w, R w (serve rq w).1) →
  ∀ rqs w, R w (serve_all rqs w).
Proof.
  intros Hrefl Htrans Hstep rqs.
  induction rqs as [|rq rest IH]; intros w; [apply Hrefl|].
  route. eapply Htrans; [apply Hstep|apply IH].
Qed.

Lemma same_snapshot_refl a : same_snapshot a a.
Proof. by repeat split. Qed.

Lemma same_snapshot_trans a b c :
  same_snapshot a b → same_snapshot b c → same_snapshot a c.
Proof.
  unfold same_snapshot. intros (?&?&?&?&?&?&?) (?&?&?&?&?&?&?).
  repeat split; congruence.
Qed.

(** No change of status makes an appointment pending or accepted that was
    neither. *)
Lemma moves_active s s' :
  moves s s' = true → active_status s' = true → active_status s = true.
Proof. by destruct s, s'. Qed.

(** A request keeps every stored appointment, with its snapshot. *)
Lemma appointments_kept_step rq w id a :
  appointments (db w) !! id = Some a →
  ∃ a', appointments (db (serve rq w).1) !! id = Some a'
        ∧ same_snapshot a a'.
Proof.
  intros Ha. destruct (serve rq w) as [w' r] eqn:Hrun. cbn [fst].
  destruct (appointments_step _ _ _ _ _ _ _ Hrun)
    as [-> | [(doc & -> & _) | (aid & b & b' & Hb & -> & Hsnap & _)]].
  - eauto using same_snapshot_refl.
  - exists a. split; [|apply same_snapshot_refl].
    rewrite lookup_insert_ne; [done|]. intros Heq.
    pose proof (is_fresh (dom (appointments (db w)))) as Hfresh.
    rewrite Heq in Hfresh. apply Hfresh, elem_of_dom. by eexists.
  - destruct (decide (aid = id)) as [-> | Hne].
    + rewrite lookup_insert_eq. simplify_eq. eauto.
    + rewrite lookup_insert_ne by done. eauto using same_snapshot_refl.
Qed.

(** X1. The appointments collection only grows, and the booking snapshot of
    a stored appointment is never rewritten: whatever requests are served,
    an appointment that was stored is still stored under the same id, with
    the student, faculty, slot, date, start time, end time and purpose it
    was created with. *)
Theorem appointments_are_kept rqs w id a :
  appointments (db w) !! id = Some a →
  ∃ a', appointments (db (serve_all rqs w)) !! id = Some a'
        ∧ same_snapshot a a'.
Proof.
  revert a.
  apply (serve_all_relates (λ w w', ∀ a, appointments (db w) !! id = Some a →
           ∃ a', appointments (db w') !! id = Some a' ∧ same_snapshot a a')).
  - intros w0 a Ha. eauto using same_snapshot_refl.
  - intros w1 w2 w3 H12 H23 a Ha.
    destruct (H12 _ Ha) as (b & Hb & Hab).
    destruct (H23 _ Hb) as (c & Hc & Hbc).
    eauto using same_snapshot_trans.
  - intros rq w0 a. apply appointments_kept_step.
Qed.

(** X2. The status of a stored appointment changes only along the moves the
    handlers make: a request leaves a stored appointment exactly as it was,
    or takes it from pending to accepted, rejected or cancelled, from
    accepted to completed or cancelled, or from completed to cancelled.
    In particular a rejected or cancelled appointment is never written
    again. *)
Theorem status_changes_follow_moves rq w w' r id a a' :
  serve rq w = (w', r) →
  appointments (db w) !! id = Some a →
  appointments (db w') !! id = Some a' →
  a' = a
  ∨ moves (Appointment.status a) (Appointment.status a') = true.
Proof.
  intros Hrun Ha Ha'.
  destruct (appointments_step _ _ _ _ _ _ _ Hrun)
    as [Heq | [(doc & Heq & _) | (aid & b & b' & Hb & Heq & _ & Hm & _)]];
    rewrite Heq in Ha'.
  - left. congruence.
  - rewrite lookup_insert_ne in Ha'; [left; congruence|]. intros Hid.
    pose proof (is_fresh (dom (appointments (db w)))) as Hfresh.
    rewrite Hid in Hfresh. apply Hfresh, elem_of_dom. by eexists.
  - destruct (decide (aid = id)) as [-> | Hne].
    + rewrite lookup_insert_eq in Ha'. simplify_eq. by right.
    + rewrite lookup_insert_ne in Ha' by done. left. congruence.
Qed.

(** X3. Only an owner's request changes an appointment: when a request
    changes a stored appointment, the caller has the faculty profile the
    appointment names, or, for a cancellation, is let through by the role
    resolution as the appointment's student or faculty. *)
Theorem only_owners_change_appointments rq w w' r id a a' :
  serve rq w = (w', r) →
  appointments (db w) !! id = Some a →
  appointments (db w') !! id = Some a' →
  a' ≠ a →
  match Appointment.status a' with
  | cancelled => is_Some (owner_role (db w) (caller rq) a)
  | _ => ∃ f, faculty_of w (caller rq) = Some (Appointment.faculty a, f)
  end.
Proof.
  intros Hrun Ha Ha' Hdiff.
  destruct (appointments_step _ _ _ _ _ _ _ Hrun)
    as [Heq | [(doc & Heq & _) | (aid & b & b' & Hb & Heq & _ & _ & _ & Hown)]];
    rewrite Heq in Ha'.
  - congruence.
  - rewrite lookup_insert_ne in Ha'; [congruence|]. intros Hid.
    pose proof (is_fresh (dom (appointments (db w)))) as Hfresh.
    rewrite Hid in Hfresh. apply Hfresh, elem_of_dom. by eexists.
  - destruct (decide (aid = id)) as [-> | Hne].
    + rewrite lookup_insert_eq in Ha'. by simplify_eq.
    + rewrite lookup_insert_ne in Ha' by done. congruence.
Qed.

(** X4. The schema holds of everything stored: when every stored
    appointment passes the validators of its schema (both times HH:MM, a
    purpose that is present and at most 200 characters long, a reason of at
    most 200 characters), so does every appointment stored after any
    sequence of requests. *)
Theorem stored_appointments_stay_valid rqs w :
  (∀ id a, appointments (db w) !! id = Some a → stored_ok a = true) →
  ∀ id a, appointments (db (serve_all rqs w)) !! id = Some a →
          stored_ok a = true.
Proof.
  apply (serve_all_keeps (λ w, ∀ id a, appointments (db w) !! id = Some a →
                                       stored_ok a = true)).
  clear w. intros rq w Hall id a.
  destruct (serve rq w) as [w' r] eqn:Hrun. cbn [fst].
  destruct (appointments_step _ _ _ _ _ _ _ Hrun)
    as [-> | [(doc & -> & _ & Hdoc & _)
             | (aid & b & b' & Hb & -> & Hsnap & _ & Hv & _)]].
  - apply Hall.
  - intros [[_ <-] | [_ Ha]]%lookup_insert_Some; eauto.
  - intros [[_ <-] | [_ Ha]]%lookup_insert_Some; [|eauto].
    specialize (Hall _ _ Hb). unfold stored_ok in *.
    destruct Hsnap as (_ & _ & _ & _ & -> & -> & ->).
    rewrite Hv. rewrite !andb_true_iff in *. tauto.
Qed.

(** X5. The one-appointment-a-day rule holds along every sequence of
    requests served one after the other: when no student has two pending
    or accepted appointments on one date, none has afterwards. *)
Theorem one_active_per_day_kept rqs w :
  one_active_per_day (db w) →
  one_active_per_day (db (serve_all rqs w)).
Proof.
  apply (serve_all_keeps (λ w, one_active_per_day (db w))).
  clear w. intros rq w Hone.
  destruct (serve rq w) as [w' r] eqn:Hrun. cbn [fst].
  intros id1 id2 a1 a2.
  destruct (appointments_step _ _ _ _ _ _ _ Hrun)
    as [-> | [(doc & -> & _ & _ & Hnone)
             | (aid & b & b' & Hb & -> & Hsnap & Hm & _)]].
  - apply Hone.
  - assert (Hclash : ∀ id a,
      appointments (db w) !! id = Some a →
      Appointment.student doc = Appointment.student a →
      Appointment.date doc = Appointment.date a →
      active_status (Appointment.status a) = true → False).
    { intros id a Ha Hs Hd Hact.
      pose proof (findOne_None _ _ _ _ Hnone Ha) as Hf.
      unfold same_day_active in Hf.
      rewrite Hact, !bool_decide_eq_true_2 in Hf by done. discriminate. }
    intros [[<- <-] | [? H1]]%lookup_insert_Some
           [[<- <-] | [? H2]]%lookup_insert_Some Hs Hd Hact1 Hact2; try done.
    + destruct (Hclash _ _ H2); done.
    + destruct (Hclash _ _ H1); done.
    + eapply Hone; eauto.
  - assert (Hback : ∀ id a',
      <[aid := b']> (appointments (db w)) !! id = Some a' →
      active_status (Appointment.status a') = true →
      ∃ a, appointments (db w) !! id = Some a
           ∧ Appointment.student a = Appointment.student a'
           ∧ Appointment.date a = Appointment.date a'
           ∧ active_status (Appointment.status a) = true).
    { intros id a' [[<- <-] | [? H]]%lookup_insert_Some Hact.
      - exists b. destruct Hsnap as (-> & _ & _ & -> & _).
        eauto using moves_active.
      - eauto. }
    intros H1 H2 Hs Hd Hact1 Hact2.
    destruct (Hback _ _ H1 Hact1) as (b1 & Hb1 & Hs1 & Hd1 & Ha1).
    destruct (Hback _ _ H2 Hact2) as (b2 & Hb2 & Hs2 & Hd2 & Ha2).
    eapply Hone; eauto; congruence.
Qed.

(** X6. Slots are neither created nor deleted nor retimed by the
    appointment controller: after any sequence of requests a slot that was
    stored is the slot it was, up to its booked flag, and no slot has
    appeared. *)
Theorem slots_only_change_their_flag rqs w slot :
  match availabilities (db w) !! slot with
  | Some av =>
      ∃ b, availabilities (db (serve_all rqs w)) !! slot
           = Some (Availability.set_isBooked b av)
  | None => availabilities (db (serve_all rqs w)) !! slot = None
  end.
Proof.
  apply (serve_all_relates (λ w w',
    match availabilities (db w) !! slot with
    | Some av =>
        ∃ b, availabilities (db w') !! slot
             = Some (Availability.set_isBooked b av)
    | None => availabilities (db w') !! slot = None
    end)).
  - intros w0. destruct (availabilities (db w0) !! slot) as [av|] eqn:E; [|done].
    exists (Availability.isBooked av). by destruct av.
  - intros w1 w2 w3 H12 H23.
    destruct (availabilities (db w1) !! slot) as [av|].
    + destruct H12 as [b H12]. rewrite H12 in H23.
      destruct H23 as [b' H23]. exists b'. by rewrite H23.
    + by rewrite H12 in H23.
  - intros rq w0. destruct (serve rq w0) as [w' r] eqn:Hrun. cbn [fst].
    destruct (availabilities_step _ _ _ _ _ _ _ Hrun)
      as [-> | (s & av & b & Hav & ->)].
    + destruct (availabilities (db w0) !! slot) as [av|] eqn:E; [|done].
      exists (Availability.isBooked av). by destruct av.
    + destruct (decide (s = slot)) as [-> | Hne].
      * rewrite Hav, lookup_insert_eq. by exists b.
      * rewrite lookup_insert_ne by done.
        destruct (availabilities (db w0) !! slot) as [av'|] eqn:E; [|done].
        exists (Availability.isBooked av'). by destruct av'.
Qed.

End Derived.

Section Derived2.

Context (castable : string → bool).
Context (transport : Email → bool) (toDateString : Z → string).

Local Abbreviation send := (sendAppointmentEmail transport).
Local Abbreviation serve := (serve castable send toDateString).
Local Abbreviation serve_all := (serve_all castable send toDateString).

Lemma profiles_grown_refl st : profiles_grown st st.
Proof.
  split; [done|]. split.
  - intros sid. destruct (students st !! sid) as [[u n l]|]; [|done].
    exists []. by rewrite app_nil_r.
  - intros fid. destruct (faculties st !! fid) as [[u n p d av l]|]; [|done].
    exists []. by rewrite app_nil_r.
Qed.

Lemma profiles_grown_trans st1 st2 st3 :
  profiles_grown st1 st2 → profiles_grown st2 st3 → profiles_grown st1 st3.
Proof.
  intros (Hu12 & Hs12 & Hf12) (Hu23 & Hs23 & Hf23).
  split; [congruence|]. split.
  - intros sid. specialize (Hs12 sid). specialize (Hs23 sid).
    destruct (students st1 !! sid) as [s|].
    + destruct Hs12 as [l H12]. rewrite H12 in Hs23.
      destruct Hs23 as [l' H23]. exists (l ++ l')%list.
      rewrite H23. cbn. by rewrite app_assoc.
    + by rewrite Hs12 in Hs23.
  - intros fid. specialize (Hf12 fid). specialize (Hf23 fid).
    destruct (faculties st1 !! fid) as [f|].
    + destruct Hf12 as [l H12]. rewrite H12 in Hf23.
      destruct Hf23 as [l' H23]. exists (l ++ l')%list.
      rewrite H23. cbn. by rewrite app_assoc.
    + by rewrite Hf12 in Hf23.
Qed.

(** Along a sequence of requests the profiles only grow. *)
Lemma profiles_grown_along rqs w :
  profiles_grown (db w) (db (serve_all rqs w)).
Proof.
  apply (serve_all_relates castable transport toDateString
           (λ w w', profiles_grown (db w) (db w'))).
  - intros w0. apply profiles_grown_refl.
  - intros w1 w2 w3. apply profiles_grown_trans.
  - intros rq w0. destruct (serve rq w0) as [w' r] eqn:Hrun. cbn [fst].
    destruct (profiles_step _ _ _ _ _ _ _ Hrun)
      as [Hu [(Hs & Hf & _)
             | (sid & s & fid & f & doc & Hsid & Hfid & Hs & Hf & _)]].
    + destruct (profiles_grown_refl (db w0)) as (_ & Hs0 & Hf0).
      split; [done|]. rewrite Hs, Hf. by split.
    + split; [done|]. rewrite Hs. split.
      * intros sid'. destruct (decide (sid = sid')) as [<- | Hne].
        -- rewrite Hsid, lookup_insert_eq. by eexists [_].
        -- rewrite lookup_insert_ne by done.
           destruct (students (db w0) !! sid') as [[u n l]|]; [|done].
           exists []. by rewrite app_nil_r.
      * destruct Hf as [-> | [_ ->]];
          [|by destruct (profiles_grown_refl (db w0)) as (_ & _ & Hf0)].
        intros fid'. destruct (decide (fid = fid')) as [<- | Hne].
        -- rewrite Hfid, lookup_insert_eq. by eexists [_].
        -- rewrite lookup_insert_ne by done.
           destruct (faculties (db w0) !! fid') as [[u n p d av l]|]; [|done].
           exists []. by rewrite app_nil_r.
Qed.

(** X7. The appointment controller writes no user, and of a student or
    faculty profile it writes only the list of appointments, to which it
    only appends: after any sequence of requests every profile is the
    profile it was with ids added at the end of its list, whatever was
    rejected, cancelled or completed meanwhile, and no profile has
    appeared or gone. *)
Theorem profiles_only_gain_appointments rqs w sid fid :
  users (db (serve_all rqs w)) = users (db w)
  ∧ match students (db w) !! sid with
    | Some s =>
        ∃ l, students (db (serve_all rqs w)) !! sid
             = Some (Student.mk (Student.user s) (Student.name s)
                       (Student.appointments s ++ l)%list)
    | None => students (db (serve_all rqs w)) !! sid = None
    end
  ∧ match faculties (db w) !! fid with
    | Some f =>
        ∃ l, faculties (db (serve_all rqs w)) !! fid
             = Some (Faculty.mk (Faculty.user f) (Faculty.name f)
                       (Faculty.phoneNumber f) (Faculty.department f)
                       (Faculty.availabilities f)
                       (Faculty.appointments f ++ l)%list)
    | None => faculties (db (serve_all rqs w)) !! fid = None
    end.
Proof.
  destruct (profiles_grown_along rqs w) as (Hu & Hs & Hf).
  split; [exact Hu|]. split; [apply Hs|apply Hf].
Qed.

(** X8. The lists of appointments on the profiles stay in step with the
    appointments collection as long as the stored faculty documents pass
    the validators of their schema: when they do, and the list of every
    student and of every faculty holds exactly the ids of the stored
    appointments that name it, this is still so after any sequence of
    requests served one after the other. *)
Theorem backrefs_agree_kept rqs w :
  (∀ fid f, faculties (db w) !! fid = Some f → validate_faculty f = true) →
  backrefs_agree (db w) →
  backrefs_agree (db (serve_all rqs w)).
Proof.
  intros Hvalid Hagree.
  refine (proj2 (serve_all_keeps castable transport toDateString
                   (λ w, (∀ fid f, faculties (db w) !! fid = Some f →
                                   validate_faculty f = true)
                         ∧ backrefs_agree (db w))
                   _ rqs w (conj Hvalid Hagree))).
  clear w Hvalid Hagree. intros rq w [Hvalid [Hst Hfa]].
  destruct (serve rq w) as [w' r] eqn:Hrun. cbn [fst].
  pose proof (is_fresh (dom (appointments (db w)))) as Hfresh.
  apply not_elem_of_dom in Hfresh.
  destruct (profiles_step _ _ _ _ _ _ _ Hrun)
    as [_ [(Hs & Hf & Hnew)
          | (sid & s & fid & f & doc & Hsid & Hfid & Hs & Hf & Ha & Hds & Hdf)]].
  - split; [by rewrite Hf|].
    assert (Hsame : ∀ id,
      (∃ a', appointments (db w') !! id = Some a'
             ∧ ∃ a, appointments (db w) !! id = Some a ∧ same_snapshot a a')
      ∨ (appointments (db w') !! id = None ∧ appointments (db w) !! id = None)).
    { intros id.
      destruct (appointments_step _ _ _ _ _ _ _ Hrun)
        as [Heq | [(d & Heq & _) | (aid & b & b' & Hb & Heq & Hsnap & _)]].
      - rewrite Heq. destruct (appointments (db w) !! id) as [a|] eqn:E.
        + left. eauto using same_snapshot_refl.
        + by right.
      - rewrite Heq, lookup_insert_eq in Hnew. discriminate.
      - rewrite Heq. destruct (decide (aid = id)) as [-> | Hne].
        + rewrite lookup_insert_eq. left. eauto.
        + rewrite lookup_insert_ne by done.
          destruct (appointments (db w) !! id) as [a|] eqn:E.
          * left. eauto using same_snapshot_refl.
          * by right. }
    split.
    + intros sid s id Hsid. rewrite Hs in Hsid. rewrite (Hst _ _ id Hsid).
      destruct (Hsame id) as [(a' & Ha' & a & Ha & Hsnap) | [Hn' Hn]].
      * destruct Hsnap as (Heq & _). rewrite Ha', Ha.
        split; intros (x & [= <-] & <-); eauto.
      * rewrite Hn', Hn. split; intros (x & [=] & _).
    + intros fid f id Hfid. rewrite Hf in Hfid. rewrite (Hfa _ _ id Hfid).
      destruct (Hsame id) as [(a' & Ha' & a & Ha & Hsnap) | [Hn' Hn]].
      * destruct Hsnap as (_ & Heq & _). rewrite Ha', Ha.
        split; intros (x & [= <-] & <-); eauto.
      * rewrite Hn', Hn. split; intros (x & [=] & _).
  - cbn zeta in *. set (id0 := fresh (dom (appointments (db w)))) in *.
    destruct Hf as [Hf | [Hbad _]]; [|by rewrite (Hvalid _ _ Hfid) in Hbad].
    split.
    { rewrite Hf. intros fid' f' [[<- <-] | [_ H]]%lookup_insert_Some.
      - exact (Hvalid _ _ Hfid).
      - exact (Hvalid _ _ H). }
    split.
    + intros sid' s' id. rewrite Hs, Ha.
      intros [[<- <-] | [Hne Hsid']]%lookup_insert_Some.
      * cbn. rewrite elem_of_app, list_elem_of_singleton, (Hst _ _ id Hsid).
        destruct (decide (id = id0)) as [-> | Hid].
        -- rewrite lookup_insert_eq. split; eauto.
        -- rewrite lookup_insert_ne by done. split; [|auto].
           by intros [H | H].
      * rewrite (Hst _ _ id Hsid').
        destruct (decide (id = id0)) as [-> | Hid].
        -- rewrite lookup_insert_eq, Hfresh.
           split; [by intros (x & [=] & _)|].
           intros (x & [= <-] & Hx). congruence.
        -- by rewrite lookup_insert_ne.
    + intros fid' f' id. rewrite Hf, Ha.
      intros [[<- <-] | [Hne Hfid']]%lookup_insert_Some.
      * cbn. rewrite elem_of_app, list_elem_of_singleton, (Hfa _ _ id Hfid).
        destruct (decide (id = id0)) as [-> | Hid].
        -- rewrite lookup_insert_eq. split; eauto.
        -- rewrite lookup_insert_ne by done. split; [|auto].
           by intros [H | H].
      * rewrite (Hfa _ _ id Hfid').
        destruct (decide (id = id0)) as [-> | Hid].
        -- rewrite lookup_insert_eq, Hfresh.
           split; [by intros (x & [=] & _)|].
           intros (x & [= <-] & Hx). congruence.
        -- by rewrite lookup_insert_ne.
Qed.

End Derived2.

(** ** How a request ends *)

Section Answers.

Context (castable : string → bool).
Context (transport : Email → bool) (toDateString : Z → string).

Local Abbreviation send := (sendAppointmentEmail transport).
Local Abbreviation serve := (serve castable send toDateString).
Local Abbreviation serve_all := (serve_all castable send toDateString).

(** A run that answered with success: the response carries the stored
    appointment. *)
Ltac answered :=
  left; split; [reflexivity|]; split; [reflexivity|]; split; [reflexivity|];
  eexists _, _; split; [reflexivity|]; fields;
  first [ apply lookup_insert_eq
        | rewrite lookup_alter_eq;
          match goal with H : appointments _ !! _ = _ |- _ => by rewrite H end ].

(** A run that answered with a client error. *)
Ltac refused :=
  right; left; split; [reflexivity|]; split; [cbn; auto|reflexivity].

(** A run that threw before it wrote. *)
Ltac threw_early :=
  right; right; eexists; split; [reflexivity|]; cbn beta iota; fields;
  first [ split; reflexivity | split; [reflexivity | left; reflexivity] ].

(** A booking stopped by the validators of the faculty document, after
    its first three writes. *)
Ltac threw_between :=
  right; right; eexists; split; [reflexivity|]; cbn beta iota; fields;
  split; [reflexivity|]; right; eexists _, _, _;
  split; [reflexivity|]; split; [eassumption|]; split; [assumption|];
  split; reflexivity.

(** A run that threw after it wrote. *)
Ltac threw_late :=
  right; right; eexists; split; [reflexivity|]; cbn beta iota; fields;
  eexists _, _; split;
  [ first [ apply lookup_insert_eq
          | rewrite lookup_alter_eq;
            match goal with H : appointments _ !! _ = _ |- _ => by rewrite H end ]
  | first [ by rewrite (proj1 (not_elem_of_dom _ _) (is_fresh _))
          | match goal with H : appointments _ !! _ = Some ?a |- _ =>
              rewrite H; intros [= E]; apply (f_equal Appointment.status) in E;
              revert E; unbool; fields;
              repeat match goal with |- context [if ?b then _ else _] =>
                       destruct b end;
              fields; congruence
            end ] ].

Ltac classify := first [ solve [answered] | solve [refused]
                       | solve [threw_early] | solve [threw_between]
                       | solve [threw_late] ].

(** The ways a request ends. *)
Lemma answer_step rq w w' r :
  serve rq w = (w', r) →
  (success r = true ∧ error r = None
   ∧ code r = match rq with Book _ _ _ _ _ => 201 | _ => 200 end
   ∧ ∃ id a, data r = Some (id, a) ∧ appointments (db w') !! id = Some a)
  ∨ (r = failure (code r) (message r)
     ∧ (code r = 400 ∨ code r = 403 ∨ code r = 404)
     ∧ w' = w)
  ∨ (∃ e, r = mkResponse 500 false "Server error" None (Some e)
          ∧ match e with
            | CastError => db w' = db w ∧ outbox w' = outbox w
            | ValidationError =>
                outbox w' = outbox w
                ∧ (db w' = db w
                   ∨ ∃ fid f doc,
                       match rq with
                       | Book _ facultyId _ _ _ => facultyId = fid
                       | _ => False
                       end
                       ∧ faculties (db w) !! fid = Some f
                       ∧ validate_faculty f = false
                       ∧ faculties (db w') = faculties (db w)
                       ∧ appointments (db w')
                         = <[fresh (dom (appointments (db w))) := doc]>
                             (appointments (db w)))
            | TypeError =>
                ∃ id a', appointments (db w') !! id = Some a'
                         ∧ appointments (db w) !! id ≠ Some a'
            | MailError => False
            end).
Proof.
  intros Hrun.
  destruct rq as [uid fid aid d p|uid aid status reason|uid aid reason|uid aid];
    route_in Hrun.
  - run_in Hrun. explore. all: classify.
  - destruct (decide (status = "rejected")) as [-> | Hnr].
    + run_in Hrun. literals_in Hrun. fields. explore. all: classify.
    + run_in Hrun. rewrite (bool_decide_eq_false_2 _ Hnr) in Hrun. fields.
      explore. all: classify.
  - run_in Hrun. explore. all: classify.
  - run_in Hrun. explore. all: classify.
Qed.

(** X9. A request that is refused with a client error has no effect at
    all: whenever a handler answers without success and with a code other
    than 500, the database, the outbox and the console are what they
    were. *)
Theorem client_errors_write_nothing rq w w' r :
  serve rq w = (w', r) →
  success r = false →
  code r ≠ 500 →
  w' = w.
Proof.
  intros Hrun Hfail Hcode.
  destruct (answer_step _ _ _ _ Hrun)
    as [(Hok & _) | [(_ & _ & ->) | (e & -> & _)]]; [congruence|done|done].
Qed.

(** X10. A request stopped by a cast or by a schema validator is
    answered 500 and has mailed nobody.  It has written nothing, with one
    exception: a booking whose faculty document fails the validators of
    its schema is stopped at its fourth write, with the appointment
    created and the list of the faculty as it was. *)
Theorem rejected_input_writes_nothing rq w w' r :
  serve rq w = (w', r) →
  error r = Some CastError ∨ error r = Some ValidationError →
  code r = 500
  ∧ outbox w' = outbox w
  ∧ (db w' = db w
     ∨ ∃ uid fid slot date purpose f doc,
         rq = Book uid fid slot date purpose
         ∧ error r = Some ValidationError
         ∧ faculties (db w) !! fid = Some f
         ∧ validate_faculty f = false
         ∧ faculties (db w') = faculties (db w)
         ∧ appointments (db w')
           = <[fresh (dom (appointments (db w))) := doc]>
               (appointments (db w))).
Proof.
  intros Hrun Herr.
  destruct (answer_step _ _ _ _ Hrun)
    as [(_ & Hnone & _) | [(Hr & _) | (e & -> & He)]].
  - rewrite Hnone in Herr. by destruct Herr.
  - rewrite Hr in Herr. by destruct Herr.
  - cbn in Herr. destruct Herr as [[= ->] | [= ->]].
    + destruct He as [-> ->]. auto.
    + destruct He as [-> [-> | (fid & f & doc & Hrq & Hf & Hbad & Hfa & Hap)]];
        [auto|].
      split; [done|]. split; [done|]. right.
      destruct rq as [uid fid' slot d p| | |]; try done. subst fid'.
      by eexists uid, fid, slot, d, p, f, doc.
Qed.

(** X11. A 500 answer does not mean that nothing happened: when a handler
    fails on a profile or user record that is missing, which it reads only
    to notify, the appointment it was asked to create or to change is
    already stored, and stays stored. *)
Theorem missing_contact_fails_after_the_write rq w w' r :
  serve rq w = (w', r) →
  error r = Some TypeError →
  code r = 500
  ∧ success r = false
  ∧ ∃ id a', appointments (db w') !! id = Some a'
             ∧ appointments (db w) !! id ≠ Some a'.
Proof.
  intros Hrun Herr.
  destruct (answer_step _ _ _ _ Hrun)
    as [(_ & Hnone & _) | [(Hr & _) | (e & -> & He)]].
  - congruence.
  - rewrite Hr in Herr. discriminate.
  - cbn in Herr. injection Herr as ->. done.
Qed.

(** X12. A successful answer shows what is stored: the response carries
    the id and the document of an appointment, and this document is the
    one the database holds under that id once the request is served; the
    code is 201 for a booking and 200 otherwise. *)
Theorem success_carries_the_stored_appointment rq w w' r :
  serve rq w = (w', r) →
  success r = true →
  code r = match rq with Book _ _ _ _ _ => 201 | _ => 200 end
  ∧ ∃ id a, data r = Some (id, a) ∧ appointments (db w') !! id = Some a.
Proof.
  intros Hrun Hok.
  destruct (answer_step _ _ _ _ Hrun)
    as [(_ & _ & Hcode & Hdata) | [(Hr & _) | (e & -> & _)]].
  - done.
  - rewrite Hr in Hok. discriminate.
  - discriminate.
Qed.

(** A run that did not end on a missing profile or user record. *)
Ltac reached := intros _; discriminate.

(** A run that ended on a missing profile or user record, against the
    records being on file. *)
Ltac missed :=
  intros Hon _; unfold student_contact, faculty_contact in Hon;
  first [ destruct (Hon _ _ _ eq_refl eq_refl) as [[? ?] [? ?]]
        | destruct (Hon _ eq_refl) as [[? ?] [? ?]]
        | destruct (Hon _ eq_refl) as [? ?] ];
  fields; simplify_option_eq; congruence.

(** With the records a request reads to notify on file, it does not end
    on a missing record. *)
Lemma contacts_reach_the_send rq w w' r :
  serve rq w = (w', r) →
  contacts_on_file rq (db w) →
  error r ≠ Some TypeError.
Proof.
  intros Hrun. revert Hrun.
  destruct rq as [uid fid aid d p|uid aid status reason|uid aid reason|uid aid];
    route; cbn [contacts_on_file]; intros Hrun.
  - run_in Hrun. explore. all: first [ solve [reached] | solve [missed] ].
  - destruct (decide (status = "rejected")) as [-> | Hnr].
    + run_in Hrun. literals_in Hrun. fields. explore.
      all: first [ solve [reached] | solve [missed] ].
    + run_in Hrun. rewrite (bool_decide_eq_false_2 _ Hnr) in Hrun. fields.
      explore. all: first [ solve [reached] | solve [missed] ].
  - run_in Hrun. explore. all: first [ solve [reached] | solve [missed] ].
  - run_in Hrun. explore. all: first [ solve [reached] | solve [missed] ].
Qed.

End Answers.

(** ** Notifications and the answer *)

Section Absorbed.

Context (castable : string → bool).
Context (send : string → string → string → M unit).
Context (toDateString : Z → string).
Hypothesis (Hsend : send_returns send).


End Absorbed.

Section Replay.

Context (castable : string → bool).
Context (transport : Email → bool) (toDateString : Z → string).

Local Abbreviation send := (sendAppointmentEmail transport).
Local Abbreviation serve := (serve castable send toDateString).
Local Abbreviation faculty_of w uid :=
  (findOne (λ f, bool_decide (Faculty.user f = uid)) (faculties (db w))).
Local Abbreviation student_of w uid :=
  (findOne (λ s, bool_decide (Student.user s = uid)) (students (db w))).

(** The saved appointment, as the context has it. *)
Ltac stored :=
  fields; rewrite lookup_alter_eq;
  match goal with H : appointments _ !! _ = Some _ |- _ => rewrite H end;
  reflexivity.

(** Where a successful request leaves what it has read. *)
Lemma success_settles rq w w' r :
  serve rq w = (w', r) →
  success r = true →
  match rq with
  | Book uid fid slot _ _ =>
      is_Some (student_of w' uid)
      ∧ is_Some (faculties (db w') !! fid)
      ∧ ∃ av, availabilities (db w') !! slot = Some av
              ∧ Availability.faculty av = fid
              ∧ Availability.isActive av = true
              ∧ Availability.isBooked av = true
  | UpdateStatus uid aid status _ =>
      (status = "accepted" ∨ status = "rejected")
      ∧ ∃ f a', faculty_of w' uid = Some (Appointment.faculty a', f)
                ∧ appointments (db w') !! aid = Some a'
                ∧ Appointment.status a' ≠ pending
  | Cancel uid aid _ =>
      ∃ a', appointments (db w') !! aid = Some a'
            ∧ Appointment.status a' = cancelled
  | Complete uid aid =>
      ∃ f a', faculty_of w' uid = Some (Appointment.faculty a', f)
              ∧ appointments (db w') !! aid = Some a'
              ∧ Appointment.status a' ≠ accepted
  end.
Proof.
  intros Hrun Hok.
  destruct rq as [uid fid aid d p|uid aid status reason|uid aid reason|uid aid];
    route_in Hrun.
  - run_in Hrun. explore.
    all: unbool;
      match goal with H : findOne _ (students _) = Some _ |- _ =>
        apply findOne_Some in H as [Hs Hu] end.
    all: split; [|split].
    all: try (apply findOne_is_Some; eexists _, _; split;
              [rewrite lookup_alter_eq, Hs; reflexivity | exact Hu]).
    all: try (rewrite lookup_alter_eq;
              match goal with H : faculties _ !! _ = Some _ |- _ =>
                by rewrite H end).
    all: eexists; split;
      [ rewrite lookup_alter_eq;
        match goal with H : availabilities _ !! _ = Some _ |- _ =>
          rewrite H end; reflexivity
      | done ].
  - destruct (decide (status = "rejected")) as [-> | Hnr].
    + run_in Hrun. literals_in Hrun. fields. explore.
      all: unbool; split; [by right|].
      all: match goal with H : findOne _ (faculties _) = Some ?p |- _ =>
             destruct p as [fid f]; cbn [fst snd] in *; subst end.
      all: eexists _, _; (split; [|split]); [|stored|]; fields; [eassumption|].
    all: congruence.
    + run_in Hrun. rewrite (bool_decide_eq_false_2 _ Hnr) in Hrun. fields.
      explore.
      all: unbool; split; [by left|].
      all: match goal with H : findOne _ (faculties _) = Some ?p |- _ =>
             destruct p as [fid f]; cbn [fst snd] in *; subst end.
      all: eexists _, _; (split; [|split]); [|stored|]; fields; [eassumption|].
    all: congruence.
  - run_in Hrun. explore.
    all: eexists; split; [stored|]; done.
  - run_in Hrun. explore.
    all: unbool;
      match goal with H : findOne _ (faculties _) = Some ?p |- _ =>
        destruct p as [fid f]; cbn [fst snd] in *; subst end.
    all: eexists _, _; (split; [|split]); [|stored|]; fields; [eassumption|].
    all: congruence.
Qed.

(** X19. A request that has succeeded does not succeed twice: served
    again on the world it left, the same request is refused with a 400
    and changes nothing, because the slot is now booked or the
    appointment is no longer in the status the request needs. *)
Theorem repeated_request_is_refused rq w w' r :
  serve rq w = (w', r) →
  success r = true →
  ∃ msg, serve rq w' = (w', failure 400 msg).
Proof.
  intros Hrun Hok. pose proof (success_settles _ _ _ _ Hrun Hok) as H.
  clear Hrun Hok.
  destruct rq as [uid fid aid d p|uid aid status reason|uid aid reason|uid aid];
    route.
  - destruct H as ([s Hs] & [f Hf] & av & Hav & Hown & Hact & Hbooked).
    run. rewrite Hs, Hf, Hav. fields.
    rewrite (bool_decide_eq_true_2 _ Hown), Hact, Hbooked. fields.
    eexists. reflexivity.
  - destruct H as (Hst & f & a' & Hf & Ha & Hnp).
    destruct Hst as [-> | ->]; run; literals; fields; rewrite Hf, Ha; fields.
    all: rewrite (bool_decide_eq_true_2 _ eq_refl),
           (bool_decide_eq_false_2 _ Hnp); fields.
    all: eexists; reflexivity.
  - destruct H as (a' & Ha & Hst).
    run. rewrite Ha. fields. rewrite (bool_decide_eq_true_2 _ Hst).
    eexists. reflexivity.
  - destruct H as (f & a' & Hf & Ha & Hna).
    run. rewrite Hf, Ha. fields.
    rewrite (bool_decide_eq_true_2 _ eq_refl), (bool_decide_eq_false_2 _ Hna).
    eexists. reflexivity.
Qed.

End Replay.

(** ** Who is notified *)

Section Notified.

Context (castable : string → bool).
Context (transport : Email → bool) (toDateString : Z → string).

Local Abbreviation send := (sendAppointmentEmail transport).
Local Abbreviation serve := (serve castable send toDateString).

Ltac delivered Hdeliver :=
  repeat match goal with
    | H : transport _ = false |- _ => rewrite Hdeliver in H; discriminate
    | H : findOne _ (students _) = Some (_, _) |- _ =>
        apply findOne_Some in H as [H _]
    end.

Ltac contacts :=
  unfold student_contact, faculty_contact; fields;
  cbn [new_appointment in_student in_faculty Appointment.student
       Appointment.faculty];
  repeat (match goal with
          | H : ?x = Some _ |- context [?x] => rewrite H
          end; cbn [mbind option_bind]);
  reflexivity.

Ltac two_mails :=
  split; [reflexivity|]; eexists _, _, _; split; [reflexivity|];
  split; [contacts|]; cbn beta iota;
  eexists _, _, _; split; [contacts|];
  split; [by rewrite <- app_assoc|]; split; reflexivity.

Ltac one_mail :=
  split; [reflexivity|]; eexists _, _, _; split; [reflexivity|];
  split; [contacts|]; cbn beta iota;
  eexists; split; reflexivity.

(** X13. With a transport that delivers, a request that succeeds mails the
    parties of the appointment it answers with and logs nothing: booking
    and cancelling send one message to the student's user and then one to
    the faculty's user, accepting, rejecting and completing send one
    message, to the student's user. *)
Theorem success_notifies rq w w' r :
  (∀ m, transport m = true) →
  serve rq w = (w', r) →
  success r = true →
  console w' = console w
  ∧ ∃ id a su,
      data r = Some (id, a)
      ∧ student_contact (db w) a = Some su
      ∧ match rq with
        | Book _ _ _ _ _ | Cancel _ _ _ =>
            ∃ fu m1 m2,
              faculty_contact (db w) a = Some fu
              ∧ outbox w' = (outbox w ++ [m1; m2])%list
              ∧ mail_to m1 = User.email su
              ∧ mail_to m2 = User.email fu
        | _ =>
            ∃ m, outbox w' = (outbox w ++ [m])%list
                 ∧ mail_to m = User.email su
        end.
Proof.
  intros Hdeliver Hrun Hok.
  destruct rq as [uid fid aid d p|uid aid status reason|uid aid reason|uid aid];
    route_in Hrun.
  - run_in Hrun. explore. all: delivered Hdeliver. two_mails.
  - destruct (decide (status = "rejected")) as [-> | Hnr].
    + run_in Hrun. literals_in Hrun. fields. explore. all: delivered Hdeliver.
      all: one_mail.
    + run_in Hrun. rewrite (bool_decide_eq_false_2 _ Hnr) in Hrun. fields.
      explore. all: delivered Hdeliver. all: one_mail.
  - run_in Hrun. explore. all: delivered Hdeliver. all: two_mails.
  - run_in Hrun. explore. all: delivered Hdeliver. all: one_mail.
Qed.

End Notified.

(** ** The listings *)

(** Unfold a listing handler down to its lookup and its query. *)
Ltac run_listing :=
  cbv beta iota zeta delta
    [getStudentAppointments getFacultyAppointments listing_handler
     mbind M_bind mret M_ret found reply Student_findOne Faculty_findOne
     Appointment_find_sorted populate_rows].

Section ListingFacts.

#[local] Instance by_date_total : Total by_date.
Proof. intros x y. unfold by_date. lia. Qed.

#[local] Instance by_date_trans : Transitive by_date.
Proof. intros x y z. unfold by_date. lia. Qed.

(** What [find], [sort] and [populate] make of the appointments
    collection: a row for each stored appointment that passes the filter,
    once, in the order of the dates. *)
Lemma listing_rows {Party} (party : Store → Appointment.t → option Party)
    (P : Appointment.t → Prop) `{∀ a, Decision (P a)} w :
  let rows :=
    (λ kv : ObjectId * Appointment.t,
       mkRow kv.1 kv.2 (party (db w) kv.2)
         (populate_availability (db w) (Appointment.availability kv.2)))
    <$> merge_sort by_date
          (filter (λ kv, P kv.2) (map_to_list (appointments (db w)))) in
  (∀ id a,
     (∃ row, row ∈ rows ∧ row_id row = id ∧ row_doc row = a)
     ↔ appointments (db w) !! id = Some a ∧ P a)
  ∧ NoDup (row_id <$> rows)
  ∧ StronglySorted
      (λ r1 r2, (Appointment.date (row_doc r1)
                 ≤ Appointment.date (row_doc r2))%Z) rows
  ∧ (∀ row, row ∈ rows →
       row_party row = party (db w) (row_doc row)
       ∧ row_availability row
         = populate_availability (db w)
             (Appointment.availability (row_doc row))).
Proof.
  set (docs := merge_sort by_date _).
  assert (Hperm : docs ≡ₚ filter (λ kv, P kv.2)
                           (map_to_list (appointments (db w))))
    by apply merge_sort_Permutation.
  assert (Hin : ∀ id a, (id, a) ∈ docs
                        ↔ appointments (db w) !! id = Some a ∧ P a).
  { intros id a. rewrite Hperm, list_elem_of_filter, elem_of_map_to_list.
    cbn. tauto. }
  cbn zeta. split; [|split; [|split]].
  - intros id a. rewrite <- Hin. split.
    + intros (row & Hrow & <- & <-).
      apply list_elem_of_fmap in Hrow as ([id a] & -> & Hkv). done.
    + intros Hkv. eexists. split; [|split].
      * apply list_elem_of_fmap. eexists. split; [reflexivity|exact Hkv].
      * reflexivity.
      * reflexivity.
  - rewrite <- list_fmap_compose.
    change (NoDup (fst <$> docs)). rewrite Hperm.
    eapply sublist_NoDup; [apply (NoDup_fst_map_to_list (appointments (db w)))|].
    apply fmap_sublist, sublist_filter.
  - apply StronglySorted_fmap with (R1 := by_date).
    + intros x y Hxy. exact Hxy.
    + apply StronglySorted_merge_sort; apply _.
  - intros row Hrow.
    apply list_elem_of_fmap in Hrow as ([id a] & -> & Hkv). done.
Qed.

(** X14. [getStudentAppointments] answers 404 when the caller has no
    student profile.  Otherwise it answers 200 with one row for each
    stored appointment of that student and no other row, each appointment
    once, in the order of the dates, [count] being the number of rows;
    each row carries the faculty and the slot the appointment refers to,
    as far as they are on file.  It writes nothing. *)
Theorem getStudentAppointments_lists departments uid w :
  match findOne (λ s, bool_decide (Student.user s = uid)) (students (db w)) with
  | None =>
      getStudentAppointments departments uid w
      = (w, inl (failure 404 "Student not found"))
  | Some student =>
      ∃ rows,
        getStudentAppointments departments uid w
        = (w, inr (mkListing 200 true (List.length rows) rows))
        ∧ (∀ id a,
             (∃ row, row ∈ rows ∧ row_id row = id ∧ row_doc row = a)
             ↔ appointments (db w) !! id = Some a
               ∧ Appointment.student a = student.1)
        ∧ NoDup (row_id <$> rows)
        ∧ StronglySorted
            (λ r1 r2, (Appointment.date (row_doc r1)
                       ≤ Appointment.date (row_doc r2))%Z) rows
        ∧ (∀ row, row ∈ rows →
             row_party row
             = populate_faculty departments (db w)
                 (Appointment.faculty (row_doc row))
             ∧ row_availability row
               = populate_availability (db w)
                   (Appointment.availability (row_doc row)))
  end.
Proof.
  run_listing.
  destruct (findOne _ (students (db w))) as [student|]; [|reflexivity].
  eexists. split; [reflexivity|].
  pose proof (listing_rows
                (λ st a, populate_faculty departments st (Appointment.faculty a))
                (λ a, Appointment.student a = student.1) w) as Hrows.
  exact Hrows.
Qed.

(** X15. [getFacultyAppointments] answers 404 when the caller has no
    faculty profile.  Otherwise it answers 200 with one row for each
    stored appointment of that faculty and no other row, each appointment
    once, in the order of the dates, [count] being the number of rows;
    each row carries the student and the slot the appointment refers to,
    as far as they are on file.  It writes nothing. *)
Theorem getFacultyAppointments_lists uid w :
  match findOne (λ f, bool_decide (Faculty.user f = uid)) (faculties (db w)) with
  | None =>
      getFacultyAppointments uid w
      = (w, inl (failure 404 "Faculty not found"))
  | Some faculty =>
      ∃ rows,
        getFacultyAppointments uid w
        = (w, inr (mkListing 200 true (List.length rows) rows))
        ∧ (∀ id a,
             (∃ row, row ∈ rows ∧ row_id row = id ∧ row_doc row = a)
             ↔ appointments (db w) !! id = Some a
               ∧ Appointment.faculty a = faculty.1)
        ∧ NoDup (row_id <$> rows)
        ∧ StronglySorted
            (λ r1 r2, (Appointment.date (row_doc r1)
                       ≤ Appointment.date (row_doc r2))%Z) rows
        ∧ (∀ row, row ∈ rows →
             row_party row
             = populate_student (db w) (Appointment.student (row_doc row))
             ∧ row_availability row
               = populate_availability (db w)
                   (Appointment.availability (row_doc row)))
  end.
Proof.
  run_listing.
  destruct (findOne _ (faculties (db w))) as [faculty|]; [|reflexivity].
  eexists. split; [reflexivity|].
  pose proof (listing_rows
                (λ st a, populate_student st (Appointment.student a))
                (λ a, Appointment.faculty a = faculty.1) w) as Hrows.
  exact Hrows.
Qed.

End ListingFacts.

Section Composition.

Context (castable : string → bool).
Context (transport : Email → bool) (toDateString : Z → string).

Local Abbreviation send := (sendAppointmentEmail transport).
Local Abbreviation serve := (serve castable send toDateString).
Local Abbreviation serve_all := (serve_all castable send toDateString).
Local Abbreviation bookAppointment := (bookAppointment castable send toDateString).
Local Abbreviation student_of st uid :=
  (findOne (λ s, bool_decide (Student.user s = uid)) (students st)).

(** While profiles only grow, a user keeps the student profile it has, if
    it has only one. *)
Lemma student_of_grown st st' uid sid s :
  profiles_grown st st' →
  one_student_per_user st →
  student_of st uid = Some (sid, s) →
  ∃ s', student_of st' uid = Some (sid, s').
Proof.
  intros (_ & Hgrow & _) Hone Hfind.
  apply findOne_Some in Hfind as [Hsid Huser]. unbool.
  pose proof (Hgrow sid) as Hs. rewrite Hsid in Hs. destruct Hs as [l Hs].
  destruct (student_of st' uid) as [[k v]|] eqn:E.
  - apply findOne_Some in E as [Hk Hv]. unbool.
    pose proof (Hgrow k) as Hk'.
    destruct (students st !! k) as [sk|] eqn:Ek; [|congruence].
    destruct Hk' as [lk Hk']. rewrite Hk in Hk'. injection Hk' as ->.
    cbn in Hv. assert (k = sid) as -> by (eapply Hone; eauto; congruence).
    rewrite Hs in Hk. eauto.
  - eapply findOne_None in E; [|exact Hs]. cbn in E.
    apply bool_decide_eq_false_1 in E. done.
Qed.

(** A successful booking is stored as a pending appointment of the
    caller's student profile. *)
Lemma book_success_student w uid facultyId availabilityId date purpose w' r :
  bookAppointment uid facultyId availabilityId date purpose w = (w', r) →
  success r = true →
  ∃ sid s id doc,
    student_of (db w) uid = Some (sid, s)
    ∧ data r = Some (id, doc)
    ∧ appointments (db w') !! id = Some doc
    ∧ Appointment.student doc = sid
    ∧ Appointment.status doc = pending.
Proof.
  intros Hrun Hok. run_in Hrun. explore.
  all: eexists _, _, _, _; split; [reflexivity|]; split; [reflexivity|].
  all: split; [apply lookup_insert_eq|]. all: by split.
Qed.

(** X16. What a student has booked shows in the student's listing: after
    a successful [bookAppointment], [getStudentAppointments] of the same
    caller answers 200 with a row for the appointment the booking answered
    with, pending.  The caller is taken to have one student profile. *)
Theorem booked_appointment_is_listed departments w uid facultyId
    availabilityId date purpose w' r :
  one_student_per_user (db w) →
  bookAppointment uid facultyId availabilityId date purpose w = (w', r) →
  success r = true →
  ∃ id doc rows row,
    data r = Some (id, doc)
    ∧ getStudentAppointments departments uid w'
      = (w', inr (mkListing 200 true (List.length rows) rows))
    ∧ row ∈ rows
    ∧ row_id row = id
    ∧ row_doc row = doc
    ∧ Appointment.status (row_doc row) = pending.
Proof.
  intros Hone Hrun Hok.
  destruct (book_success_student _ _ _ _ _ _ _ _ Hrun Hok)
    as (sid & s & id & doc & Hfind & Hdata & Hdoc & Hsid & Hst).
  pose proof (profiles_grown_along castable transport toDateString
                [Book uid facultyId availabilityId date purpose] w) as Hgrow.
  route_in Hgrow. rewrite Hrun in Hgrow.
  cbn [fst] in Hgrow.
  destruct (student_of_grown _ _ _ _ _ Hgrow Hone Hfind) as [s' Hfind'].
  pose proof (listing_rows
                (λ st a, populate_faculty departments st (Appointment.faculty a))
                (λ a, Appointment.student a = sid) w') as (Hin & _).
  destruct (proj2 (Hin id doc) (conj Hdoc Hsid)) as (row & Hrow & Hid & Hd).
  exists id, doc. eexists _, row. split; [done|]. split.
  - run_listing. rewrite Hfind'. reflexivity.
  - rewrite Hd. done.
Qed.

(** X17. Nothing leaves a student's listing: every appointment that
    [getStudentAppointments] lists for a caller is still listed for that
    caller after any sequence of requests, with the booking snapshot it
    had, whether it has been rejected, cancelled or completed meanwhile.
    The caller is taken to have one student profile. *)
Theorem listed_appointments_stay_listed departments rqs uid w l :
  one_student_per_user (db w) →
  getStudentAppointments departments uid w = (w, inr l) →
  ∃ l',
    getStudentAppointments departments uid (serve_all rqs w)
    = (serve_all rqs w, inr l')
    ∧ ∀ row, row ∈ l_data l →
        ∃ row', row' ∈ l_data l'
                ∧ row_id row' = row_id row
                ∧ same_snapshot (row_doc row) (row_doc row').
Proof.
  intros Hone Hlist. revert Hlist. run_listing.
  destruct (student_of (db w) uid) as [[sid s]|] eqn:Hfind; [|discriminate].
  intros [= <-]. cbn [l_data].
  destruct (student_of_grown _ _ _ _ _ (profiles_grown_along castable
              transport toDateString rqs w) Hone Hfind) as [s' Hfind'].
  rewrite Hfind'. eexists. split; [reflexivity|]. cbn [l_data fst].
  pose proof (listing_rows
                (λ st a, populate_faculty departments st (Appointment.faculty a))
                (λ a, Appointment.student a = sid) w) as (Hin & _).
  pose proof (listing_rows
                (λ st a, populate_faculty departments st (Appointment.faculty a))
                (λ a, Appointment.student a = sid) (serve_all rqs w))
    as (Hin' & _).
  intros row Hrow.
  destruct (proj1 (Hin (row_id row) (row_doc row))) as [Hstored Hsid]; [eauto|].
  assert (Hkept : ∃ a', appointments (db (serve_all rqs w)) !! row_id row = Some a'
                        ∧ same_snapshot (row_doc row) a').
  { revert Hstored. generalize (row_doc row) as a.
    apply (serve_all_relates castable transport toDateString
             (λ w w', ∀ a, appointments (db w) !! row_id row = Some a →
                ∃ a', appointments (db w') !! row_id row = Some a'
                      ∧ same_snapshot a a')).
    - intros w0 a Ha. eauto using same_snapshot_refl.
    - intros w1 w2 w3 H12 H23 a Ha.
      destruct (H12 _ Ha) as (b & Hb & Hab).
      destruct (H23 _ Hb) as (c & Hc & Hbc).
      eauto using same_snapshot_trans.
    - intros rq w0 a. apply appointments_kept_step. }
  destruct Hkept as (a' & Ha' & Hsnap).
  destruct (proj2 (Hin' (row_id row) a')) as (row' & Hrow' & Hid & Hd).
  { split; [done|]. destruct Hsnap as (-> & _). done. }
  exists row'. rewrite Hd. done.
Qed.

End Composition.

(** ** The times the schema accepts *)

Section Times.

Lemma char_between_spec lo hi c :
  char_between lo hi c = true
  ↔ (nat_of_ascii lo ≤ nat_of_ascii c ≤ nat_of_ascii hi)%nat.
Proof.
  unfold char_between. rewrite andb_true_iff, !Nat.leb_le. done.
Qed.

(** A character is the digit its code says. *)
Lemma digit_of_code c n :
  nat_of_ascii c = (48 + n)%nat → digit n = c.
Proof. intros H. unfold digit. by rewrite <- H, ascii_nat_embedding. Qed.

(** X18. The [match] validator of [startTime] and [endTime] accepts
    exactly the times of day written HH:MM on the 24-hour clock: a string
    passes if and only if it is [h]:[m] in two digits each for an hour
    below 24 and a minute below 60. *)
Theorem match_HHMM_accepts_the_clock s :
  match_HHMM s = true
  ↔ ∃ h m, (h < 24)%nat ∧ (m < 60)%nat ∧ s = clock h m.
Proof.
  split.
  - destruct s as [|h1 [|h2 [|c [|m1 [|m2 [|? ?]]]]]]; try discriminate.
    unfold match_HHMM.
    rewrite !andb_true_iff, orb_true_iff, !andb_true_iff, !char_between_spec.
    change (nat_of_ascii "0") with 48%nat. change (nat_of_ascii "1") with 49%nat.
    change (nat_of_ascii "2") with 50%nat. change (nat_of_ascii "3") with 51%nat.
    change (nat_of_ascii "5") with 53%nat. change (nat_of_ascii "9") with 57%nat.
    change (nat_of_ascii ":") with 58%nat.
    intros [[[Hh Hc] Hm1] Hm2].
    assert (c = ":"%char) as ->.
    { rewrite <- (ascii_nat_embedding c).
      replace (nat_of_ascii c) with 58%nat by lia. reflexivity. }
    set (a := (nat_of_ascii h1 - 48)%nat). set (b := (nat_of_ascii h2 - 48)%nat).
    set (x := (nat_of_ascii m1 - 48)%nat). set (y := (nat_of_ascii m2 - 48)%nat).
    exists (10 * a + b)%nat, (10 * x + y)%nat.
    split; [lia|]. split; [lia|]. unfold clock.
    rewrite <- (Nat.div_unique (10 * a + b) 10 a b) by lia.
    rewrite <- (Nat.mod_unique (10 * a + b) 10 a b) by lia.
    rewrite <- (Nat.div_unique (10 * x + y) 10 x y) by lia.
    rewrite <- (Nat.mod_unique (10 * x + y) 10 x y) by lia.
    rewrite (digit_of_code h1 a), (digit_of_code h2 b),
      (digit_of_code m1 x), (digit_of_code m2 y) by lia.
    reflexivity.
  - intros (h & m & Hh & Hm & ->).
    assert (Hall : forallb (λ h, forallb (λ m, match_HHMM (clock h m)) (seq 0 60))
                     (seq 0 24) = true) by (vm_compute; reflexivity).
    rewrite forallb_forall in Hall.
    specialize (Hall h). rewrite forallb_forall in Hall.
    apply Hall; apply in_seq; lia.
Qed.

End Times.

(** * Scenarios on the sample campus *)

Section Scenarios.
Import Sample Edge.

(** The handlers over the cast of the sample. *)
Local Abbreviation bookAppointment := (bookAppointment hex24).
Local Abbreviation updateAppointmentStatus := (updateAppointmentStatus hex24).
Local Abbreviation cancelAppointment := (cancelAppointment hex24).
Local Abbreviation completeAppointment := (completeAppointment hex24).
Local Abbreviation book_alone := (book_alone hex24).
Local Abbreviation book_interleaved := (book_interleaved hex24).

(** Alice's booking stores [visit] under the id ["0"]. *)
Example requested_visit : appointments (db requested) !! "0" = Some visit.
Proof. vm_compute. reflexivity. Qed.

(** C3. A completed appointment is not frozen: on the appointment that
    was booked, accepted and completed, [cancelAppointment] called by the
    student who owns it answers 200 and turns the status from completed
    into cancelled.  The guards of [cancelAppointment] name cancelled and
    rejected only. *)
Theorem cancel_changes_completed :
  Appointment.status <$> appointments (db held) !! "0" = Some completed
  ∧ owner_role (db held) "u-alice" (Appointment.set_status completed visit)
    = Some RStudent
  ∧ let '(w', r) := cancelAppointment mail dateString "u-alice" "0" None held in
    code r = 200 ∧ success r = true
    ∧ Appointment.status <$> appointments (db w') !! "0" = Some cancelled.
Proof. vm_compute. repeat split. Qed.

(** C1. From the consistent sample campus, book, accept and complete keep
    the slot-consistency invariant and leave the slot free, and so does
    the booking of the freed slot by another student; cancelling the
    completed appointment then sets isBooked = false on the slot while
    the second, pending appointment references it: a slot is flagged free
    although a pending appointment holds it. *)
Theorem cancel_of_completed_breaks_slot_consistency :
  let '(w1, r1) := bookAppointment mail dateString "u-alice" "f-bob" "av-mon9"
                     (Some jan1) (Some "Thesis review") campus in
  let '(w2, r2) := updateAppointmentStatus mail dateString "u-bob" "0"
                     "accepted" None w1 in
  let '(w3, r3) := completeAppointment mail dateString "u-bob" "0" w2 in
  let '(w4, r4) := bookAppointment mail dateString "u-carol" "f-bob" "av-mon9"
                     (Some jan2) (Some "Exam questions") w3 in
  let '(w5, r5) := cancelAppointment mail dateString "u-alice" "0" None w4 in
  code <$> [r1; r2; r3; r4; r5] = [201; 200; 200; 201; 200]%nat
  ∧ (slots_consistent ∘ db) <$> [campus; w1; w2; w3; w4]
    = [true; true; true; true; true]
  ∧ Availability.isBooked <$> availabilities (db w3) !! "av-mon9" = Some false
  ∧ slots_consistent (db w5) = false
  ∧ Availability.isBooked <$> availabilities (db w5) !! "av-mon9" = Some false
  ∧ Appointment.status <$> appointments (db w5) !! "1" = Some pending
  ∧ Appointment.availability <$> appointments (db w5) !! "1" = Some "av-mon9".
Proof. vm_compute. repeat split. Qed.

(** C2. Two requests for the same free slot, each suspended after its
    reads and resumed afterwards, both answer 201: two pending
    appointments reference the slot, and no request is turned down. *)
Theorem interleaved_bookings_share_a_slot :
  let rq1 := mkBookRequest "u-alice" "f-bob" "av-mon9" (Some jan1)
               (Some "Thesis review") in
  let rq2 := mkBookRequest "u-carol" "f-bob" "av-mon9" (Some jan1)
               (Some "Exam questions") in
  let '(w', (r1, r2)) := book_interleaved mail dateString rq1 rq2 campus in
  code r1 = 201 ∧ success r1 = true
  ∧ code r2 = 201 ∧ success r2 = true
  ∧ (holders (db w') "av-mon9").*1 = ["1"; "0"]
  ∧ Appointment.status <$> appointments (db w') !! "0" = Some pending
  ∧ Appointment.status <$> appointments (db w') !! "1" = Some pending.
Proof. vm_compute. repeat split. Qed.

(** C6 as stated fails.  Alice owns the pending appointment and cancels
    it.  With a reason of 201 characters the save is refused and the
    answer is 500, the appointment staying pending and the slot booked.
    With the stored document carrying the start time 9:00 the save is
    refused as well, and nothing is written.  Bob, the faculty of the
    appointment, is refused with 403 once he has a student profile of his
    own.  With Bob's user record gone, or with a mail helper that throws,
    the answer is 500 although the cancellation is stored.  An empty
    reason is not stored. *)
Lemma cancel_by_owner_can_fail :
  appointments (db requested) !! "0" = Some visit
  ∧ Appointment.status visit = pending
  ∧ owner_role (db requested) "u-alice" visit = Some RStudent
  ∧ String.length too_long = 201
  ∧ (let '(w', r) := cancelAppointment mail dateString "u-alice" "0"
                       (Some too_long) requested in
     code r = 500 ∧ success r = false
     ∧ appointments (db w') !! "0" = Some visit
     ∧ Availability.isBooked <$> availabilities (db w') !! "av-mon9"
       = Some true)
  ∧ appointments (db legacy) !! "0" = Some early_visit
  ∧ Appointment.startTime early_visit = "9:00"
  ∧ owner_role (db legacy) "u-alice" early_visit = Some RStudent
  ∧ (let '(w', r) := cancelAppointment mail dateString "u-alice" "0" None
                       legacy in
     code r = 500 ∧ success r = false ∧ error r = Some ValidationError
     ∧ db w' = db legacy)
  ∧ Appointment.faculty visit = "f-bob"
  ∧ Faculty.user <$> faculties (db enrolled) !! "f-bob" = Some "u-bob"
  ∧ Student.user <$> students (db enrolled) !! "s-bob" = Some "u-bob"
  ∧ cancelAppointment mail dateString "u-bob" "0" None enrolled
    = (enrolled, failure 403 "Not authorized to cancel this appointment")
  ∧ (let '(w', r) := cancelAppointment mail dateString "u-alice" "0" None
                       (without_user "u-bob" requested) in
     code r = 500 ∧ success r = false ∧ error r = Some TypeError
     ∧ Appointment.status <$> appointments (db w') !! "0" = Some cancelled)
  ∧ (let '(w', r) := cancelAppointment throwing dateString "u-alice" "0" None
                       requested in
     code r = 500 ∧ success r = false ∧ error r = Some MailError
     ∧ Appointment.status <$> appointments (db w') !! "0" = Some cancelled)
  ∧ (let '(w', r) := cancelAppointment mail dateString "u-alice" "0" (Some "")
                       requested in
     code r = 200
     ∧ Appointment.status <$> appointments (db w') !! "0" = Some cancelled
     ∧ Appointment.cancelReason <$> appointments (db w') !! "0" = Some None).
Proof. vm_compute. repeat split. Qed.



(** Served one after the other, the same two requests give one
    appointment and one refusal. *)
Example sequential_bookings_exclude :
  let rq1 := mkBookRequest "u-alice" "f-bob" "av-mon9" (Some jan1)
               (Some "Thesis review") in
  let rq2 := mkBookRequest "u-carol" "f-bob" "av-mon9" (Some jan1)
               (Some "Exam questions") in
  let '(w1, r1) := book_alone mail dateString rq1 campus in
  let '(w2, r2) := book_alone mail dateString rq2 w1 in
  code r1 = 201
  ∧ r2 = failure 400 "Availability slot is already booked"
  ∧ (holders (db w2) "av-mon9").*1 = ["0"].
Proof. vm_compute. repeat split. Qed.

(** The sample campus starts consistent. *)
Example campus_consistent : consistent (db campus).
Proof.
  assert (Hnone : ∀ slot id, ¬ holds_slot (db campus) slot id).
  { intros slot id (a & Ha & _). cbn in Ha. by rewrite lookup_empty in Ha. }
  split.
  - intros slot av Hav. cbn in Hav.
    apply lookup_singleton_Some in Hav as [_ <-]. split; [done|].
    intros [id Hid]. by destruct (Hnone _ _ Hid).
  - intros slot id1 id2 H1. by destruct (Hnone _ _ H1).
Qed.

(** Book, then reject with a reason: the appointment is rejected with the
    reason stored, the slot is free again, and the same student can book it
    a second time. *)
Example reject_then_book_again :
  let '(w1, r1) := bookAppointment mail dateString "u-alice" "f-bob" "av-mon9"
                     (Some jan1) (Some "Thesis review") campus in
  let '(w2, r2) := updateAppointmentStatus mail dateString "u-bob" "0"
                     "rejected" (Some "conflict") w1 in
  let '(w3, r3) := bookAppointment mail dateString "u-alice" "f-bob" "av-mon9"
                     (Some jan1) (Some "Thesis review") w2 in
  Appointment.status <$> appointments (db w1) !! "0" = Some pending
  ∧ Availability.isBooked <$> availabilities (db w1) !! "av-mon9" = Some true
  ∧ Appointment.status <$> appointments (db w2) !! "0" = Some rejected
  ∧ Appointment.cancelReason <$> appointments (db w2) !! "0"
    = Some (Some "conflict")
  ∧ Availability.isBooked <$> availabilities (db w2) !! "av-mon9" = Some false
  ∧ code r3 = 201
  ∧ Appointment.status <$> appointments (db w3) !! "1" = Some pending.
Proof. vm_compute. repeat split. Qed.

(** Book, accept, complete: the appointment ends completed, the slot free,
    and after the two mails of the booking the student is mailed twice more
    and the faculty not at all. *)
Example accept_then_complete :
  mail_to <$> outbox requested = ["alice@campus.test"; "bob@campus.test"]
  ∧ Appointment.status <$> appointments (db held) !! "0" = Some completed
  ∧ Availability.isBooked <$> availabilities (db held) !! "av-mon9" = Some false
  ∧ (λ m, (mail_to m, mail_subject m)) <$> drop 2 (outbox held)
    = [("alice@campus.test", "Appointment Accepted");
       ("alice@campus.test", "Appointment Completed")].
Proof. vm_compute. repeat split. Qed.

End Scenarios.

(** ** The theorems at work *)

Section Witnesses.
Import Sample Edge SampleListing.

(** The handlers over the cast of the sample. *)
Local Abbreviation bookAppointment := (bookAppointment hex24).
Local Abbreviation updateAppointmentStatus := (updateAppointmentStatus hex24).
Local Abbreviation cancelAppointment := (cancelAppointment hex24).
Local Abbreviation completeAppointment := (completeAppointment hex24).
Local Abbreviation serve := (serve hex24).

(** Carol, who owns neither side, cancels the rejected appointment. *)
Lemma cancel_checks_status_before_caller_witness :
  ∃ msg,
    cancelAppointment mail dateString "u-carol" "0" None declined
    = (declined, failure 400 msg)
    ∧ msg = "Cannot cancel a rejected appointment".
Proof.
  apply (cancel_checks_status_before_caller hex24 delivering dateString declined
           "u-carol" "0" None (Appointment.set_status rejected visit)).
  - vm_compute. reflexivity.
  - right. reflexivity.
Defined.

(** Bob rejects the appointment he has already accepted. *)
Lemma updateStatus_not_pending_witness :
  updateAppointmentStatus mail dateString "u-bob" "0" "rejected" None confirmed
  = (confirmed, failure 400 "Appointment is already accepted").
Proof.
  apply (updateStatus_not_pending hex24 delivering dateString confirmed "u-bob" "0"
           "rejected" None "f-bob" bob_booked
           (Appointment.set_status accepted visit)).
  - right. reflexivity.
  - vm_compute. reflexivity.
  - vm_compute. reflexivity.
  - reflexivity.
  - discriminate.
Defined.

(** Bob completes the accepted appointment; on the pending one he is told
    its status. *)
Lemma complete_only_from_accepted_witness :
  let run := completeAppointment mail dateString "u-bob" "0" confirmed in
  let early := completeAppointment mail dateString "u-bob" "0" requested in
  (success run.2 = true
   ∧ ∃ fid f a,
       findOne (λ f, bool_decide (Faculty.user f = "u-bob"))
         (faculties (db confirmed)) = Some (fid, f)
       ∧ appointments (db confirmed) !! "0" = Some a
       ∧ Appointment.faculty a = fid
       ∧ Appointment.status a = accepted
       ∧ code run.2 = 200
       ∧ appointments (db run.1) !! "0"
         = Some (Appointment.set_status completed a)
       ∧ availabilities (db run.1) !! Appointment.availability a
         = Availability.set_isBooked false
             <$> availabilities (db confirmed) !! Appointment.availability a)
  ∧ early.1 = requested
  ∧ early.2
    = failure 400
        "Appointment must be accepted before it can be completed. Current status: pending".
Proof.
  intros run early.
  destruct (complete_only_from_accepted hex24 delivering dateString confirmed
              "u-bob" "0" run.1 run.2 (surjective_pairing run)) as [Hok _].
  destruct (complete_only_from_accepted hex24 delivering dateString requested
              "u-bob" "0" early.1 early.2 (surjective_pairing early))
    as [_ Hearly].
  assert (Hs : success run.2 = true) by (vm_compute; reflexivity).
  split; [exact (conj Hs (Hok Hs))|].
  apply (Hearly "f-bob" bob_booked visit).
  - vm_compute. reflexivity.
  - vm_compute. reflexivity.
  - reflexivity.
  - discriminate.
Defined.

(** The slot is gone: Bob rejects, or Alice cancels, the pending
    appointment; or Bob completes it once accepted. *)
Lemma release_skipped_when_slot_gone_witness :
  let w := orphaned requested in
  let rejecting := updateAppointmentStatus mail dateString "u-bob" "0"
                     "rejected" (Some "conflict") w in
  let cancelling := cancelAppointment mail dateString "u-alice" "0" None w in
  let completing := completeAppointment mail dateString "u-bob" "0"
                      (orphaned confirmed) in
  (code rejecting.2 = 200 ∧ success rejecting.2 = true
   ∧ Appointment.status <$> appointments (db rejecting.1) !! "0" = Some rejected
   ∧ availabilities (db rejecting.1) = availabilities (db w))
  ∧ (code cancelling.2 = 200 ∧ success cancelling.2 = true
     ∧ Appointment.status <$> appointments (db cancelling.1) !! "0"
       = Some cancelled
     ∧ availabilities (db cancelling.1) = availabilities (db w))
  ∧ (code completing.2 = 200 ∧ success completing.2 = true
     ∧ Appointment.status <$> appointments (db completing.1) !! "0"
       = Some completed
     ∧ availabilities (db completing.1)
       = availabilities (db (orphaned confirmed))).
Proof.
  intros w rejecting cancelling completing.
  destruct (release_skipped_when_slot_gone hex24 mail dateString
              (sendAppointmentEmail_returns delivering) w "0" visit)
    as (Hreject & Hcancel & _).
  - vm_compute. reflexivity.
  - vm_compute. reflexivity.
  - reflexivity.
  - vm_compute. eexists. reflexivity.
  - destruct (release_skipped_when_slot_gone hex24 mail dateString
                (sendAppointmentEmail_returns delivering)
                (orphaned confirmed) "0" (Appointment.set_status accepted visit))
      as (_ & _ & Hcomplete).
    + vm_compute. reflexivity.
    + vm_compute. reflexivity.
    + reflexivity.
    + vm_compute. eexists. reflexivity.
    + split; [|split].
      * apply (Hreject "u-bob" (Some "conflict") "f-bob" bob_booked).
        -- vm_compute. reflexivity.
        -- reflexivity.
        -- reflexivity.
        -- reflexivity.
        -- apply surjective_pairing.
      * apply (Hcancel "u-alice" None RStudent).
        -- vm_compute. reflexivity.
        -- left. reflexivity.
        -- reflexivity.
        -- vm_compute. eexists. reflexivity.
        -- apply surjective_pairing.
      * apply (Hcomplete "u-bob" "f-bob" bob_booked).
        -- vm_compute. reflexivity.
        -- reflexivity.
        -- reflexivity.
        -- apply surjective_pairing.
Defined.

(** Alice cancels her pending appointment, giving a reason; the rejected
    one she cannot cancel. *)
Lemma cancel_by_owner_witness :
  let run := cancelAppointment mail dateString "u-alice" "0" (Some "Sick")
               requested in
  let late := cancelAppointment mail dateString "u-alice" "0" (Some "Sick")
                declined in
  let a' := cancelled_by RStudent (Some "Sick") visit in
  (appointments (db run.1) !! "0" = Some a'
   ∧ Appointment.status a' = cancelled
   ∧ Appointment.cancelledBy a' = Some RStudent
   ∧ Appointment.cancelReason a' = Some "Sick"
   ∧ availabilities (db run.1) !! "av-mon9"
     = Availability.set_isBooked false
         <$> availabilities (db requested) !! "av-mon9"
   ∧ run.2 = ok_response 200 "Appointment cancelled successfully" ("0", a'))
  ∧ late.1 = declined
  ∧ late.2 = failure 400 "Cannot cancel a rejected appointment".
Proof.
  intros run late a'.
  destruct (cancel_by_owner hex24 mail dateString
              (sendAppointmentEmail_returns delivering) requested "u-alice" "0"
              (Some "Sick") visit run.1 run.2) as [_ Hcommit].
  - vm_compute. reflexivity.
  - apply surjective_pairing.
  - destruct (cancel_by_owner hex24 mail dateString
                (sendAppointmentEmail_returns delivering) declined "u-alice"
                "0" (Some "Sick") (Appointment.set_status rejected visit)
                late.1 late.2) as [Hlate _].
    + vm_compute. reflexivity.
    + apply surjective_pairing.
    + split; [|exact (Hlate eq_refl)].
      destruct (Hcommit RStudent) as (H1 & H2 & H3 & H4 & H5 & H6).
      * left. reflexivity.
      * vm_compute. reflexivity.
      * reflexivity.
      * reflexivity.
      * refine (conj H1 (conj H2 (conj H3 (conj H4 (conj H5 (H6 _ _)))))).
        -- vm_compute. eexists. reflexivity.
        -- vm_compute. eexists. reflexivity.
Defined.



End Witnesses.

(** ** The sequences, the answers and the listings at work *)

Section MoreWitnesses.
Import Sample Edge SampleListing.

(** The handlers over the cast of the sample. *)
Local Abbreviation bookAppointment := (bookAppointment hex24).
Local Abbreviation updateAppointmentStatus := (updateAppointmentStatus hex24).
Local Abbreviation completeAppointment := (completeAppointment hex24).
Local Abbreviation serve := (serve hex24).
Local Abbreviation serve_all := (serve_all hex24).
Local Abbreviation book_interleaved := (book_interleaved hex24).

(** On the sample campus no user has two student profiles. *)
Example campus_one_student_per_user : one_student_per_user (db campus).
Proof.
  intros sid1 sid2 s1 s2 H1 H2 Hu.
  change (students (db campus))
    with ({[ "s-alice" := alice; "s-carol" := carol ]} : gmap string Student.t)
    in H1, H2.
  apply lookup_insert_Some in H1. destruct H1 as [[<- <-] | [_ H1]].
  - apply lookup_insert_Some in H2. destruct H2 as [[<- <-] | [_ H2]].
    + reflexivity.
    + apply lookup_singleton_Some in H2 as [_ <-]. discriminate.
  - apply lookup_singleton_Some in H1 as [<- <-].
    apply lookup_insert_Some in H2. destruct H2 as [[<- <-] | [_ H2]].
    + discriminate.
    + by apply lookup_singleton_Some in H2 as [<- _].
Qed.

(** Nor once Alice has booked. *)
Example requested_one_student_per_user : one_student_per_user (db requested).
Proof.
  assert (Heq : students (db requested)
                = {[ "s-alice" := Student.push_appointment "0" alice;
                     "s-carol" := carol ]}) by (vm_compute; reflexivity).
  intros sid1 sid2 s1 s2 H1 H2 Hu. rewrite Heq in H1, H2.
  apply lookup_insert_Some in H1. destruct H1 as [[<- <-] | [_ H1]].
  - apply lookup_insert_Some in H2. destruct H2 as [[<- <-] | [_ H2]].
    + reflexivity.
    + apply lookup_singleton_Some in H2 as [_ <-]. discriminate.
  - apply lookup_singleton_Some in H1 as [<- <-].
    apply lookup_insert_Some in H2. destruct H2 as [[<- <-] | [_ H2]].
    + discriminate.
    + by apply lookup_singleton_Some in H2 as [<- _].
Qed.

(** On the sample campus, where nothing is booked yet, the lists of
    appointments are empty, as is the collection. *)
Example campus_backrefs_agree : backrefs_agree (db campus).
Proof.
  split.
  - intros sid s id Hs.
    change (students (db campus))
      with ({[ "s-alice" := alice; "s-carol" := carol ]} : gmap string Student.t)
      in Hs.
    change (appointments (db campus)) with (∅ : gmap string Appointment.t).
    assert (Student.appointments s = []) as ->.
    { apply lookup_insert_Some in Hs. destruct Hs as [[_ <-] | [_ Hs]].
      - reflexivity.
      - apply lookup_singleton_Some in Hs as [_ <-]. reflexivity. }
    split.
    + intros H. by apply elem_of_nil in H.
    + intros (a & Ha & _). rewrite lookup_empty in Ha. discriminate.
  - intros fid f id Hf.
    change (faculties (db campus))
      with ({[ "f-bob" := bob ]} : gmap string Faculty.t) in Hf.
    change (appointments (db campus)) with (∅ : gmap string Appointment.t).
    apply lookup_singleton_Some in Hf as [_ <-].
    split.
    + intros H. by apply elem_of_nil in H.
    + intros (a & Ha & _). rewrite lookup_empty in Ha. discriminate.
Qed.

(** Alice cancels her pending appointment: it stays on file as booked. *)
Lemma appointments_are_kept_witness :
  ∃ a', appointments
          (db (serve_all mail dateString [Cancel "u-alice" "0" None] requested))
        !! "0" = Some a'
        ∧ same_snapshot visit a'.
Proof.
  apply (appointments_are_kept hex24 delivering dateString
           [Cancel "u-alice" "0" None] requested "0" visit).
  vm_compute. reflexivity.
Defined.

(** Bob accepts the pending appointment. *)
Lemma status_changes_follow_moves_witness :
  Appointment.set_status accepted visit = visit
  ∨ moves (Appointment.status visit)
      (Appointment.status (Appointment.set_status accepted visit)) = true.
Proof.
  pose (run := serve mail dateString (UpdateStatus "u-bob" "0" "accepted" None)
                 requested).
  apply (status_changes_follow_moves hex24 delivering dateString
           (UpdateStatus "u-bob" "0" "accepted" None) requested run.1 run.2
           "0" visit (Appointment.set_status accepted visit)
           (surjective_pairing run)).
  - vm_compute. reflexivity.
  - vm_compute. reflexivity.
Defined.

(** Bob, whose profile is the faculty of the appointment, accepts it. *)
Lemma only_owners_change_appointments_witness :
  ∃ f, findOne (λ f, bool_decide (Faculty.user f = "u-bob"))
         (faculties (db requested)) = Some ("f-bob", f).
Proof.
  pose (run := serve mail dateString (UpdateStatus "u-bob" "0" "accepted" None)
                 requested).
  apply (only_owners_change_appointments hex24 delivering dateString
           (UpdateStatus "u-bob" "0" "accepted" None) requested run.1 run.2
           "0" visit (Appointment.set_status accepted visit)
           (surjective_pairing run)).
  - vm_compute. reflexivity.
  - vm_compute. reflexivity.
  - discriminate.
Defined.

(** Bob rejects Alice's appointment with a reason. *)
Lemma stored_appointments_stay_valid_witness :
  appointments (db requested) = {[ "0" := visit ]}
  ∧ ∀ id a,
      appointments
        (db (serve_all mail dateString
               [UpdateStatus "u-bob" "0" "rejected" (Some "conflict")]
               requested))
      !! id = Some a →
      stored_ok a = true.
Proof.
  split; [vm_compute; reflexivity|].
  apply (stored_appointments_stay_valid hex24 delivering dateString
           [UpdateStatus "u-bob" "0" "rejected" (Some "conflict")] requested).
  intros id a H.
  assert (Heq : appointments (db requested) = {[ "0" := visit ]})
    by (vm_compute; reflexivity).
  rewrite Heq in H. apply lookup_singleton_Some in H as [_ <-].
  vm_compute. reflexivity.
Defined.

(** The lifecycle of Alice's appointment, from the empty campus. *)
Lemma one_active_per_day_kept_witness :
  one_active_per_day (db (serve_all mail dateString lifecycle campus)).
Proof.
  apply (one_active_per_day_kept hex24 delivering dateString lifecycle campus).
  intros id1 id2 a1 a2 H1.
  change (appointments (db campus)) with (∅ : gmap string Appointment.t) in H1.
  rewrite lookup_empty in H1. discriminate.
Defined.

(** Bob's stored document passes the validators of its schema. *)
Lemma backrefs_agree_kept_witness :
  validate_faculty bob = true
  ∧ backrefs_agree (db (serve_all mail dateString second_thoughts campus)).
Proof.
  split; [reflexivity|].
  apply (backrefs_agree_kept hex24 delivering dateString second_thoughts
           campus).
  - intros fid f Hf.
    change (faculties (db campus))
      with ({[ "f-bob" := bob ]} : gmap string Faculty.t) in Hf.
    apply lookup_singleton_Some in Hf as [_ <-]. reflexivity.
  - exact campus_backrefs_agree.
Defined.

(** Bob completes an appointment that is still pending. *)
Lemma client_errors_write_nothing_witness :
  (serve mail dateString (Complete "u-bob" "0") requested).1 = requested.
Proof.
  pose (run := serve mail dateString (Complete "u-bob" "0") requested).
  apply (client_errors_write_nothing hex24 delivering dateString
           (Complete "u-bob" "0") requested run.1 run.2
           (surjective_pairing run)).
  - vm_compute. reflexivity.
  - vm_compute. discriminate.
Defined.

(** Alice books with a purpose of 201 characters, and then with Dan,
    whose stored phone number has three digits. *)
Lemma rejected_input_writes_nothing_witness :
  let run := serve mail dateString
               (Book "u-alice" "f-bob" "av-mon9" (Some jan1) (Some too_long))
               campus in
  let late := serve mail dateString
                (Book "u-alice" "f-dan" "av-tue9" (Some jan1)
                   (Some "Thesis review"))
                wider_campus in
  (code run.2 = 500 ∧ outbox run.1 = outbox campus ∧ db run.1 = db campus)
  ∧ code late.2 = 500
  ∧ outbox late.1 = outbox wider_campus
  ∧ faculties (db late.1) = faculties (db wider_campus)
  ∧ is_Some (appointments (db late.1) !! "0").
Proof.
  intros run late.
  destruct (rejected_input_writes_nothing hex24 delivering dateString
              (Book "u-alice" "f-bob" "av-mon9" (Some jan1) (Some too_long))
              campus run.1 run.2 (surjective_pairing run))
    as (Hcode & Hout & _).
  { right. vm_compute. reflexivity. }
  destruct (rejected_input_writes_nothing hex24 delivering dateString
              (Book "u-alice" "f-dan" "av-tue9" (Some jan1)
                 (Some "Thesis review"))
              wider_campus late.1 late.2 (surjective_pairing late))
    as (Hcode' & Hout' & _).
  { right. vm_compute. reflexivity. }
  split; [|split; [exact Hcode'|split; [exact Hout'|]]].
  - split; [exact Hcode|]. split; [exact Hout|]. vm_compute. reflexivity.
  - split; vm_compute; [reflexivity|eexists; reflexivity].
Defined.

(** Alice books on a campus without user records. *)
Lemma missing_contact_fails_after_the_write_witness :
  let run := serve mail dateString alice_books strangers in
  code run.2 = 500
  ∧ success run.2 = false
  ∧ ∃ id a', appointments (db run.1) !! id = Some a'
             ∧ appointments (db strangers) !! id ≠ Some a'.
Proof.
  intros run.
  apply (missing_contact_fails_after_the_write hex24 delivering dateString
           alice_books strangers run.1 run.2 (surjective_pairing run)).
  vm_compute. reflexivity.
Defined.

Lemma success_carries_the_stored_appointment_witness :
  let run := serve mail dateString alice_books campus in
  code run.2 = 201
  ∧ ∃ id a, data run.2 = Some (id, a)
            ∧ appointments (db run.1) !! id = Some a.
Proof.
  intros run.
  apply (success_carries_the_stored_appointment hex24 delivering dateString
           alice_books campus run.1 run.2 (surjective_pairing run)).
  vm_compute. reflexivity.
Defined.

Lemma success_notifies_witness :
  let run := serve mail dateString alice_books campus in
  console run.1 = console campus
  ∧ ∃ id a su,
      data run.2 = Some (id, a)
      ∧ student_contact (db campus) a = Some su
      ∧ ∃ fu m1 m2,
          faculty_contact (db campus) a = Some fu
          ∧ outbox run.1 = (outbox campus ++ [m1; m2])%list
          ∧ mail_to m1 = User.email su
          ∧ mail_to m2 = User.email fu.
Proof.
  intros run.
  apply (success_notifies hex24 delivering dateString alice_books campus
           run.1 run.2 (λ _, eq_refl) (surjective_pairing run)).
  vm_compute. reflexivity.
Defined.

Lemma booked_appointment_is_listed_witness :
  let run := bookAppointment mail dateString "u-alice" "f-bob" "av-mon9"
               (Some jan1) (Some "Thesis review") campus in
  ∃ id doc rows row,
    data run.2 = Some (id, doc)
    ∧ getStudentAppointments departments "u-alice" run.1
      = (run.1, inr (mkListing 200 true (List.length rows) rows))
    ∧ row ∈ rows
    ∧ row_id row = id
    ∧ row_doc row = doc
    ∧ Appointment.status (row_doc row) = pending.
Proof.
  intros run.
  apply (booked_appointment_is_listed hex24 delivering dateString departments campus
           "u-alice" "f-bob" "av-mon9" (Some jan1) (Some "Thesis review")
           run.1 run.2 campus_one_student_per_user (surjective_pairing run)).
  vm_compute. reflexivity.
Defined.

(** Alice's listing before and after Bob rejects and she books again. *)
Lemma listed_appointments_stay_listed_witness :
  let rqs := [UpdateStatus "u-bob" "0" "rejected" None; alice_books] in
  ∃ l',
    getStudentAppointments departments "u-alice"
      (serve_all mail dateString rqs requested)
    = (serve_all mail dateString rqs requested, inr l')
    ∧ ∀ row, row ∈ [visit_row] →
        ∃ row', row' ∈ l_data l'
                ∧ row_id row' = row_id row
                ∧ same_snapshot (row_doc row) (row_doc row').
Proof.
  intros rqs.
  apply (listed_appointments_stay_listed hex24 delivering dateString departments rqs
           "u-alice" requested (mkListing 200 true 1 [visit_row])
           requested_one_student_per_user).
  vm_compute. reflexivity.
Defined.

Lemma repeated_request_is_refused_witness :
  let run := serve mail dateString alice_books campus in
  ∃ msg, serve mail dateString alice_books run.1 = (run.1, failure 400 msg).
Proof.
  intros run.
  apply (repeated_request_is_refused hex24 delivering dateString alice_books campus
           run.1 run.2 (surjective_pairing run)).
  vm_compute. reflexivity.
Defined.


Lemma round_trip_frees_slot_witness :
  Availability.isBooked <$> availabilities (db requested) !! "av-mon9"
  = Some true
  ∧ ∀ av, availabilities (db held) !! "av-mon9" = Some av →
          Availability.isBooked av = false.
Proof.
  split; [vm_compute; reflexivity|].
  pose (run1 := bookAppointment mail dateString "u-alice" "f-bob" "av-mon9"
                  (Some jan1) (Some "Thesis review") campus).
  pose (run2 := updateAppointmentStatus mail dateString "u-bob" "0" "accepted"
                  None run1.1).
  pose (run3 := completeAppointment mail dateString "u-bob" "0" run2.1).
  apply (round_trip_frees_slot hex24 delivering dateString campus "u-alice" "f-bob"
           "av-mon9" (Some jan1) (Some "Thesis review") "u-bob" None
           run1.1 run1.2 run2.1 run2.2 run3.1 run3.2 "0" visit
           (surjective_pairing run1)).
  - vm_compute. reflexivity.
  - vm_compute. reflexivity.
  - exact (surjective_pairing run2).
  - vm_compute. reflexivity.
  - exact (surjective_pairing run3).
  - vm_compute. reflexivity.
Defined.

Lemma interleaved_bookings_inconsistent_witness :
  consistent (db campus)
  ∧ ¬ consistent
        (db (book_interleaved mail dateString alice_request carol_request
               campus).1).
Proof.
  split; [exact campus_consistent|].
  pose (run := book_interleaved mail dateString alice_request carol_request
                 campus).
  apply (interleaved_bookings_inconsistent hex24 dateString delivering
           alice_request carol_request campus alice_holds carol_holds
           campus campus run.1 run.2.1 run.2.2).
  - reflexivity.
  - vm_compute. reflexivity.
  - vm_compute. reflexivity.
  - vm_compute. reflexivity.
  - vm_compute. reflexivity.
  - vm_compute. reflexivity.
Defined.

End MoreWitnesses.

